(** * optimize_class.py: the hyper-parameter optimisation driver

    A shallow embedding of [fashion-hyperparameter/optimize_class.py]
    (classes [FlowRunner], [OptimizerCallback] and [Optimizer]) together
    with the properties of its specification.

    Conventions of the embedding.
    - Python exceptions are values of [exn]; a pure expression that may
      raise has type [result A], a statement sequence that reads and
      mutates the interpreter state has type [M A] (state and exception
      monad, the state at the point of the raise is kept).
    - A Python [dict] is an insertion-ordered association list ([Dict]).
    - Python floats are an abstract carrier with the three operations the
      program uses on them ([Arith]); every theorem about the accumulator
      holds for any such carrier.  Two instances are given: IEEE binary64,
      which is what the interpreter computes with, and the exact rationals.
    - Paths are lists of parts, the file system is a table from paths to
      directories and files; a file is known by the YAML document it holds.
    - The external libraries (the pipeline engine [jina.flow.Flow] and the
      search library's [trial.suggest_*] and study loop) are variables of
      the development; the example at the end of the definitions gives them
      concrete values to run the model on.
*)

From Stdlib Require Import List String Ascii ZArith QArith Bool Lia.
From Stdlib Require Import DecimalString.
From Stdlib Require Import Floats.PrimFloat Numbers.Cyclic.Int63.Uint63.
Import ListNotations.

Close Scope Q_scope.
Local Open Scope string_scope.
Local Open Scope list_scope.
Local Open Scope Z_scope.

Set Implicit Arguments.

(* ------------------------------------------------------------------ *)
(** ** Exceptions and pure results *)

Inductive exn : Type :=
| TypeError
| AttributeError
| KeyError (key : string)
| IndexError
| ValueError
| ZeroDivisionError
| FileNotFoundError
| FileExistsError
| NotADirectoryError
| IsADirectoryError
| YAMLError
| RuntimeError
| OSError
| LibraryError (tag : string).   (* raised inside an external library *)

Inductive result (A : Type) : Type :=
| Ok (a : A)
| Err (e : exn).

Arguments Ok {A} a.
Arguments Err {A} e.

Definition rbind {A B} (r : result A) (k : A -> result B) : result B :=
  match r with
  | Ok a => k a
  | Err e => Err e
  end.

(* ------------------------------------------------------------------ *)
(** ** Python dictionaries: insertion-ordered association lists *)

Module Dict.

Definition t (V : Type) : Type := list (string * V).

Definition empty {V} : t V := [].

(** [d.get(k)] *)
Fixpoint get {V} (k : string) (d : t V) : option V :=
  match d with
  | [] => None
  | (k', v) :: rest => if String.eqb k k' then Some v else get k rest
  end.

(** [d.get(k, default)] *)
Definition get_default {V} (k : string) (default : V) (d : t V) : V :=
  match get k d with
  | Some v => v
  | None => default
  end.

(** [k in d] *)
Definition contains {V} (k : string) (d : t V) : bool :=
  match get k d with
  | Some _ => true
  | None => false
  end.

(** [d[k] = v]: an existing key keeps its position, a new key goes last *)
Fixpoint set {V} (k : string) (v : V) (d : t V) : t V :=
  match d with
  | [] => [(k, v)]
  | (k', v') :: rest =>
      if String.eqb k k' then (k', v) :: rest else (k', v') :: set k v rest
  end.

(** [del d[k]] on a key that is present *)
Fixpoint remove {V} (k : string) (d : t V) : t V :=
  match d with
  | [] => []
  | (k', v') :: rest =>
      if String.eqb k k' then rest else (k', v') :: remove k rest
  end.

Definition keys {V} (d : t V) : list string := map fst d.
Definition values {V} (d : t V) : list V := map snd d.

(** [{**a, **b}] *)
Definition merge {V} (a b : t V) : t V :=
  fold_left (fun acc kv => set (fst kv) (snd kv) acc) b a.

End Dict.

(* ------------------------------------------------------------------ *)
(** ** Float arithmetic used by the accumulator *)

Class Arith : Type := {
  num : Type;
  num_zero : num;                   (* the literal 0.0 *)
  num_add : num -> num -> num;      (* float + float *)
  num_div : num -> Z -> num         (* float / int, for a non-zero int *)
}.

(** The ordering facts used for the accumulator invariant, stated on the
    non-negative elements only (they hold there for exact rationals). *)
Class ArithOrder (A : Arith) : Type := {
  num_le : num -> num -> Prop;
  num_le_refl : forall a, num_le num_zero a -> num_le a a;
  num_le_trans : forall a b c, num_le a b -> num_le b c -> num_le a c;
  num_le_zero : num_le num_zero num_zero;
  num_add_nonneg : forall a b,
      num_le num_zero a -> num_le num_zero b -> num_le a (num_add a b)
}.

#[export] Instance Q_arith : Arith := {
  num := Q;
  num_zero := 0%Q;
  num_add := Qplus;
  num_div := fun v n => Qdiv v (inject_Z n)
}.

(** [float(n)] for the counts that occur (below 2^63) *)
Definition float_of_Z (n : Z) : float :=
  if n <? 0 then PrimFloat.opp (PrimFloat.of_uint63 (Uint63.of_Z (- n)))
  else PrimFloat.of_uint63 (Uint63.of_Z n).

(** the arithmetic the interpreter performs: IEEE 754 binary64 *)
Definition binary64_arith : Arith := {|
  num := float;
  num_zero := PrimFloat.zero;
  num_add := PrimFloat.add;
  num_div := fun v n => PrimFloat.div v (float_of_Z n)
|}.

(** [x / n] with an int divisor: Python raises on a zero divisor *)
Definition truediv {A : Arith} (v : num) (n : Z) : result num :=
  if n =? 0 then Err ZeroDivisionError else Ok (num_div v n).

(* ------------------------------------------------------------------ *)
(** ** Search responses delivered to the callback *)

Section Callback.

Context {A : Arith}.

(** [evaluation.op_name], [evaluation.value] *)
Record Evaluation : Type := {
  ev_op_name : string;
  ev_value : num
}.

(** an element of [response.search.docs] *)
Record ResultDoc : Type := {
  evaluations : list Evaluation
}.

Record Response : Type := {
  search_docs : list ResultDoc
}.

(** *** class OptimizerCallback *)

Record OptimizerCallback : Type := {
  op_name : option string;
  evaluation_values : Dict.t num;
  n_docs : Z
}.

(** [OptimizerCallback.__init__] *)
Definition OptimizerCallback_init (op : option string) : OptimizerCallback :=
  {| op_name := op; evaluation_values := Dict.empty; n_docs := 0 |}.

(** truth value of [self.op_name]: [None] and [''] are false *)
Definition op_name_truthy (op : option string) : bool :=
  match op with
  | None => false
  | Some s => negb (String.eqb s EmptyString)
  end.

(** what [get_mean_evaluation] returns: a float or a dict of floats *)
Inductive mean_evaluation : Type :=
| MeanValue (v : num)
| MeanDict (d : Dict.t num).

(** the dict comprehension [{metric: val / n for metric, val in items}],
    filled from left to right *)
Fixpoint mean_items (items : list (string * num)) (n : Z) (acc : Dict.t num)
  : result (Dict.t num) :=
  match items with
  | [] => Ok acc
  | (metric, val) :: rest =>
      rbind (truediv val n) (fun q => mean_items rest n (Dict.set metric q acc))
  end.

Definition mean_of_all (self : OptimizerCallback) : result mean_evaluation :=
  rbind (mean_items (evaluation_values self) (n_docs self) Dict.empty)
        (fun d => Ok (MeanDict d)).

(** [self.evaluation_values[op] / self.n_docs]: the subscript is
    evaluated before the division *)
Definition mean_of_one (self : OptimizerCallback) (op : string)
  : result mean_evaluation :=
  match Dict.get op (evaluation_values self) with
  | None => Err (KeyError op)
  | Some v => rbind (truediv v (n_docs self)) (fun q => Ok (MeanValue q))
  end.

(** [OptimizerCallback.get_mean_evaluation] *)
Definition get_mean_evaluation (self : OptimizerCallback)
  : result mean_evaluation :=
  match op_name self with
  | Some op =>
      if String.eqb op EmptyString then mean_of_all self
      else mean_of_one self op
  | None => mean_of_all self
  end.

(** line 100 on the dictionary: the evaluation is added to the running
    sum of its metric, which starts at [0.0] *)
Definition accumulate (values : Dict.t num) (evaluation : Evaluation)
  : Dict.t num :=
  Dict.set (ev_op_name evaluation)
           (num_add (Dict.get_default (ev_op_name evaluation) num_zero values)
                    (ev_value evaluation))
           values.

(** line 100 on the callback object *)
Definition add_evaluation (self : OptimizerCallback) (evaluation : Evaluation)
  : OptimizerCallback :=
  {| op_name := op_name self;
     evaluation_values := accumulate (evaluation_values self) evaluation;
     n_docs := n_docs self |}.

(** line 96: the document count grows by [len(response.search.docs)] *)
Definition count_docs (self : OptimizerCallback) (response : Response)
  : OptimizerCallback :=
  {| op_name := op_name self;
     evaluation_values := evaluation_values self;
     n_docs := n_docs self + Z.of_nat (List.length (search_docs response)) |}.

(** [OptimizerCallback.process_result] (the log line is added by the
    stateful wrapper below) *)
Definition process_result (self : OptimizerCallback) (response : Response)
  : OptimizerCallback :=
  fold_left
    (fun self doc => fold_left add_evaluation (evaluations doc) self)
    (search_docs response)
    (count_docs self response).

End Callback.

(* ------------------------------------------------------------------ *)
(** ** YAML documents and the Python operations applied to them *)

#[local] Set Warnings "-register-all".

(** A loaded YAML document.  Mapping keys are strings; a float carries the
    text [str] prints for it.  Documents are trees: no node is shared
    through an anchor. *)
Inductive yaml : Type :=
| YNull
| YBool (b : bool)
| YInt (z : Z)
| YFloat (repr : string)
| YStr (s : string)
| YSeq (items : list yaml)
| YMap (items : list (string * yaml)).

(** [s.lstrip('$')]: every leading dollar sign is removed *)
Fixpoint lstrip_dollar (s : string) : string :=
  match s with
  | String c rest => if Ascii.eqb c "$"%char then lstrip_dollar rest else s
  | EmptyString => s
  end.

(** [sub in s] on two strings *)
Definition is_substring (sub s : string) : bool :=
  match String.index 0 sub s with
  | Some _ => true
  | None => false
  end.

Definition yaml_is_str (s : string) (v : yaml) : bool :=
  match v with
  | YStr s' => String.eqb s s'
  | _ => false
  end.

(** [key in v] for a string [key] *)
Definition py_contains (key : string) (v : yaml) : result bool :=
  match v with
  | YMap items => Ok (Dict.contains key items)
  | YSeq items => Ok (existsb (yaml_is_str key) items)
  | YStr s => Ok (is_substring key s)
  | YNull | YBool _ | YInt _ | YFloat _ => Err TypeError
  end.

(** [v[key]] for a string [key] *)
Definition py_getitem (key : string) (v : yaml) : result yaml :=
  match v with
  | YMap items =>
      match Dict.get key items with
      | Some x => Ok x
      | None => Err (KeyError key)
      end
  | _ => Err TypeError
  end.

(** [v.items()] *)
Definition py_items (v : yaml) : result (list (string * yaml)) :=
  match v with
  | YMap items => Ok items
  | _ => Err AttributeError
  end.

(** [v[key] = x] on a mapping (in-place mutation of a tree node is
    rebuilding the node) *)
Definition py_setitem (key : string) (x : yaml) (v : yaml) : result yaml :=
  match v with
  | YMap items => Ok (YMap (Dict.set key x items))
  | _ => Err TypeError
  end.

Fixpoint map_result {X Y} (f : X -> result Y) (l : list X) : result (list Y) :=
  match l with
  | [] => Ok []
  | x :: rest =>
      rbind (f x) (fun y => rbind (map_result f rest) (fun ys => Ok (y :: ys)))
  end.

Section Templates.

(** [str] of a sequence or mapping node (its text depends on the YAML
    library's container classes) *)
Variable container_str : yaml -> string.

(** [str(v)] *)
Definition py_str (v : yaml) : string :=
  match v with
  | YNull => "None"
  | YBool true => "True"
  | YBool false => "False"
  | YInt z => NilZero.string_of_int (Z.to_int z)
  | YFloat repr => repr
  | YStr s => s
  | YSeq _ | YMap _ => container_str v
  end.

(** body of the inner loop of [_replace_param], lines 139-141, on the
    section [sec] being rewritten *)
Definition replace_item (trial_parameters : Dict.t yaml)
           (sec : Dict.t yaml) (item : string * yaml) : Dict.t yaml :=
  let val := lstrip_dollar (py_str (snd item)) in
  match Dict.get val trial_parameters with
  | Some new => Dict.set (fst item) new sec
  | None => sec
  end.

(** one iteration of [for section in ['with', 'metas']] *)
Definition replace_section (trial_parameters : Dict.t yaml)
           (parameters : yaml) (section : string) : result yaml :=
  rbind (py_contains section parameters) (fun present =>
  if present : bool then
    rbind (py_getitem section parameters) (fun sec =>
    rbind (py_items sec) (fun items =>
    py_setitem section
               (YMap (fold_left (replace_item trial_parameters) items items))
               parameters))
  else Ok parameters).

(** [Optimizer._replace_param] *)
Definition _replace_param (parameters : yaml) (trial_parameters : Dict.t yaml)
  : result yaml :=
  fold_left
    (fun acc section =>
       rbind acc (fun p => replace_section trial_parameters p section))
    ["with"; "metas"]
    (Ok parameters).

(** lines 151-152: the loop over [enumerate(parameters['components'])].
    Only a sequence supports the item assignment of line 152.  On a
    non-empty string it raises [TypeError].  On a non-empty mapping the
    first key is handed to [_replace_param] as a string and then stored
    under the integer key [0]: with further entries the iteration stops
    at once with [RuntimeError], the mapping having changed.  A mapping
    of one entry would come out with the key [0] added; the trees of
    [yaml] have string keys only and cannot hold it, and that case is
    answered like the longer mappings. *)
Definition replace_components (components : yaml)
           (trial_parameters : Dict.t yaml) : result yaml :=
  match components with
  | YSeq items =>
      rbind (map_result (fun c => _replace_param c trial_parameters) items)
            (fun items' => Ok (YSeq items'))
  | YStr EmptyString => Ok components
  | YStr _ => Err TypeError
  | YMap [] => Ok components
  | YMap ((k, _) :: _) =>
      rbind (_replace_param (YStr k) trial_parameters)
            (fun _ => Err RuntimeError)
  | YNull | YBool _ | YInt _ | YFloat _ => Err TypeError
  end.

(** lines 150-153 of [_create_trial_pods]: what is dumped for a pod file
    that was loaded as [parameters] *)
Definition trial_pod_config (parameters : yaml)
           (trial_parameters : Dict.t yaml) : result yaml :=
  rbind (py_contains "components" parameters) (fun present =>
  rbind (if present : bool then
           rbind (py_getitem "components" parameters) (fun components =>
           rbind (replace_components components trial_parameters)
                 (fun components' =>
           py_setitem "components" components' parameters))
         else Ok parameters)
        (fun parameters' => _replace_param parameters' trial_parameters)).

End Templates.

(* ------------------------------------------------------------------ *)
(** ** Environment variables ([os.environ]) *)

(** [c in s] for a character *)
Fixpoint has_char (c : ascii) (s : string) : bool :=
  match s with
  | EmptyString => false
  | String c' rest => Ascii.eqb c c' || has_char c rest
  end.

(** what [os.environ[name] = value] raises, if anything: [ValueError] for
    a NUL character in the name or the value and for an equals sign in the
    name, [OSError] (from [setenv]) for the empty name *)
Definition export_error (name value : string) : option exn :=
  if has_char Ascii.zero name || has_char Ascii.zero value
     || has_char "="%char name
  then Some ValueError
  else if String.eqb name EmptyString then Some OSError
  else None.

(* ------------------------------------------------------------------ *)
(** ** Paths ([pathlib.Path]) *)

(** The parts of a path: an absolute path starts with the part ["/"];
    the empty list is the current directory. *)
Definition path : Type := list string.

(** the text between slashes, [cur] being the part read so far *)
Fixpoint split_slash (s : string) (cur : string) : list string :=
  match s with
  | EmptyString => [cur]
  | String c rest =>
      if Ascii.eqb c "/"%char then cur :: split_slash rest EmptyString
      else split_slash rest (cur ++ String c EmptyString)
  end.

Definition is_real_part (part : string) : bool :=
  negb (String.eqb part EmptyString) && negb (String.eqb part ".").

(** [Path(s)]: empty parts and ["."] parts are dropped, [".."] parts are
    kept (leading slashes, however many, are read as the root) *)
Definition Path (s : string) : path :=
  (if String.prefix "/" s then ["/"] else [])
    ++ filter is_real_part (split_slash s EmptyString).

Definition is_absolute (p : path) : bool :=
  match p with
  | root :: _ => String.eqb root "/"
  | [] => false
  end.

(** [p / q] *)
Definition path_join (p q : path) : path :=
  if is_absolute q then q else p ++ q.

(** [p.name] *)
Definition path_name (p : path) : string :=
  match p with
  | [] => EmptyString
  | [root] => if String.eqb root "/" then EmptyString else root
  | _ => last p EmptyString
  end.

(** [p.parent] *)
Definition path_parent (p : path) : path :=
  match p with
  | [] => []
  | [root] => if String.eqb root "/" then p else []
  | _ => removelast p
  end.

(** [str(p)] *)
Definition path_str (p : path) : string :=
  match p with
  | [] => "."
  | root :: rest =>
      if String.eqb root "/" then "/" ++ String.concat "/" rest
      else String.concat "/" p
  end.

Fixpoint is_prefix (p q : path) : bool :=
  match p, q with
  | [], _ => true
  | a :: p', b :: q' => String.eqb a b && is_prefix p' q'
  | _ :: _, [] => false
  end.

Fixpoint path_eqb (p q : path) : bool :=
  match p, q with
  | [], [] => true
  | a :: p', b :: q' => String.eqb a b && path_eqb p' q'
  | _, _ => false
  end.

(** [name.endswith(suffix)] *)
Definition ends_with (suffix name : string) : bool :=
  let n := String.length name in
  let k := String.length suffix in
  Nat.leb k n && String.eqb (String.substring (n - k) k name) suffix.

(* ------------------------------------------------------------------ *)
(** ** The file system the script works on *)

(** A file holds what the YAML loader makes of its text ([None]: the text
    is not a YAML document). *)
Inductive node : Type :=
| Dir
| File (content : option yaml).

Definition filesystem : Type := list (path * node).

Definition is_root (p : path) : bool :=
  match p with
  | [] => true
  | [root] => String.eqb root "/"
  | _ => false
  end.

Fixpoint fs_find (p : path) (fs : filesystem) : option node :=
  match fs with
  | [] => None
  | (q, n) :: rest => if path_eqb p q then Some n else fs_find p rest
  end.

(** the current directory and the root always exist *)
Definition fs_lookup (p : path) (fs : filesystem) : option node :=
  if is_root p then Some Dir else fs_find p fs.

(** [p.exists()] *)
Definition fs_exists (p : path) (fs : filesystem) : bool :=
  match fs_lookup p fs with
  | Some _ => true
  | None => false
  end.

(** what is left once [p] and everything below it is removed *)
Definition fs_remove_tree (p : path) (fs : filesystem) : filesystem :=
  filter (fun entry => negb (is_prefix p (fst entry))) fs.

Fixpoint fs_put (p : path) (n : node) (fs : filesystem) : filesystem :=
  match fs with
  | [] => [(p, n)]
  | (q, n') :: rest =>
      if path_eqb p q then (q, n) :: rest else (q, n') :: fs_put p n rest
  end.

(** [shutil.rmtree(p)]: the file system afterwards, and the error if any
    (the current directory and the root are emptied, then refused) *)
Definition fs_rmtree (p : path) (fs : filesystem) : filesystem * option exn :=
  match fs_lookup p fs with
  | None => (fs, Some FileNotFoundError)
  | Some (File _) => (fs, Some NotADirectoryError)
  | Some Dir =>
      (fs_remove_tree p fs, if is_root p then Some OSError else None)
  end.

(** [p.mkdir(exist_ok=True)] *)
Definition fs_mkdir (p : path) (fs : filesystem) : result filesystem :=
  match fs_lookup p fs with
  | Some Dir => Ok fs
  | Some (File _) => Err FileExistsError
  | None =>
      match fs_lookup (path_parent p) fs with
      | Some Dir => Ok (fs_put p Dir fs)
      | Some (File _) => Err NotADirectoryError
      | None => Err FileNotFoundError
      end
  end.

(** [os.makedirs] of the proper ancestors of a new directory, outermost
    first; [done] is the part of the path already walked *)
Fixpoint fs_make_parents (done todo : path) (fs : filesystem)
  : result filesystem :=
  match todo with
  | [] => Ok fs
  | [_] => Ok fs
  | part :: rest =>
      let dir := done ++ [part] in
      match fs_lookup dir fs with
      | Some Dir => fs_make_parents dir rest fs
      | Some (File _) => Err NotADirectoryError
      | None => fs_make_parents dir rest (fs_put dir Dir fs)
      end
  end.

(** the entries strictly below [src], re-rooted at [dst] *)
Definition fs_copies (src dst : path) (fs : filesystem) : filesystem :=
  flat_map
    (fun entry =>
       if is_prefix src (fst entry) && negb (path_eqb src (fst entry))
       then [(dst ++ skipn (List.length src) (fst entry), snd entry)]
       else [])
    fs.

(** the child of [src] on the way to a destination [dst] below [src] *)
Definition first_below (src dst : path) : path :=
  firstn (S (List.length src)) dst.

(** [shutil.copytree(src, dst)]: the source is listed, then the
    destination is made with its missing ancestors, then what was listed
    is copied.  A destination below the source is therefore copied into
    like any other, unless the child of the source it lies in is a
    directory that was listed: the copy then descends into its own
    destination until the interpreter stops it ([RecursionError], a
    [RuntimeError]; the directories made on the way are not recorded). *)
Definition fs_copytree (src dst : path) (fs : filesystem) : result filesystem :=
  match fs_lookup src fs with
  | None => Err FileNotFoundError
  | Some (File _) => Err NotADirectoryError
  | Some Dir =>
      match fs_lookup dst fs with
      | Some _ => Err FileExistsError
      | None =>
          let copy :=
            rbind (fs_make_parents [] dst fs) (fun fs1 =>
            Ok (fold_left (fun acc entry => fs_put (fst entry) (snd entry) acc)
                          (fs_copies src dst fs)
                          (fs_put dst Dir fs1))) in
          if is_prefix src dst then
            match fs_lookup (first_below src dst) fs with
            | Some Dir => Err RuntimeError
            | _ => copy
            end
          else copy
      end
  end.

(** [dir.glob('*.yml')]: the children of [dir] whose name ends in [.yml] *)
Definition fs_glob_yml (dir : path) (fs : filesystem) : list path :=
  map fst
      (filter
         (fun entry =>
            is_prefix dir (fst entry)
            && Nat.eqb (List.length (fst entry)) (S (List.length dir))
            && ends_with ".yml" (last (fst entry) EmptyString))
         fs).

(** [yaml.load(open(p))] *)
Definition fs_load_yaml (p : path) (fs : filesystem) : result yaml :=
  match fs_lookup p fs with
  | None => Err FileNotFoundError
  | Some Dir => Err IsADirectoryError
  | Some (File None) => Err YAMLError
  | Some (File (Some v)) => Ok v
  end.

(** [yaml.dump(v, open(p, 'w'))] *)
Definition fs_dump_yaml (p : path) (v : yaml) (fs : filesystem)
  : result filesystem :=
  match fs_lookup p fs with
  | Some Dir => Err IsADirectoryError
  | Some (File _) => Ok (fs_put p (File (Some v)) fs)
  | None =>
      match fs_lookup (path_parent p) fs with
      | Some Dir => Ok (fs_put p (File (Some v)) fs)
      | Some (File _) => Err NotADirectoryError
      | None => Err FileNotFoundError
      end
  end.

(* ------------------------------------------------------------------ *)
(** ** Interpreter state, and statements as state transformers *)

Section Program.

Context {A : Arith}.

(** the records yielded by the two document generators *)
Variable Document : Type.

(** [str] of a YAML container, as in [py_str] *)
Variable container_str : yaml -> string.

(** what [print] and [logger.info] emit *)
Inductive message : Type :=
| Printed (text color : string)             (* print(colored(text, color)) *)
| LogInfo (text : string)
| LogNumDocs (n : Z)                        (* '>> Num of docs: {n}' *)
| LogAvg (metric : string) (mean : num)     (* 'Avg {metric}: {mean}' *)
| LogFinished (n_trials : nat)
| LogBest (params : Dict.t yaml)
| LogDuration (trial_number : Z).

(** *** class FlowRunner: the object's attributes.  [env_parameters] is
    [None] until [_load_env] assigns the attribute. *)
Record FlowRunner : Type := {
  index_document_generator : list Document;
  query_document_generator : list Document;
  index_batch_size : Z;
  query_batch_size : Z;
  env_yaml : option string;
  workspace_env : string;
  overwrite_workspace : bool;
  env_parameters : option yaml
}.

(** [FlowRunner.__init__] *)
Definition FlowRunner_init (index_gen query_gen : list Document)
           (index_batch query_batch : Z) (env : option string)
           (ws_env : string) (overwrite : bool) : FlowRunner :=
  {| index_document_generator := index_gen;
     query_document_generator := query_gen;
     index_batch_size := index_batch;
     query_batch_size := query_batch;
     env_yaml := env;
     workspace_env := ws_env;
     overwrite_workspace := overwrite;
     env_parameters := None |}.

Record world : Type := {
  environ : Dict.t string;          (* os.environ *)
  fs : filesystem;
  out : list message;               (* console and log, oldest first *)
  flow_runner : FlowRunner;         (* the FlowRunner instance *)
  callback : OptimizerCallback      (* the Optimizer's callback instance *)
}.

Inductive outcome (X : Type) : Type :=
| Done (x : X) (w : world)
| Raise (e : exn) (w : world).

Arguments Done {X} x w.
Arguments Raise {X} e w.

Definition M (X : Type) : Type := world -> outcome X.

Definition ret {X} (x : X) : M X := fun w => Done x w.

Definition bind {X Y} (m : M X) (k : X -> M Y) : M Y :=
  fun w =>
    match m w with
    | Done x w' => k x w'
    | Raise e w' => Raise e w'
    end.

Definition raise {X} (e : exn) : M X := fun w => Raise e w.

(** a pure expression evaluated as a statement *)
Definition lift {X} (r : result X) : M X :=
  match r with
  | Ok x => ret x
  | Err e => raise e
  end.

Definition get_world : M world := fun w => Done w w.
Definition put_world (w : world) : M unit := fun _ => Done tt w.

Notation "x <- m ;; k" := (bind m (fun x => k))
  (at level 61, m at next level, right associativity).
Notation "m ;; k" := (bind m (fun _ => k))
  (at level 61, right associativity).

Definition emit (msg : message) : M unit :=
  fun w =>
    Done tt {| environ := environ w; fs := fs w; out := out w ++ [msg];
               flow_runner := flow_runner w; callback := callback w |}.

Definition set_fs (fs' : filesystem) : M unit :=
  fun w =>
    Done tt {| environ := environ w; fs := fs'; out := out w;
               flow_runner := flow_runner w; callback := callback w |}.

Definition set_environ (env' : Dict.t string) : M unit :=
  fun w =>
    Done tt {| environ := env'; fs := fs w; out := out w;
               flow_runner := flow_runner w; callback := callback w |}.

Definition set_flow_runner (r : FlowRunner) : M unit :=
  fun w =>
    Done tt {| environ := environ w; fs := fs w; out := out w;
               flow_runner := r; callback := callback w |}.

Definition set_callback (c : OptimizerCallback) : M unit :=
  fun w =>
    Done tt {| environ := environ w; fs := fs w; out := out w;
               flow_runner := flow_runner w; callback := c |}.

(** a file-system call that either succeeds or raises *)
Definition fs_call (op : filesystem -> result filesystem) : M unit :=
  w <- get_world ;;
  fs' <- lift (op (fs w)) ;;
  set_fs fs'.

Definition load_yaml (p : path) : M yaml :=
  w <- get_world ;; lift (fs_load_yaml p (fs w)).

(** a [for] loop over a list *)
Fixpoint for_each {X} (l : list X) (body : X -> M unit) : M unit :=
  match l with
  | [] => ret tt
  | x :: rest => body x ;; for_each rest body
  end.

(* ---------------------------------------------------------------- *)
(** *** The external pipeline engine: [Flow().load_config(yaml)] entered
    as a context manager, then [f.index] or [f.search] *)

Variable flow_index : path -> list Document -> Z -> M unit.
Variable flow_search :
  path -> list Document -> Z -> (Response -> M unit) -> M unit.

(* ---------------------------------------------------------------- *)
(** *** FlowRunner *)

Definition rule : string :=
  "--------------------------------------------------------".

(** [FlowRunner.clean_workdir] *)
Definition clean_workdir (workspace : path) : M unit :=
  w <- get_world ;;
  if fs_exists workspace (fs w) then
    set_fs (fst (fs_rmtree workspace (fs w))) ;;
    match snd (fs_rmtree workspace (fs w)) with
    | Some e => raise e
    | None =>
        emit (Printed rule "red") ;;
        emit (Printed
                "-------------- Existing workspace deleted --------------"
                "red") ;;
        emit (Printed rule "red") ;;
        emit (Printed ("WORKSPACE: " ++ path_str workspace) "red")
    end
  else ret tt.

(** truth value of [self.env_yaml] *)
Definition env_yaml_given (r : FlowRunner) : option string :=
  match env_yaml r with
  | Some f => if String.eqb f EmptyString then None else Some f
  | None => None
  end.

Definition with_env_parameters (r : FlowRunner) (v : yaml) : FlowRunner :=
  {| index_document_generator := index_document_generator r;
     query_document_generator := query_document_generator r;
     index_batch_size := index_batch_size r;
     query_batch_size := query_batch_size r;
     env_yaml := env_yaml r;
     workspace_env := workspace_env r;
     overwrite_workspace := overwrite_workspace r;
     env_parameters := Some v |}.

(** line 44: [os.environ[environment_variable] = str(value)]; a name or
    value that [os.putenv] refuses raises and leaves [os.environ] as it is *)
Definition export_variable (item : string * yaml) : M unit :=
  w <- get_world ;;
  let value := py_str container_str (snd item) in
  match export_error (fst item) value with
  | Some e => raise e
  | None => set_environ (Dict.set (fst item) value (environ w))
  end.

(** [FlowRunner._load_env] *)
Definition _load_env : M unit :=
  w <- get_world ;;
  match env_yaml_given (flow_runner w) with
  | Some file =>
      v <- load_yaml (Path file) ;;
      set_flow_runner (with_env_parameters (flow_runner w) v) ;;
      items <- lift (py_items v) ;;
      for_each items export_variable ;;
      emit (LogInfo "Environment variables loaded")
  | None =>
      emit (LogInfo "Cannot load environment variables as no env_yaml passed")
  end.

(** line 51: [Path(os.environ.get(self.workspace_env, workspace))] *)
Definition resolve_workspace (r : FlowRunner) (env : Dict.t string)
           (workspace : option path) : result path :=
  match Dict.get (workspace_env r) env with
  | Some value => Ok (Path value)
  | None =>
      match workspace with
      | Some p => Ok p
      | None => Err TypeError
      end
  end.

(** lines 62-65: the generator is teed (both halves yield the same
    documents) and the indexing flow is run *)
Definition index_flow (index_yaml : path) : M unit :=
  w <- get_world ;;
  flow_index index_yaml (index_document_generator (flow_runner w))
             (index_batch_size (flow_runner w)).

(** [FlowRunner.run_indexing] *)
Definition run_indexing (index_yaml : path) (workspace : option path)
  : M unit :=
  _load_env ;;
  w <- get_world ;;
  workspace <- lift (resolve_workspace (flow_runner w) (environ w) workspace) ;;
  if fs_exists workspace (fs w) then
    if overwrite_workspace (flow_runner w) then
      clean_workdir workspace ;;
      index_flow index_yaml
    else
      emit (Printed rule "cyan") ;;
      emit (Printed
              "----- Workspace already exists. Skipping indexing. -----"
              "cyan") ;;
      emit (Printed rule "cyan")
  else
    index_flow index_yaml.

(** [FlowRunner.run_querying] *)
Definition run_querying (query_yaml : path) (output_fn : Response -> M unit)
  : M unit :=
  _load_env ;;
  w <- get_world ;;
  flow_search query_yaml (query_document_generator (flow_runner w))
              (query_batch_size (flow_runner w)) output_fn.

(** [FlowRunner.run_evaluation] *)
Definition run_evaluation (index_yaml query_yaml : path)
           (workspace : option path)
           (evaluation_callback : Response -> M unit) : M unit :=
  _load_env ;;
  run_indexing index_yaml workspace ;;
  run_querying query_yaml evaluation_callback.

(** the bound method [self.callback.process_result], with its log line *)
Definition callback_process_result (response : Response) : M unit :=
  w <- get_world ;;
  emit (LogNumDocs (n_docs (count_docs (callback w) response))) ;;
  set_callback (process_result (callback w) response).

(* ---------------------------------------------------------------- *)
(** *** The external search library: trials and studies *)

(** a trial object: [params] is filled by the library as values are
    suggested, [workspace] is the attribute the sampler adds *)
Record Trial : Type := {
  trial_number : Z;
  trial_params : Dict.t yaml;
  trial_workspace : option path
}.

(** [getattr(trial, method)(param, **kwargs)]: the value suggested, or
    the exception ([AttributeError] for an unknown method) *)
Variable trial_suggest :
  Trial -> string -> string -> Dict.t yaml -> result yaml.

(** the trial the study hands to the objective, given the finished
    trials and their values *)
Variable study_ask : list (Trial * num) -> Trial.

(** [study.best_trial] ([ValueError] when no trial is complete) *)
Variable study_best : list (Trial * num) -> result Trial.

Record Study : Type := {
  study_trials : list Trial;
  best_trial : result Trial
}.

(* ---------------------------------------------------------------- *)
(** *** class Optimizer (its [flow_runner] and [callback] are the two
    objects of the interpreter state) *)

Record Optimizer : Type := {
  pod_dir : path;
  index_yaml : path;
  query_yaml : path;
  parameter_yaml : string;
  best_config_filepath : path;
  overwrite_trial_workspace : bool;
  optimizer_workspace_env : string
}.

(** [Optimizer.__init__] *)
Definition Optimizer_init (pods index query parameters best : string)
           (overwrite : bool) (ws_env : string) : Optimizer :=
  {| pod_dir := Path pods;
     index_yaml := Path index;
     query_yaml := Path query;
     parameter_yaml := parameters;
     best_config_filepath := Path best;
     overwrite_trial_workspace := overwrite;
     optimizer_workspace_env := lstrip_dollar ws_env |}.

Definition record_param (trial : Trial) (param : string) (v : yaml) : Trial :=
  {| trial_number := trial_number trial;
     trial_params := Dict.set param v (trial_params trial);
     trial_workspace := trial_workspace trial |}.

Definition with_workspace (trial : Trial) (p : path) : Trial :=
  {| trial_number := trial_number trial;
     trial_params := trial_params trial;
     trial_workspace := Some p |}.

(** lines 126-128: one parameter of the search space is sampled *)
Definition sample_parameter (acc : Dict.t yaml * Trial) (item : string * yaml)
  : result (Dict.t yaml * Trial) :=
  rbind (py_getitem "type" (snd item)) (fun ty =>
  rbind (py_items (snd item)) (fun param_values =>
  match ty with
  | YStr ty_name =>
      rbind (trial_suggest (snd acc) ("suggest_" ++ ty_name) (fst item)
                           (Dict.remove "type" param_values))
            (fun v => Ok (Dict.set (fst item) v (fst acc),
                          record_param (snd acc) (fst item) v))
  | _ => Err TypeError
  end)).

Fixpoint sample_parameters (acc : Dict.t yaml * Trial)
         (items : list (string * yaml)) : result (Dict.t yaml * Trial) :=
  match items with
  | [] => Ok acc
  | item :: rest =>
      rbind (sample_parameter acc item)
            (fun acc' => sample_parameters acc' rest)
  end.

(** [Optimizer._trial_parameter_sampler]: the trial parameters and the
    trial with its new [workspace] attribute *)
Definition _trial_parameter_sampler (self : Optimizer) (trial : Trial)
  : M (Dict.t yaml * Trial) :=
  parameters <- load_yaml (Path (parameter_yaml self)) ;;
  items <- lift (py_items parameters) ;;
  sampled <- lift (sample_parameters (Dict.empty, trial) items) ;;
  let trial_parameters := fst sampled in
  let workspace :=
    Path ("JINA_WORKSPACE_"
            ++ String.concat "_" (map (py_str container_str)
                                      (Dict.values trial_parameters))) in
  ret (Dict.set (optimizer_workspace_env self) (YStr (path_str workspace))
                trial_parameters,
       with_workspace (snd sampled) workspace).

(** lines 149-155: one pod file is loaded, rewritten and dumped *)
Definition create_trial_pod (trial_pod_dir : path)
           (trial_parameters : Dict.t yaml) (file_path : path) : M unit :=
  parameters <- load_yaml file_path ;;
  parameters' <- lift (trial_pod_config container_str parameters
                                        trial_parameters) ;;
  fs_call (fs_dump_yaml (path_join trial_pod_dir (Path (path_name file_path)))
                        parameters').

(** [Optimizer._create_trial_pods] *)
Definition _create_trial_pods (self : Optimizer) (trial_dir : path)
           (trial_parameters : Dict.t yaml) : M unit :=
  let trial_pod_dir := path_join trial_dir (Path "pods") in
  fs_call (fs_copytree (pod_dir self) trial_pod_dir) ;;
  w <- get_world ;;
  for_each (fs_glob_yml (pod_dir self) (fs w))
           (create_trial_pod trial_pod_dir trial_parameters).

(** lines 164-166: the [uses*] entries of one pod are redirected to the
    trial's copy; [val] is the pod's mapping as it is rewritten *)
Definition redirect_uses (self : Optimizer) (trial_dir : path)
           (val : result (Dict.t yaml)) (pod_param : string)
  : result (Dict.t yaml) :=
  rbind val (fun val =>
  if String.prefix "uses" pod_param then
    match Dict.get pod_param val with
    | Some (YStr target) =>
        Ok (Dict.set pod_param
                     (YStr (path_str
                              (path_join (path_join trial_dir (pod_dir self))
                                         (Path (path_name (Path target))))))
                     val)
    | Some _ => Err TypeError
    | None => Err (KeyError pod_param)
    end
  else Ok val).

(** body of the loop of line 163 for one pod *)
Definition redirect_pod (self : Optimizer) (trial_dir : path)
           (pod : string * yaml) : result (string * yaml) :=
  match snd pod with
  | YMap val =>
      rbind (fold_left (redirect_uses self trial_dir) (Dict.keys val) (Ok val))
            (fun val' => Ok (fst pod, YMap val'))
  | _ => Err AttributeError
  end.

(** lines 163-166: what is dumped for a flow file loaded as [parameters] *)
Definition trial_flow_config (self : Optimizer) (trial_dir : path)
           (parameters : yaml) : result yaml :=
  rbind (py_getitem "pods" parameters) (fun pods =>
  rbind (py_items pods) (fun items =>
  rbind (map_result (redirect_pod self trial_dir) items) (fun items' =>
  py_setitem "pods" (YMap items') parameters))).

Definition create_trial_flow (self : Optimizer)
           (trial_dir trial_flow_dir : path)
           (file_path : path) : M unit :=
  parameters <- load_yaml file_path ;;
  parameters' <- lift (trial_flow_config self trial_dir parameters) ;;
  fs_call (fs_dump_yaml (path_join trial_flow_dir (Path (path_name file_path)))
                        parameters').

(** [Optimizer._create_trial_flows] *)
Definition _create_trial_flows (self : Optimizer) (trial_dir : path) : M unit :=
  let trial_flow_dir := path_join trial_dir (Path "flows") in
  fs_call (fs_mkdir trial_flow_dir) ;;
  for_each [index_yaml self; query_yaml self]
           (create_trial_flow self trial_dir trial_flow_dir).

(** lines 185-186: [list(evaluation_values)[0]] and the value stored
    under it *)
Definition first_metric (evaluation_values : mean_evaluation)
  : result (string * num) :=
  match evaluation_values with
  | MeanValue _ => Err TypeError
  | MeanDict d =>
      match Dict.keys d with
      | [] => Err IndexError
      | op :: _ =>
          match Dict.get op d with
          | Some mean_eval => Ok (op, mean_eval)
          | None => Err (KeyError op)
          end
      end
  end.

(** [Optimizer._objective]: the value returned to the study, and the
    trial as the sampler left it *)
Definition _objective (self : Optimizer) (trial : Trial) : M (num * Trial) :=
  sampled <- _trial_parameter_sampler self trial ;;
  let trial_parameters := fst sampled in
  let trial := snd sampled in
  workspace <- lift (match trial_workspace trial with
                     | Some p => Ok p
                     | None => Err AttributeError
                     end) ;;
  let trial_index_workspace := path_join workspace (Path "index") in
  let trial_index_yaml :=
    path_join (path_join workspace (Path "flows"))
              (Path (path_name (index_yaml self))) in
  let trial_query_yaml :=
    path_join (path_join workspace (Path "flows"))
              (Path (path_name (query_yaml self))) in
  (if overwrite_trial_workspace self then clean_workdir workspace
   else ret tt) ;;
  _create_trial_pods self workspace trial_parameters ;;
  _create_trial_flows self workspace ;;
  run_evaluation trial_index_yaml trial_query_yaml
                 (Some trial_index_workspace) callback_process_result ;;
  w <- get_world ;;
  evaluation_values <- lift (get_mean_evaluation (callback w)) ;;
  first <- lift (first_metric evaluation_values) ;;
  emit (LogAvg (fst first) (snd first)) ;;
  ret (snd first, trial).

(** [{**a, **b}] on two loaded mappings *)
Definition merge_params (a : yaml) (b : Dict.t yaml) : result (Dict.t yaml) :=
  match a with
  | YMap items => Ok (Dict.merge items b)
  | _ => Err TypeError
  end.

(** [Optimizer._export_params] *)
Definition _export_params (self : Optimizer) (study : Study) : M unit :=
  fs_call (fs_mkdir (path_parent (best_config_filepath self))) ;;
  w <- get_world ;;
  env <- lift (match env_parameters (flow_runner w) with
               | Some v => Ok v
               | None => Err AttributeError
               end) ;;
  best <- lift (best_trial study) ;;
  all_params <- lift (merge_params env (trial_params best)) ;;
  fs_call (fs_dump_yaml (best_config_filepath self) (YMap all_params)) ;;
  emit (LogFinished (List.length (study_trials study))) ;;
  best' <- lift (best_trial study) ;;
  emit (LogBest (trial_params best')) ;;
  best'' <- lift (best_trial study) ;;
  emit (LogDuration (trial_number best'')).

(** [study.optimize(self._objective, n_trials)]: the objective is called
    on one trial after the other; [finished] are the trials so far *)
Fixpoint study_optimize (self : Optimizer) (n_trials : nat)
         (finished : list (Trial * num)) : M (list (Trial * num)) :=
  match n_trials with
  | O => ret finished
  | S n =>
      r <- _objective self (study_ask finished) ;;
      study_optimize self n (finished ++ [(snd r, fst r)])
  end.

(** [Optimizer.optimize_flow] *)
Definition optimize_flow (self : Optimizer) (n_trials : nat) : M unit :=
  finished <- study_optimize self n_trials [] ;;
  _export_params self {| study_trials := map fst finished;
                         best_trial := study_best finished |}.

End Program.

Arguments Done {A} [Document] {X} x w.
Arguments Raise {A} [Document] {X} e w.

(* ------------------------------------------------------------------ *)
(** ** Vocabulary of the specification *)

Section CallbackVocabulary.

Context {A : Arith}.

(** the callback after the responses [rs] were delivered to a freshly
    constructed [OptimizerCallback(op)] *)
Definition recorded (op : option string) (rs : list Response)
  : OptimizerCallback :=
  fold_left process_result rs (OptimizerCallback_init op).

(** the documents of the responses, in the order of delivery *)
Definition all_docs (rs : list Response) : list ResultDoc :=
  flat_map search_docs rs.

Definition all_evaluations (docs : list ResultDoc) : list Evaluation :=
  flat_map evaluations docs.

(** the values evaluated for [metric], in the order of delivery *)
Definition metric_values (metric : string) (evs : list Evaluation)
  : list num :=
  map ev_value (filter (fun ev => String.eqb (ev_op_name ev) metric) evs).

(** the sum as the accumulator forms it: from [0.0], left to right *)
Definition sum_values (vs : list num) : num :=
  fold_left num_add vs num_zero.

(** every point of [process_result self response]: the state after line
    96, then after each execution of line 100 *)
Fixpoint evaluation_points (self : OptimizerCallback)
         (evs : list Evaluation) : list OptimizerCallback :=
  match evs with
  | [] => []
  | ev :: rest =>
      add_evaluation self ev :: evaluation_points (add_evaluation self ev) rest
  end.

Definition process_result_points (self : OptimizerCallback)
           (response : Response) : list OptimizerCallback :=
  count_docs self response
    :: evaluation_points (count_docs self response)
                         (all_evaluations (search_docs response)).

Section Order.

Context {O : ArithOrder A}.

(** the accumulator invariant: count and running sums are non-negative *)
Definition nonnegative (self : OptimizerCallback) : Prop :=
  0 <= n_docs self /\
  forall metric v,
    Dict.get metric (evaluation_values self) = Some v ->
    num_le num_zero v.

(** [later] has at least the count of [earlier], and at least its sum
    for every metric [earlier] has recorded *)
Definition grows (earlier later : OptimizerCallback) : Prop :=
  n_docs earlier <= n_docs later /\
  forall metric v,
    Dict.get metric (evaluation_values earlier) = Some v ->
    exists v', Dict.get metric (evaluation_values later) = Some v' /\
               num_le v v'.

(** each state of the list grows from the one before it *)
Fixpoint increasing (first : OptimizerCallback)
         (points : list OptimizerCallback) : Prop :=
  match points with
  | [] => True
  | p :: rest => grows first p /\ increasing p rest
  end.

Definition nonnegative_values (rs : list Response) : Prop :=
  forall ev, In ev (all_evaluations (all_docs rs)) ->
             num_le num_zero (ev_value ev).

End Order.

End CallbackVocabulary.

Section TemplateVocabulary.

Variable container_str : yaml -> string.

(** what a value becomes: the sampled value of the parameter that its text
    names once the leading dollar signs are removed, or itself when its
    text names no parameter *)
Definition substituted (trial_parameters : Dict.t yaml) (v : yaml) : yaml :=
  match Dict.get (lstrip_dollar (py_str container_str v)) trial_parameters with
  | Some new => new
  | None => v
  end.

Definition substituted_section (trial_parameters : Dict.t yaml)
           (sec : Dict.t yaml) : Dict.t yaml :=
  map (fun kv => (fst kv, substituted trial_parameters (snd kv))) sec.

(** the entry [kv] of a mapping after the pass over the section [section] *)
Definition section_pass (trial_parameters : Dict.t yaml) (section : string)
           (kv : string * yaml) : string * yaml :=
  if String.eqb (fst kv) section then
    match snd kv with
    | YMap sec => (fst kv, YMap (substituted_section trial_parameters sec))
    | _ => kv
    end
  else kv.

Definition is_section (key : string) : bool :=
  String.eqb key "with" || String.eqb key "metas".

(** a mapping whose [with] and [metas] entries are substituted and whose
    other entries are kept *)
Definition substituted_mapping (trial_parameters : Dict.t yaml)
           (m : Dict.t yaml) : Dict.t yaml :=
  map (fun kv =>
         if is_section (fst kv) then
           match snd kv with
           | YMap sec =>
               (fst kv, YMap (substituted_section trial_parameters sec))
           | _ => kv
           end
         else kv)
      m.

Definition substituted_component (trial_parameters : Dict.t yaml)
           (component : yaml) : yaml :=
  match component with
  | YMap m => YMap (substituted_mapping trial_parameters m)
  | _ => component
  end.

Definition components_pass (trial_parameters : Dict.t yaml)
           (kv : string * yaml) : string * yaml :=
  if String.eqb (fst kv) "components" then
    match snd kv with
    | YSeq cs =>
        (fst kv, YSeq (map (substituted_component trial_parameters) cs))
    | _ => kv
    end
  else kv.

(** a pod file after substitution: the sections of the elements of its
    [components] list and its own sections are substituted *)
Definition substituted_file (trial_parameters : Dict.t yaml)
           (m : Dict.t yaml) : Dict.t yaml :=
  substituted_mapping trial_parameters
                      (map (components_pass trial_parameters) m).

(** keys are unique, and [with] and [metas], where present, are mappings
    with unique keys *)
Definition well_formed_sections (m : Dict.t yaml) : Prop :=
  NoDup (Dict.keys m) /\
  forall key v,
    is_section key = true -> Dict.get key m = Some v ->
    exists sec, v = YMap sec /\ NoDup (Dict.keys sec).

(** a pod file: a mapping with well-formed sections whose [components],
    where present, is a list of such mappings *)
Definition well_formed_pod (m : Dict.t yaml) : Prop :=
  well_formed_sections m /\
  forall v,
    Dict.get "components" m = Some v ->
    exists cs, v = YSeq cs /\
               Forall (fun c =>
                         exists cm, c = YMap cm /\ well_formed_sections cm)
                      cs.

End TemplateVocabulary.

Section RunnerVocabulary.

Context {A : Arith}.
Variable Document : Type.
Variable container_str : yaml -> string.

(** the state with further lines on the console *)
Definition logged (w : world Document) (msgs : list message)
  : world Document :=
  {| environ := environ w; fs := fs w; out := out w ++ msgs;
     flow_runner := flow_runner w; callback := callback w |}.

(** the three lines of lines 57-59 *)
Definition skip_notice : list message :=
  [ Printed rule "cyan";
    Printed "----- Workspace already exists. Skipping indexing. -----"
            "cyan";
    Printed rule "cyan" ].

(** the four lines of lines 34-37 *)
Definition deleted_notice (workspace : path) : list message :=
  [ Printed rule "red";
    Printed "-------------- Existing workspace deleted --------------"
            "red";
    Printed rule "red";
    Printed ("WORKSPACE: " ++ path_str workspace) "red" ].

(** [os.environ] after the loop of lines 43-44 over [items] *)
Definition exported (items : list (string * yaml)) (env : Dict.t string)
  : Dict.t string :=
  fold_left (fun env item =>
               Dict.set (fst item) (py_str container_str (snd item)) env)
            items env.

(** the first entry of [items] that [os.environ] refuses: the entries
    before it and the exception *)
Fixpoint refused_entry (items : list (string * yaml))
  : option (list (string * yaml) * exn) :=
  match items with
  | [] => None
  | item :: rest =>
      match export_error (fst item) (py_str container_str (snd item)) with
      | Some e => Some ([], e)
      | None =>
          match refused_entry rest with
          | Some (before, e) => Some (item :: before, e)
          | None => None
          end
      end
  end.

(** the state with another [os.environ] *)
Definition with_environ (w : world Document) (env : Dict.t string)
  : world Document :=
  {| environ := env; fs := fs w; out := out w;
     flow_runner := flow_runner w; callback := callback w |}.

(** the state with another file system *)
Definition with_fs (w : world Document) (fs' : filesystem) : world Document :=
  {| environ := environ w; fs := fs'; out := out w;
     flow_runner := flow_runner w; callback := callback w |}.

(** everything but the console is as it was *)
Definition same_state (w w' : world Document) : Prop :=
  environ w' = environ w /\ fs w' = fs w /\
  flow_runner w' = flow_runner w /\ callback w' = callback w.

(** the runner's attributes other than [env_parameters] *)
Definition same_configuration (r r' : FlowRunner Document) : Prop :=
  index_document_generator r' = index_document_generator r /\
  query_document_generator r' = query_document_generator r /\
  index_batch_size r' = index_batch_size r /\
  query_batch_size r' = query_batch_size r /\
  env_yaml r' = env_yaml r /\
  workspace_env r' = workspace_env r /\
  overwrite_workspace r' = overwrite_workspace r.

End RunnerVocabulary.

Section IndexingVocabulary.

Context {A : Arith}.
Variable Document : Type.
Variable flow_index : path -> list Document -> Z -> M Document unit.

(** the indexing flow entered in the state [w] *)
Definition indexing (index_yaml : path) (w : world Document)
  : outcome Document unit :=
  flow_index index_yaml (index_document_generator (flow_runner w))
             (index_batch_size (flow_runner w)) w.

(** Indexing into the workspace [dir] from the state [w], as the
    specification describes it.  A workspace that is not there is indexed
    into; one that is there is kept and indexing is skipped, unless the
    runner overwrites: then a directory is removed with all below it and
    indexed into afresh, while the current directory and the root are
    emptied and refused, and a regular file is refused. *)
Definition indexing_on (index_yaml dir : path) (w : world Document)
  : outcome Document unit :=
  match fs_lookup dir (fs w) with
  | None => indexing index_yaml w
  | Some found =>
      if overwrite_workspace (flow_runner w) then
        match found with
        | File _ => Raise NotADirectoryError w
        | Dir =>
            if is_root dir
            then Raise OSError (with_fs w (fs_remove_tree dir (fs w)))
            else indexing index_yaml
                          (logged (with_fs w (fs_remove_tree dir (fs w)))
                                  (deleted_notice dir))
        end
      else Done tt (logged w skip_notice)
  end.


End IndexingVocabulary.

Section SamplerVocabulary.

(** what is wrong with an entry of the search space, if anything: it must
    be a mapping with a string under ['type'] *)
Definition entry_error (entry : yaml) : option exn :=
  match entry with
  | YMap values =>
      match Dict.get "type" values with
      | None => Some (KeyError "type")
      | Some (YStr _) => None
      | Some _ => Some TypeError
      end
  | _ => Some TypeError
  end.

End SamplerVocabulary.

Section FlowVocabulary.

Variable self : Optimizer.
Variable trial_dir : path.

Definition is_string (v : yaml) : bool :=
  match v with
  | YStr _ => true
  | _ => false
  end.

(** the text that replaces the target of a [uses] entry: the file of the
    same name under [trial_dir/pod_dir] *)
Definition redirected_target (target : string) : string :=
  path_str (path_join (path_join trial_dir (pod_dir self))
                      (Path (path_name (Path target)))).

(** an entry of a pod after lines 164-166 *)
Definition redirected (kv : string * yaml) : string * yaml :=
  if String.prefix "uses" (fst kv) then
    match snd kv with
    | YStr target => (fst kv, YStr (redirected_target target))
    | _ => kv
    end
  else kv.

Definition redirected_pod (pod : string * yaml) : string * yaml :=
  match snd pod with
  | YMap val => (fst pod, YMap (map redirected val))
  | _ => pod
  end.

(** an entry whose key starts with [uses] and whose value is no string *)
Definition bad_uses (kv : string * yaml) : bool :=
  String.prefix "uses" (fst kv) && negb (is_string (snd kv)).

(** a pod that lines 164-166 accept: a mapping with unique keys whose
    [uses] entries are strings *)
Definition well_formed_flow_pod (pod : string * yaml) : Prop :=
  exists val, snd pod = YMap val /\ NoDup (Dict.keys val) /\
              existsb bad_uses val = false.

(** what is wrong with a pod, if anything *)
Definition pod_error (pod : string * yaml) : option exn :=
  match snd pod with
  | YMap val => if existsb bad_uses val then Some TypeError else None
  | _ => Some AttributeError
  end.

End FlowVocabulary.

Section PathVocabulary.

(** no character of the part is a slash *)
Fixpoint no_slash (s : string) : bool :=
  match s with
  | EmptyString => true
  | String c rest => negb (Ascii.eqb c "/"%char) && no_slash rest
  end.

(** a part as [Path] produces them: not empty, not ["."], without slash *)
Definition plain_part (part : string) : bool :=
  is_real_part part && no_slash part.

(** the parts after the root of an absolute path, all the parts of a
    relative one, are plain *)
Definition well_formed_path (p : path) : bool :=
  forallb plain_part (if is_absolute p then tl p else p).

(** [n] dollar signs *)
Fixpoint dollars (n : nat) : string :=
  match n with
  | O => EmptyString
  | S n' => String "$"%char (dollars n')
  end.

End PathVocabulary.

(* ------------------------------------------------------------------ *)
(** ** Exact arithmetic, and a small run to evaluate the model on *)

(** exact rationals satisfy the ordering facts *)
#[export] Instance Q_order : ArithOrder Q_arith := {
  num_le := Qle;
  num_le_refl := fun a _ => Qle_refl a;
  num_le_trans := Qle_trans;
  num_le_zero := Qle_refl 0%Q;
  num_add_nonneg := fun a b _ Hb =>
    Qle_trans a (a + 0)%Q (a + b)%Q
              (proj2 (Qle_lteq a (a + 0)%Q)
                     (or_intror (Qeq_sym _ _ (Qplus_0_r a))))
              (Qplus_le_compat a a 0%Q b (Qle_refl a) Hb)
}.

Module Example.

Definition evaluation {A : Arith} (metric : string) (v : num) : Evaluation :=
  {| ev_op_name := metric; ev_value := v |}.

Definition doc {A : Arith} (evs : list Evaluation) : ResultDoc :=
  {| evaluations := evs |}.

Definition response {A : Arith} (docs : list ResultDoc) : Response :=
  {| search_docs := docs |}.

(** two batches of query results, three documents, two metrics each *)
Definition responses : list Response :=
  [ response [ doc [evaluation "precision" 1%Q; evaluation "recall" (1 # 2)%Q];
               doc [evaluation "precision" 0%Q;
                    evaluation "recall" (1 # 4)%Q] ];
    response [ doc [evaluation "precision" (1 # 2)%Q;
                    evaluation "recall" 1%Q] ] ].

Definition last_response : Response :=
  response [ doc [evaluation "precision" 1%Q; evaluation "recall" 0%Q] ].

(** [str] of containers plays no part in the example *)
Definition container_str (v : yaml) : string := "<container>".

(** one sampled parameter *)
Definition trial_parameters : Dict.t yaml := [("JINA_DIM", YInt 64)].

(** a pod file that names the parameter in a section of a component, in
    its own [with] section, below that section and at its top level *)
Definition pod_file : Dict.t yaml :=
  [ ("name", YStr "$JINA_DIM");
    ("components",
     YSeq [ YMap [ ("with", YMap [("dim", YStr "$JINA_DIM");
                                  ("layers", YInt 2)]) ] ]);
    ("with", YMap [ ("index", YStr "JINA_DIM");
                    ("nested", YMap [("dim", YStr "$JINA_DIM")]) ]) ].

(** a runner configured with an environment file, not overwriting *)
Definition runner : FlowRunner unit :=
  FlowRunner_init [tt] [tt] 8 8 (Some "env.yml") "JINA_WORKSPACE" false.

Definition env_file : yaml :=
  YMap [("JINA_WORKSPACE", YStr "workspace"); ("JINA_DIM", YInt 64)].

Definition files : filesystem :=
  [ (["env.yml"], File (Some env_file));
    (["workspace"], Dir);
    (["workspace"; "index.bin"], File None) ].

(** the workspace variable is set, the workspace directory exists *)
Definition indexed_world : world unit :=
  {| environ := [("JINA_WORKSPACE", "workspace")];
     fs := files;
     out := [];
     flow_runner := runner;
     callback := OptimizerCallback_init None |}.


(** an engine whose indexing only reports that it ran *)
Definition flow_index (index_yaml : path) (docs : list unit) (batch : Z)
  : M unit unit :=
  emit (LogInfo ("indexing " ++ path_str index_yaml)).

(** *** A study of two trials *)

(** the default runner: no environment file *)
Definition default_runner : FlowRunner unit :=
  FlowRunner_init [tt] [tt] 8 8 None "JINA_WORKSPACE" false.

Definition optimizer : Optimizer :=
  Optimizer_init "pods" "flows/index.yml" "flows/query.yml" "parameters.yml"
                 "config/best_config.yml" true "JINA_WORKSPACE".

Definition flow_file : yaml :=
  YMap [("pods", YMap [("encoder", YMap [("uses", YStr "pods/encoder.yml")])])].

Definition study_files : filesystem :=
  [ (["parameters.yml"],
     File (Some (YMap [("JINA_DIM",
                        YMap [("type", YStr "int");
                              ("low", YInt 1); ("high", YInt 2)])])));
    (["pods"], Dir);
    (["pods"; "encoder.yml"],
     File (Some (YMap [("with", YMap [("dim", YStr "$JINA_DIM")])])));
    (["flows"], Dir);
    (["flows"; "index.yml"], File (Some flow_file));
    (["flows"; "query.yml"], File (Some flow_file)) ].

(** the state in which [optimize_flow] is called: the callback is the one
    built for the default argument of [Optimizer.__init__] *)
Definition study_world : world unit :=
  {| environ := [];
     fs := study_files;
     out := [];
     flow_runner := default_runner;
     callback := OptimizerCallback_init None |}.

(** the search library suggests the integers 1, 2, ... trial after trial *)
Definition trial_suggest (trial : Trial) (method param : string)
           (kwargs : Dict.t yaml) : result yaml :=
  if String.eqb method "suggest_int" then Ok (YInt (trial_number trial + 1))
  else Err AttributeError.

Definition study_ask (finished : list (Trial * Q)) : Trial :=
  {| trial_number := Z.of_nat (List.length finished);
     trial_params := Dict.empty;
     trial_workspace := None |}.

(** the best trial when maximising *)
Definition study_best (finished : list (Trial * Q)) : result Trial :=
  match finished with
  | [] => Err ValueError
  | first :: rest =>
      Ok (fst (fold_left
                 (fun best tv =>
                    if Qle_bool (snd tv) (snd best) then best else tv)
                 rest first))
  end.

(** the query results of the engine: the single document of the first
    trial's flow is a hit, that of any other flow is a miss *)
Definition query_results (query_yaml : path) : list Response :=
  if path_eqb query_yaml ["JINA_WORKSPACE_1"; "flows"; "query.yml"]
  then [response [doc [evaluation "precision" 1%Q]]]
  else [response [doc [evaluation "precision" 0%Q]]].

Definition flow_search (query_yaml : path) (docs : list unit) (batch : Z)
           (output_fn : Response -> M unit unit) : M unit unit :=
  for_each (query_results query_yaml) output_fn.

(** the same study started where the search-space file is missing *)
Definition broken_world : world unit :=
  {| environ := [];
     fs := [(["pods"], Dir); (["flows"], Dir)];
     out := [];
     flow_runner := default_runner;
     callback := OptimizerCallback_init None |}.


(** three documents scored 0.1, 0.2 and 0.3 in binary64 *)
Definition binary64_responses : list (@Response binary64_arith) :=
  [ response [ doc [evaluation (A := binary64_arith) "score"
                               0x1.999999999999ap-4%float];
               doc [evaluation (A := binary64_arith) "score"
                               0x1.999999999999ap-3%float] ];
    response [ doc [evaluation (A := binary64_arith) "score"
                               0x1.3333333333333p-2%float] ] ].

(** one response whose documents carry two, no and one evaluation *)
Definition uneven_responses : list Response :=
  [ response [ doc [evaluation "precision" 1%Q;
                    evaluation "precision" (1 # 2)%Q];
               doc [];
               doc [evaluation "recall" 1%Q] ] ].

(** the documents of [responses], delivered in a single batch *)
Definition single_batch : list Response :=
  [ response [ doc [evaluation "precision" 1%Q; evaluation "recall" (1 # 2)%Q];
               doc [evaluation "precision" 0%Q;
                    evaluation "recall" (1 # 4)%Q];
               doc [evaluation "precision" (1 # 2)%Q;
                    evaluation "recall" 1%Q] ] ].

(** no workspace variable, no workspace directory *)
Definition bare_world : world unit :=
  {| environ := [];
     fs := [(["flows"], Dir)];
     out := [];
     flow_runner := default_runner;
     callback := OptimizerCallback_init None |}.

(** the workspace path is taken by a regular file *)
Definition blocked_world : world unit :=
  {| environ := [("JINA_WORKSPACE", "workspace")];
     fs := [(["workspace"], File None); (["flows"], Dir)];
     out := [];
     flow_runner :=
       FlowRunner_init [tt] [tt] 8 8 None "JINA_WORKSPACE" true;
     callback := OptimizerCallback_init None |}.

(** a finished study whose best trial sampled [JINA_DIM = 2], and a runner
    that has loaded [env.yml] *)
Definition best : Trial :=
  {| trial_number := 1;
     trial_params := [("JINA_DIM", YInt 2)];
     trial_workspace := Some ["JINA_WORKSPACE_2"] |}.

Definition finished_study : Study :=
  {| study_trials := [best]; best_trial := Ok best |}.

Definition export_world : world unit :=
  {| environ := [];
     fs := [(["env.yml"], File (Some env_file))];
     out := [];
     flow_runner := with_env_parameters runner env_file;
     callback := OptimizerCallback_init None |}.

(** an optimizer that keeps the workspaces of earlier trials *)
Definition keeping_optimizer : Optimizer :=
  Optimizer_init "pods" "flows/index.yml" "flows/query.yml" "parameters.yml"
                 "config/best_config.yml" false "$JINA_WORKSPACE".

(** the study files, with the pods of an earlier trial that sampled 1 *)
Definition rerun_world : world unit :=
  {| environ := [];
     fs := study_files
             ++ [ (["JINA_WORKSPACE_1"], Dir);
                  (["JINA_WORKSPACE_1"; "pods"], Dir) ];
     out := [];
     flow_runner := default_runner;
     callback := OptimizerCallback_init None |}.

(** a search space whose only parameter has no [type] *)
Definition untyped_world : world unit :=
  {| environ := [];
     fs := [ (["parameters.yml"],
              File (Some (YMap [("JINA_DIM",
                                 YMap [("low", YInt 1); ("high", YInt 2)])]))) ];
     out := [];
     flow_runner := default_runner;
     callback := OptimizerCallback_init None |}.

(** a flow file with two pods; the second has no configuration *)
Definition query_flow : Dict.t yaml :=
  [ ("version", YInt 1);
    ("pods",
     YMap [ ("encoder", YMap [ ("uses", YStr "pods/encoder.yml");
                               ("uses_before", YStr "/opt/pods/chunk.yml");
                               ("parallel", YInt 2) ]);
            ("ranker", YMap [ ("timeout", YInt 10) ]) ]) ].

Definition broken_flow : Dict.t yaml :=
  [ ("pods", YMap [ ("encoder", YMap [("uses", YStr "pods/encoder.yml")]);
                    ("ranker", YNull) ]) ].

(** a pod file whose [with] section was left empty *)
Definition empty_section_pod : Dict.t yaml :=
  [("name", YStr "encoder"); ("with", YNull)].

(** an optimizer whose two flow files have the same name *)
Definition clashing_optimizer : Optimizer :=
  Optimizer_init "pods" "index/flow.yml" "query/flow.yml" "parameters.yml"
                 "config/best_config.yml" true "JINA_WORKSPACE".

Definition index_flow_file : yaml :=
  YMap [("pods", YMap [("indexer", YMap [("uses", YStr "pods/indexer.yml")])])].

Definition clashing_world : world unit :=
  {| environ := [];
     fs := [ (["index"], Dir);
             (["index"; "flow.yml"], File (Some index_flow_file));
             (["query"], Dir);
             (["query"; "flow.yml"], File (Some flow_file));
             (["JINA_WORKSPACE_1"], Dir) ];
     out := [];
     flow_runner := default_runner;
     callback := OptimizerCallback_init None |}.



(** an environment file whose second name has an equals sign *)
Definition refused_env_file : yaml :=
  YMap [("FIRST", YInt 1); ("A=B", YInt 2); ("LAST", YInt 3)].

Definition refused_world : world unit :=
  {| environ := [];
     fs := [(["env.yml"], File (Some refused_env_file))];
     out := [];
     flow_runner := runner;
     callback := OptimizerCallback_init None |}.



End Example.

(* ================================================================== *)
(** * Properties *)

(** ** Dictionaries *)

Module DictFacts.

Lemma get_set_same {V} (k : string) (v : V) (d : Dict.t V) :
  Dict.get k (Dict.set k v d) = Some v.
Proof.
  induction d as [|[k' v'] d IH]; simpl.
  - now rewrite String.eqb_refl.
  - destruct (String.eqb k k') eqn:E; simpl; rewrite E; auto.
Qed.

Lemma get_set_other {V} (k k' : string) (v : V) (d : Dict.t V) :
  k <> k' -> Dict.get k (Dict.set k' v d) = Dict.get k d.
Proof.
  intros Hne. induction d as [|[k0 v0] d IH]; simpl.
  - apply String.eqb_neq in Hne. now rewrite Hne.
  - destruct (String.eqb k' k0) eqn:E; simpl.
    + apply String.eqb_eq in E. subst k0.
      apply String.eqb_neq in Hne. now rewrite Hne.
    + now rewrite IH.
Qed.

Lemma get_none_not_in {V} (k : string) (d : Dict.t V) :
  Dict.get k d = None <-> ~ In k (Dict.keys d).
Proof.
  induction d as [|[k' v'] d IH]; simpl.
  - tauto.
  - destruct (String.eqb k k') eqn:E.
    + apply String.eqb_eq in E. subst. split; [discriminate | tauto].
    + apply String.eqb_neq in E. rewrite IH. split; intros H.
      * intros [H1 | H1]; [congruence | tauto].
      * tauto.
Qed.

Lemma keys_set_present {V} (k : string) (v : V) (d : Dict.t V) :
  In k (Dict.keys d) -> Dict.keys (Dict.set k v d) = Dict.keys d.
Proof.
  induction d as [|[k' v'] d IH]; simpl; [tauto|].
  intros Hin. destruct (String.eqb k k') eqn:E; simpl; [reflexivity|].
  apply String.eqb_neq in E. f_equal. apply IH.
  destruct Hin; [congruence | assumption].
Qed.

Lemma keys_set_absent {V} (k : string) (v : V) (d : Dict.t V) :
  ~ In k (Dict.keys d) -> Dict.keys (Dict.set k v d) = Dict.keys d ++ [k].
Proof.
  induction d as [|[k' v'] d IH]; simpl; [reflexivity|].
  intros Hnin. destruct (String.eqb k k') eqn:E; simpl.
  - apply String.eqb_eq in E. subst. tauto.
  - f_equal. apply IH. tauto.
Qed.

Lemma keys_set_NoDup {V} (k : string) (v : V) (d : Dict.t V) :
  NoDup (Dict.keys d) -> NoDup (Dict.keys (Dict.set k v d)).
Proof.
  intros Hnd. destruct (in_dec string_dec k (Dict.keys d)) as [Hin | Hnin].
  - now rewrite keys_set_present.
  - rewrite keys_set_absent by assumption.
    apply NoDup_app; auto.
    + repeat constructor. simpl. tauto.
    + intros x Hx [Hk | []]. subst. tauto.
Qed.

Lemma in_keys_set {V} (k k' : string) (v : V) (d : Dict.t V) :
  In k (Dict.keys d) -> In k (Dict.keys (Dict.set k' v d)).
Proof.
  intros Hin. destruct (in_dec string_dec k' (Dict.keys d)) as [H | H].
  - now rewrite keys_set_present.
  - rewrite keys_set_absent by assumption. apply in_or_app. now left.
Qed.

End DictFacts.

(** ** The accumulator *)

Section CallbackFacts.

Context {A : Arith}.

Lemma fold_left_flat_map {X Y Z} (f : X -> Z -> X) (g : Y -> list Z)
      (l : list Y) (x : X) :
  fold_left (fun acc y => fold_left f (g y) acc) l x
  = fold_left f (flat_map g l) x.
Proof.
  revert x. induction l as [|y l IH]; intros x; simpl; [reflexivity|].
  now rewrite fold_left_app, IH.
Qed.

Lemma process_result_flat (self : OptimizerCallback) (r : Response) :
  process_result self r
  = fold_left add_evaluation (all_evaluations (search_docs r))
              (count_docs self r).
Proof. unfold process_result, all_evaluations. apply fold_left_flat_map. Qed.

Lemma fold_add_evaluation (evs : list Evaluation) (self : OptimizerCallback) :
  fold_left add_evaluation evs self
  = {| op_name := op_name self;
       evaluation_values := fold_left accumulate evs (evaluation_values self);
       n_docs := n_docs self |}.
Proof.
  revert self. induction evs as [|ev evs IH]; intros self; simpl.
  - now destruct self.
  - now rewrite IH.
Qed.

(** the state after any number of calls, field by field *)
Lemma fold_process_result (rs : list Response) (self : OptimizerCallback) :
  fold_left process_result rs self
  = {| op_name := op_name self;
       evaluation_values :=
         fold_left accumulate (all_evaluations (all_docs rs))
                   (evaluation_values self);
       n_docs := n_docs self + Z.of_nat (List.length (all_docs rs)) |}.
Proof.
  revert self. induction rs as [|r rs IH]; intros self; simpl.
  - destruct self; simpl. f_equal. lia.
  - rewrite IH, process_result_flat, fold_add_evaluation. simpl.
    unfold all_evaluations, all_docs. simpl.
    rewrite !flat_map_app, fold_left_app, length_app. f_equal. lia.
Qed.

Lemma get_accumulated (metric : string) (evs : list Evaluation)
      (d : Dict.t num) :
  Dict.get metric (fold_left accumulate evs d)
  = match metric_values metric evs with
    | [] => Dict.get metric d
    | vs => Some (fold_left num_add vs (Dict.get_default metric num_zero d))
    end.
Proof.
  revert d. induction evs as [|ev evs IH]; intros d; simpl; [reflexivity|].
  rewrite IH. unfold metric_values. simpl.
  destruct (String.eqb (ev_op_name ev) metric) eqn:E; simpl.
  - apply String.eqb_eq in E. subst metric.
    assert (Hget : Dict.get (ev_op_name ev) (accumulate d ev)
                   = Some (num_add (Dict.get_default (ev_op_name ev) num_zero d)
                                   (ev_value ev)))
      by apply DictFacts.get_set_same.
    unfold Dict.get_default at 1. rewrite Hget.
    now destruct (map ev_value _).
  - apply String.eqb_neq in E.
    assert (Hget : Dict.get metric (accumulate d ev) = Dict.get metric d)
      by (apply DictFacts.get_set_other; congruence).
    unfold Dict.get_default. now rewrite Hget.
Qed.

Lemma accumulated_NoDup (evs : list Evaluation) (d : Dict.t num) :
  NoDup (Dict.keys d) -> NoDup (Dict.keys (fold_left accumulate evs d)).
Proof.
  revert d. induction evs as [|ev evs IH]; intros d Hd; simpl; [assumption|].
  apply IH. now apply DictFacts.keys_set_NoDup.
Qed.

Lemma in_keys_accumulated (k : string) (evs : list Evaluation)
      (d : Dict.t num) :
  In k (Dict.keys d) -> In k (Dict.keys (fold_left accumulate evs d)).
Proof.
  revert d. induction evs as [|ev evs IH]; intros d Hk; simpl; [assumption|].
  apply IH. now apply DictFacts.in_keys_set.
Qed.

Lemma in_keys_accumulate (ev : Evaluation) (d : Dict.t num) :
  In (ev_op_name ev) (Dict.keys (accumulate d ev)).
Proof.
  destruct (in_dec string_dec (ev_op_name ev) (Dict.keys (accumulate d ev)))
    as [Hin | Hnin]; [assumption|].
  apply DictFacts.get_none_not_in in Hnin. unfold accumulate in Hnin.
  rewrite DictFacts.get_set_same in Hnin. discriminate.
Qed.

(** a dictionary that is still empty has seen no evaluation *)
Lemma accumulated_empty (evs : list Evaluation) :
  fold_left accumulate evs Dict.empty = [] -> evs = [].
Proof.
  destruct evs as [|ev evs]; [reflexivity|]. simpl. intros H.
  pose proof (in_keys_accumulated _ evs _ (in_keys_accumulate ev Dict.empty))
    as Hin.
  rewrite H in Hin. destruct Hin.
Qed.

(** the comprehension of [get_mean_evaluation] divides every sum *)
Lemma mean_items_nonzero (n : Z) (items acc : Dict.t num) :
  n <> 0 -> NoDup (Dict.keys items) ->
  exists means,
    mean_items items n acc = Ok means /\
    forall metric,
      Dict.get metric means
      = match Dict.get metric items with
        | Some v => Some (num_div v n)
        | None => Dict.get metric acc
        end.
Proof.
  intros Hn. revert acc.
  induction items as [|[k v] items IH]; intros acc Hnd; simpl.
  - now exists acc.
  - inversion Hnd as [|? ? Hk Hnd']; subst.
    unfold truediv. destruct (Z.eqb_spec n 0) as [|_]; [contradiction|]. simpl.
    destruct (IH (Dict.set k (num_div v n) acc) Hnd') as (means & Hm & Hget).
    exists means. split; [assumption|]. intros metric. rewrite Hget.
    destruct (String.eqb metric k) eqn:E.
    + apply String.eqb_eq in E. subst metric.
      apply DictFacts.get_none_not_in in Hk. rewrite Hk.
      apply DictFacts.get_set_same.
    + apply String.eqb_neq in E.
      destruct (Dict.get metric items); [reflexivity|].
      now apply DictFacts.get_set_other.
Qed.

Lemma metric_values_app (metric : string) (l1 l2 : list Evaluation) :
  metric_values metric (l1 ++ l2)
  = metric_values metric l1 ++ metric_values metric l2.
Proof. unfold metric_values. now rewrite filter_app, map_app. Qed.

Lemma one_value_per_doc (metric : string) (docs : list ResultDoc) :
  (forall doc, In doc docs ->
               List.length (metric_values metric (evaluations doc)) = 1%nat) ->
  List.length (metric_values metric (all_evaluations docs))
  = List.length docs.
Proof.
  induction docs as [|doc docs IH]; intros H; simpl; [reflexivity|].
  rewrite metric_values_app, length_app, H by (now left).
  rewrite IH; [reflexivity|]. intros d Hd. apply H. now right.
Qed.

End CallbackFacts.

Section MeanEvaluation.

Context {A : Arith}.

(** Over the life of a callback: when N > 0 documents were recorded since
    it was constructed, each carrying one value for a metric, and S is the
    sum of those values, then [get_mean_evaluation] yields S / N for that
    metric: as its result when [op_name] is that metric, and under the
    metric's key of the returned dictionary when no [op_name] is set. *)
Lemma mean_evaluation_is_sum_over_count
        (op : option string) (rs : list Response) (metric : string) :
  let docs := all_docs rs in
  let values := metric_values metric (all_evaluations docs) in
  let N := Z.of_nat (List.length docs) in
  let S := sum_values values in
  0 < N ->
  (forall doc, In doc docs ->
               List.length (metric_values metric (evaluations doc)) = 1%nat) ->
  List.length values = List.length docs /\
  n_docs (recorded op rs) = N /\
  (op_name_truthy op = true -> op = Some metric ->
   get_mean_evaluation (recorded op rs) = Ok (MeanValue (num_div S N))) /\
  (op_name_truthy op = false ->
   exists means,
     get_mean_evaluation (recorded op rs) = Ok (MeanDict means) /\
     Dict.get metric means = Some (num_div S N)).
Proof.
  intros docs values N S HN Hone.
  assert (Hlen : List.length values = List.length docs)
    by (apply one_value_per_doc; assumption).
  assert (Hrec : recorded op rs
                 = {| op_name := op;
                      evaluation_values :=
                        fold_left accumulate (all_evaluations docs) Dict.empty;
                      n_docs := N |}).
  { unfold recorded. rewrite fold_process_result. reflexivity. }
  assert (Hget : Dict.get metric
                          (fold_left accumulate (all_evaluations docs)
                                     Dict.empty)
                 = Some S).
  { rewrite get_accumulated. fold values. unfold S, sum_values.
    destruct values as [|v vs] eqn:Ev; [simpl in Hlen; lia | reflexivity]. }
  assert (Hnz : (N =? 0) = false) by (apply Z.eqb_neq; lia).
  split; [assumption|]. split; [now rewrite Hrec|].
  rewrite Hrec. unfold get_mean_evaluation. simpl. split.
  - intros Htruthy ->. simpl in Htruthy.
    apply negb_true_iff in Htruthy. rewrite Htruthy.
    unfold mean_of_one. simpl. rewrite Hget. unfold truediv.
    now rewrite Hnz.
  - intros Hfalsy.
    destruct (mean_items_nonzero (n := N)
                (fold_left accumulate (all_evaluations docs) Dict.empty)
                Dict.empty) as (means & Hmeans & Hlookup).
    + lia.
    + apply accumulated_NoDup. constructor.
    + exists means. split.
      * assert (Hall : mean_of_all
                         {| op_name := op;
                            evaluation_values :=
                              fold_left accumulate (all_evaluations docs)
                                        Dict.empty;
                            n_docs := N |} = Ok (MeanDict means))
          by (unfold mean_of_all; simpl; now rewrite Hmeans).
        destruct op as [name|]; [|assumption].
        simpl in Hfalsy. apply negb_false_iff in Hfalsy. now rewrite Hfalsy.
      * now rewrite Hlookup, Hget.
Qed.

End MeanEvaluation.

(** The three documents of the example run: precision sums to 3/2. *)
Lemma mean_evaluation_is_sum_over_count_witness :
  exists means,
    get_mean_evaluation (recorded None Example.responses) = Ok (MeanDict means)
    /\ Dict.get "precision" means
       = Some (Qdiv (0 + 1 + 0 + (1 # 2))%Q (inject_Z 3)).
Proof.
  apply (mean_evaluation_is_sum_over_count None Example.responses "precision").
  - reflexivity.
  - intros d Hd. simpl in Hd.
    destruct Hd as [<- | [<- | [<- | []]]]; reflexivity.
  - reflexivity.
Defined.

(** On binary64 the same run is evaluated with the interpreter's rounding:
    the scores 0.1, 0.2 and 0.3 have the mean 0.20000000000000004. *)
Lemma mean_evaluation_binary64 :
  get_mean_evaluation (A := binary64_arith)
                      (recorded None Example.binary64_responses)
  = Ok (MeanDict (A := binary64_arith)
                 [("score", 0x1.999999999999bp-3%float)]).
Proof. vm_compute. reflexivity. Qed.

(** C1 (the code departs from the claim).  The callback is constructed
    once and its count and sums are never reset, so what it has recorded
    in a trial is added to what it recorded in the trials before.  In the
    example study the second trial records N = 1 document, whose one value
    for [precision] is 0, so S = 0 and S / N = 0; yet after that trial
    [get_mean_evaluation] returns 1/2 for [precision], the first trial's
    document (scored 1) being counted too.  The same holds for a callback
    with [op_name] set that records the two trials. *)
Theorem mean_evaluation_spans_trials :
  let first :=
    Example.query_results ["JINA_WORKSPACE_1"; "flows"; "query.yml"] in
  let second :=
    Example.query_results ["JINA_WORKSPACE_2"; "flows"; "query.yml"] in
  let N := Z.of_nat (List.length (all_docs second)) in
  let S := sum_values
             (metric_values "precision" (all_evaluations (all_docs second))) in
  N = 1
  /\ (forall doc, In doc (all_docs second) ->
        List.length (metric_values "precision" (evaluations doc)) = 1%nat)
  /\ num_div S N = 0%Q
  /\ (exists trials w,
        study_optimize Example.container_str Example.flow_index
                       Example.flow_search Example.trial_suggest
                       Example.study_ask Example.optimizer 2 []
                       Example.study_world
        = Done trials w
        /\ callback w = fold_left process_result second (recorded None first)
        /\ get_mean_evaluation (callback w)
           = Ok (MeanDict [("precision", (1 # 2)%Q)]))
  /\ get_mean_evaluation
       (fold_left process_result second (recorded (Some "precision") first))
     = Ok (MeanValue (1 # 2)%Q)
  /\ ~ ((1 # 2) == 0)%Q.
Proof.
  cbv zeta. split; [reflexivity|]. split.
  - intros doc [<- | []]. reflexivity.
  - split; [reflexivity|]. split.
    + do 2 eexists. split; [vm_compute; reflexivity|].
      split; reflexivity.
    + split; [reflexivity | discriminate].
Qed.

(** The claim as the specification words it fails on a callback that was
    just constructed: no document is recorded, and the call returns the
    empty dictionary. *)
Lemma mean_evaluation_without_documents_returns :
  ~ (forall self : OptimizerCallback,
        n_docs self = 0 -> get_mean_evaluation self = Err ZeroDivisionError).
Proof.
  intros H. specialize (H (OptimizerCallback_init None) eq_refl).
  discriminate H.
Qed.

Section DivisionByZero.

Context {A : Arith}.

Lemma mean_items_total (n : Z) (items acc : Dict.t num) :
  n <> 0 -> exists means, mean_items items n acc = Ok means.
Proof.
  intros Hn. revert acc.
  induction items as [|[k v] items IH]; intros acc; simpl.
  - now exists acc.
  - unfold truediv. destruct (Z.eqb_spec n 0); [contradiction|]. simpl.
    apply IH.
Qed.

Lemma mean_items_zero (items acc : Dict.t num) :
  items <> [] -> mean_items items 0 acc = Err ZeroDivisionError.
Proof. destruct items as [|[k v] items]; [congruence | reflexivity]. Qed.

Lemma recorded_nothing (op : option string) (rs : list Response) :
  n_docs (recorded op rs) = 0 -> evaluation_values (recorded op rs) = [].
Proof.
  unfold recorded. rewrite fold_process_result. simpl. intros Hn.
  assert (Hdocs : all_docs rs = [])
    by (destruct (all_docs rs); [reflexivity | simpl in Hn; lia]).
  now rewrite Hdocs.
Qed.

(** C9 (amended).  With [n_docs = 0] the division of
    [get_mean_evaluation] is unguarded, but it is reached only when a sum
    is stored: with [op_name] set the subscript is evaluated first and
    raises [KeyError] when nothing is stored for it, with no [op_name] an
    empty dictionary is returned as it is.  A callback that has only
    recorded through [process_result] and counts no document stores
    nothing, so the call then raises [KeyError] or returns the empty
    dictionary.  With [n_docs <> 0] no division by zero can be raised. *)
Theorem mean_evaluation_division_by_zero (self : OptimizerCallback) :
  (n_docs self = 0 ->
   get_mean_evaluation self
   = match op_name self with
     | Some name =>
         if op_name_truthy (op_name self) then
           match Dict.get name (evaluation_values self) with
           | None => Err (KeyError name)
           | Some _ => Err ZeroDivisionError
           end
         else
           match evaluation_values self with
           | [] => Ok (MeanDict [])
           | _ :: _ => Err ZeroDivisionError
           end
     | None =>
         match evaluation_values self with
         | [] => Ok (MeanDict [])
         | _ :: _ => Err ZeroDivisionError
         end
     end) /\
  (forall op rs, self = recorded op rs -> n_docs self = 0 ->
                 get_mean_evaluation self
                 = match op with
                   | Some name =>
                       if op_name_truthy op then Err (KeyError name)
                       else Ok (MeanDict [])
                   | None => Ok (MeanDict [])
                   end) /\
  (n_docs self <> 0 -> get_mean_evaluation self <> Err ZeroDivisionError).
Proof.
  assert (Hall : n_docs self = 0 ->
                 mean_of_all self
                 = match evaluation_values self with
                   | [] => Ok (MeanDict [])
                   | _ :: _ => Err ZeroDivisionError
                   end).
  { intros Hn. unfold mean_of_all. rewrite Hn.
    destruct (evaluation_values self) as [|kv rest] eqn:E; [reflexivity|].
    now rewrite mean_items_zero. }
  assert (Hfirst : n_docs self = 0 ->
   get_mean_evaluation self
   = match op_name self with
     | Some name =>
         if op_name_truthy (op_name self) then
           match Dict.get name (evaluation_values self) with
           | None => Err (KeyError name)
           | Some _ => Err ZeroDivisionError
           end
         else
           match evaluation_values self with
           | [] => Ok (MeanDict [])
           | _ :: _ => Err ZeroDivisionError
           end
     | None =>
         match evaluation_values self with
         | [] => Ok (MeanDict [])
         | _ :: _ => Err ZeroDivisionError
         end
     end).
  { intros Hn. unfold get_mean_evaluation.
    destruct (op_name self) as [name|]; [|now apply Hall]. simpl.
    destruct (String.eqb name EmptyString); simpl; [now apply Hall|].
    unfold mean_of_one. rewrite Hn.
    now destruct (Dict.get name (evaluation_values self)). }
  split; [exact Hfirst|]. split.
  - intros op rs -> Hn. rewrite (Hfirst Hn).
    rewrite (recorded_nothing op rs Hn).
    assert (Hop : op_name (recorded op rs) = op)
      by (unfold recorded; now rewrite fold_process_result).
    rewrite Hop. destruct op as [name|]; [|reflexivity].
    now destruct (op_name_truthy (Some name)).
  - intros Hn. unfold get_mean_evaluation.
    assert (Hall' : mean_of_all self <> Err ZeroDivisionError).
    { unfold mean_of_all.
      destruct (mean_items_total (evaluation_values self) Dict.empty Hn)
        as (means & ->). discriminate. }
    destruct (op_name self) as [name|]; [|assumption].
    destruct (String.eqb name EmptyString); [assumption|].
    unfold mean_of_one.
    destruct (Dict.get name (evaluation_values self)); [|discriminate].
    unfold truediv. destruct (Z.eqb_spec (n_docs self) 0); [contradiction|].
    discriminate.
Qed.

End DivisionByZero.

(** A callback with [op_name = 'precision'] that has received one
    response without documents. *)
Lemma mean_evaluation_division_by_zero_witness :
  get_mean_evaluation
    (recorded (Some "precision") [Example.response []])
  = Err (KeyError "precision").
Proof.
  apply (proj1 (proj2 (mean_evaluation_division_by_zero
                         (recorded (Some "precision") [Example.response []])))
               (Some "precision") [Example.response []]).
  - reflexivity.
  - reflexivity.
Defined.

(** ** The accumulator invariant *)

Section AccumulatorInvariant.

Context {A : Arith} {O : ArithOrder A}.

Lemma nonnegative_init (op : option string) :
  nonnegative (OptimizerCallback_init op).
Proof. split; simpl; [lia | discriminate]. Qed.

Lemma grows_refl (self : OptimizerCallback) :
  nonnegative self -> grows self self.
Proof.
  intros [_ Hv]. split; [lia|]. intros metric v Hget.
  exists v. split; [assumption|]. apply num_le_refl. eauto.
Qed.

Lemma grows_trans (a b c : OptimizerCallback) :
  grows a b -> grows b c -> grows a c.
Proof.
  intros [Hn1 Hv1] [Hn2 Hv2]. split; [lia|]. intros metric v Hget.
  destruct (Hv1 _ _ Hget) as (v1 & Hget1 & Hle1).
  destruct (Hv2 _ _ Hget1) as (v2 & Hget2 & Hle2).
  exists v2. split; [assumption|]. eapply num_le_trans; eassumption.
Qed.

Lemma count_docs_invariant (self : OptimizerCallback) (r : Response) :
  nonnegative self ->
  nonnegative (count_docs self r) /\ grows self (count_docs self r).
Proof.
  intros [Hn Hv]. split; split; simpl; try lia; try assumption.
  intros metric v Hget. exists v. split; [assumption|].
  apply num_le_refl. eauto.
Qed.

Lemma add_evaluation_invariant (self : OptimizerCallback) (ev : Evaluation) :
  nonnegative self -> num_le num_zero (ev_value ev) ->
  nonnegative (add_evaluation self ev) /\ grows self (add_evaluation self ev).
Proof.
  intros [Hn Hv] Hev.
  assert (Hold : num_le num_zero
                        (Dict.get_default (ev_op_name ev) num_zero
                                          (evaluation_values self))).
  { unfold Dict.get_default.
    destruct (Dict.get (ev_op_name ev) (evaluation_values self)) eqn:E.
    - eauto.
    - apply num_le_zero. }
  split; split; simpl; try lia; try assumption.
  - intros metric v. unfold accumulate.
    destruct (string_dec metric (ev_op_name ev)) as [-> | Hne].
    + rewrite DictFacts.get_set_same. intros [= <-].
      eapply num_le_trans; [exact Hold|]. now apply num_add_nonneg.
    + rewrite DictFacts.get_set_other by assumption. apply Hv.
  - intros metric v Hget. unfold accumulate.
    destruct (string_dec metric (ev_op_name ev)) as [-> | Hne].
    + rewrite DictFacts.get_set_same. eexists. split; [reflexivity|].
      unfold Dict.get_default. rewrite Hget.
      apply num_add_nonneg; eauto.
    + rewrite DictFacts.get_set_other by assumption.
      exists v. split; [assumption|]. apply num_le_refl. eauto.
Qed.

Lemma last_cons_default {X} (x : X) (l : list X) (d d' : X) :
  last (x :: l) d = last (x :: l) d'.
Proof.
  revert x. induction l as [|y l IH]; intros x; [reflexivity|].
  change (last (y :: l) d = last (y :: l) d'). apply IH.
Qed.

(** the loop of lines 98-100, point by point *)
Lemma evaluation_points_invariant (evs : list Evaluation)
      (self : OptimizerCallback) :
  nonnegative self ->
  (forall ev, In ev evs -> num_le num_zero (ev_value ev)) ->
  Forall nonnegative (evaluation_points self evs) /\
  increasing self (evaluation_points self evs) /\
  last (evaluation_points self evs) self = fold_left add_evaluation evs self /\
  nonnegative (fold_left add_evaluation evs self) /\
  grows self (fold_left add_evaluation evs self).
Proof.
  revert self. induction evs as [|ev evs IH]; intros self Hinv Hevs; simpl.
  - repeat split; try apply Hinv; try constructor; try lia.
    now apply grows_refl.
  - destruct (add_evaluation_invariant (self := self) ev Hinv)
      as [Hinv' Hgrow]; [apply Hevs; now left|].
    destruct (IH (add_evaluation self ev) Hinv')
      as (Hall & Hinc & Hlast & Hinv'' & Hgrow');
      [intros e He; apply Hevs; now right|].
    split; [now constructor|]. split; [now split|].
    split; [|split; [assumption|]];
      [|now apply grows_trans with (add_evaluation self ev)].
    rewrite <- Hlast.
    destruct (evaluation_points (add_evaluation self ev) evs) as [|q l];
      [reflexivity|].
    change (last (q :: l) self = last (q :: l) (add_evaluation self ev)).
    apply last_cons_default.
Qed.

(** one call of [process_result], point by point *)
Lemma process_result_invariant (self : OptimizerCallback) (r : Response) :
  nonnegative self ->
  (forall ev, In ev (all_evaluations (search_docs r)) ->
              num_le num_zero (ev_value ev)) ->
  Forall nonnegative (process_result_points self r) /\
  increasing self (process_result_points self r) /\
  last (process_result_points self r) self = process_result self r /\
  nonnegative (process_result self r) /\
  grows self (process_result self r).
Proof.
  intros Hinv Hevs.
  destruct (count_docs_invariant r Hinv) as [Hinv' Hgrow].
  destruct (evaluation_points_invariant _ Hinv' Hevs)
    as (Hall & Hinc & Hlast & Hinv'' & Hgrow').
  rewrite process_result_flat. unfold process_result_points.
  split; [now constructor|]. split; [now split|].
  split; [|split; [assumption|]];
    [|now apply grows_trans with (count_docs self r)].
  rewrite <- Hlast.
  destruct (evaluation_points (count_docs self r)
                              (all_evaluations (search_docs r))) as [|q l];
    [reflexivity|].
  change (last (q :: l) self = last (q :: l) (count_docs self r)).
  apply last_cons_default.
Qed.

Lemma nonnegative_values_app (rs1 rs2 : list Response) :
  nonnegative_values (rs1 ++ rs2) <->
  nonnegative_values rs1 /\ nonnegative_values rs2.
Proof.
  unfold nonnegative_values, all_evaluations, all_docs.
  rewrite !flat_map_app. split.
  - intros H. split; intros ev Hev; apply H; apply in_or_app; tauto.
  - intros [H1 H2] ev Hev. apply in_app_or in Hev. destruct Hev; eauto.
Qed.

Lemma fold_process_result_nonnegative (rs : list Response)
      (self : OptimizerCallback) :
  nonnegative self -> nonnegative_values rs ->
  nonnegative (fold_left process_result rs self).
Proof.
  revert self. induction rs as [|r rs IH]; intros self Hinv Hrs; simpl;
    [assumption|].
  change (r :: rs) with ([r] ++ rs) in Hrs.
  apply nonnegative_values_app in Hrs. destruct Hrs as [Hr Hrs].
  apply IH; [|assumption].
  apply process_result_invariant; [assumption|].
  intros ev Hev. apply Hr. unfold all_docs. simpl. now rewrite app_nil_r.
Qed.

(** C6.  Within a trial, that is from the construction of the callback on,
    the document count and the running sum of every metric are
    non-negative at every point of every call of [process_result], and none
    of them decreases from one point to the next nor across the call,
    provided the evaluation values delivered are non-negative (the number
    of documents of a response is a length). *)
Theorem accumulator_nonnegative_and_monotone
        (op : option string) (rs : list Response) (r : Response) :
  nonnegative_values (rs ++ [r]) ->
  let before := recorded op rs in
  let points := process_result_points before r in
  nonnegative before /\
  Forall nonnegative points /\
  increasing before points /\
  last points before = process_result before r /\
  grows before (process_result before r).
Proof.
  intros Hvals before points.
  apply nonnegative_values_app in Hvals. destruct Hvals as [Hrs Hr].
  assert (Hbefore : nonnegative before)
    by (apply fold_process_result_nonnegative;
        [apply nonnegative_init | assumption]).
  destruct (process_result_invariant (self := before) r Hbefore)
    as (Hall & Hinc & Hlast & _ & Hgrow).
  - intros ev Hev. apply Hr. unfold all_docs. simpl. now rewrite app_nil_r.
  - exact (conj Hbefore (conj Hall (conj Hinc (conj Hlast Hgrow)))).
Qed.

End AccumulatorInvariant.


(** The example run: three documents recorded, then one more response. *)
Lemma accumulator_nonnegative_and_monotone_witness :
  nonnegative (recorded None Example.responses) /\
  grows (recorded None Example.responses)
        (process_result (recorded None Example.responses)
                        Example.last_response).
Proof.
  destruct (accumulator_nonnegative_and_monotone
              None Example.responses Example.last_response)
    as (H1 & _ & _ & _ & H5).
  - intros ev Hev. simpl in Hev.
    repeat (destruct Hev as [<- | Hev]; [simpl; unfold Qle; simpl; lia|]).
    destruct Hev.
  - split; assumption.
Defined.

(** ** Parameter substitution *)

Module MoreDictFacts.

Lemma set_app_absent {V} (k : string) (x v : V) (done rest : Dict.t V) :
  ~ In k (Dict.keys done) ->
  Dict.set k x (done ++ (k, v) :: rest) = done ++ (k, x) :: rest.
Proof.
  induction done as [|[k' v'] done IH]; simpl; intros Hnin.
  - now rewrite String.eqb_refl.
  - destruct (String.eqb k k') eqn:E.
    + apply String.eqb_eq in E. subst. tauto.
    + rewrite IH; tauto.
Qed.

Lemma map_absent_id {V} (k : string) (f : string * V -> string * V)
      (m : Dict.t V) :
  ~ In k (Dict.keys m) ->
  map (fun kv => if String.eqb (fst kv) k then f kv else kv) m = m.
Proof.
  induction m as [|[k' v'] m IH]; simpl; intros Hnin; [reflexivity|].
  destruct (String.eqb k' k) eqn:E.
  - apply String.eqb_eq in E. subst. tauto.
  - rewrite IH; tauto.
Qed.

Lemma set_present_map {V} (k : string) (x : V) (m : Dict.t V) :
  NoDup (Dict.keys m) -> In k (Dict.keys m) ->
  Dict.set k x m
  = map (fun kv => if String.eqb (fst kv) k then (fst kv, x) else kv) m.
Proof.
  induction m as [|[k' v'] m IH]; simpl; intros Hnd Hin; [tauto|].
  inversion Hnd as [|? ? Hk Hnd']; subst.
  rewrite (String.eqb_sym k' k). destruct (String.eqb k k') eqn:E.
  - apply String.eqb_eq in E. subst k'. f_equal.
    symmetry. exact (map_absent_id k (fun kv => (fst kv, x)) m Hk).
  - f_equal. apply IH; [assumption|].
    apply String.eqb_neq in E. destruct Hin; [congruence | assumption].
Qed.

Lemma in_get {V} (k : string) (v : V) (m : Dict.t V) :
  NoDup (Dict.keys m) -> In (k, v) m -> Dict.get k m = Some v.
Proof.
  induction m as [|[k' v'] m IH]; simpl; intros Hnd Hin; [tauto|].
  inversion Hnd as [|? ? Hk Hnd']; subst.
  destruct Hin as [[= -> ->] | Hin].
  - now rewrite String.eqb_refl.
  - destruct (String.eqb k k') eqn:E.
    + apply String.eqb_eq in E. subst k'. exfalso. apply Hk.
      change k with (fst (k, v)). now apply in_map.
    + now apply IH.
Qed.

Lemma get_some_in_keys {V} (k : string) (v : V) (m : Dict.t V) :
  Dict.get k m = Some v -> In k (Dict.keys m).
Proof.
  intros Hget. destruct (in_dec string_dec k (Dict.keys m)) as [H | H];
    [assumption|]. apply DictFacts.get_none_not_in in H. congruence.
Qed.

Lemma get_map_other {V} (k k' : string) (f : string * V -> string * V)
      (m : Dict.t V) :
  k <> k' -> (forall kv, fst (f kv) = fst kv) ->
  Dict.get k (map (fun kv => if String.eqb (fst kv) k' then f kv else kv) m)
  = Dict.get k m.
Proof.
  intros Hne Hf. induction m as [|[k0 v0] m IH]; [reflexivity|].
  cbn [map fst]. destruct (String.eqb k0 k') eqn:E.
  - apply String.eqb_eq in E. subst k0. specialize (Hf (k', v0)).
    destruct (f (k', v0)) as [k1 v1]. simpl in Hf. subst k1. simpl.
    apply String.eqb_neq in Hne. now rewrite Hne.
  - simpl. now rewrite IH.
Qed.

End MoreDictFacts.

Section Substitution.

Variable container_str : yaml -> string.
Variable trial_parameters : Dict.t yaml.

(** the inner loop of [_replace_param] rewrites the section entry by entry;
    [done] are the entries already visited *)
Lemma replace_items_from (done rest : Dict.t yaml) :
  NoDup (Dict.keys (done ++ rest)) ->
  fold_left (replace_item container_str trial_parameters) rest (done ++ rest)
  = done ++ substituted_section container_str trial_parameters rest.
Proof.
  revert done. induction rest as [|[k v] rest IH]; intros done Hnd; simpl.
  - reflexivity.
  - assert (Hk : ~ In k (Dict.keys done)).
    { unfold Dict.keys in *. rewrite map_app in Hnd. simpl in Hnd.
      apply NoDup_remove_2 in Hnd. intros Hin. apply Hnd.
      apply in_or_app. now left. }
    assert (Hstep : replace_item container_str trial_parameters
                                 (done ++ (k, v) :: rest) (k, v)
                    = (done ++ [(k, substituted container_str trial_parameters v)])
                        ++ rest).
    { unfold replace_item, substituted. simpl.
      destruct (Dict.get _ trial_parameters) as [new|].
      - rewrite MoreDictFacts.set_app_absent by assumption.
        now rewrite <- app_assoc.
      - now rewrite <- app_assoc. }
    rewrite Hstep, IH.
    + now rewrite <- app_assoc.
    + unfold Dict.keys in *. rewrite <- app_assoc. simpl.
      rewrite !map_app in *. exact Hnd.
Qed.

Lemma replace_items (sec : Dict.t yaml) :
  NoDup (Dict.keys sec) ->
  fold_left (replace_item container_str trial_parameters) sec sec
  = substituted_section container_str trial_parameters sec.
Proof. intros Hnd. exact (replace_items_from [] sec Hnd). Qed.

Lemma section_pass_key (section : string) (kv : string * yaml) :
  fst (section_pass container_str trial_parameters section kv) = fst kv.
Proof.
  unfold section_pass. destruct (String.eqb (fst kv) section); [|reflexivity].
  now destruct (snd kv).
Qed.

Lemma section_pass_keys (section : string) (m : Dict.t yaml) :
  Dict.keys (map (section_pass container_str trial_parameters section) m)
  = Dict.keys m.
Proof.
  unfold Dict.keys. rewrite map_map. apply map_ext. intros kv.
  apply section_pass_key.
Qed.

Lemma section_pass_get_other (section key : string) (m : Dict.t yaml) :
  key <> section ->
  Dict.get key (map (section_pass container_str trial_parameters section) m)
  = Dict.get key m.
Proof.
  intros Hne. unfold section_pass.
  apply (MoreDictFacts.get_map_other
           (fun kv => match snd kv with
                      | YMap sec =>
                          (fst kv,
                           YMap (substituted_section container_str
                                                     trial_parameters sec))
                      | _ => kv
                      end) m Hne).
  intros kv. now destruct (snd kv).
Qed.

(** one iteration of the loop over the two section names *)
Lemma replace_section_pass (section : string) (m : Dict.t yaml) :
  NoDup (Dict.keys m) ->
  (forall v, Dict.get section m = Some v ->
             exists sec, v = YMap sec /\ NoDup (Dict.keys sec)) ->
  replace_section container_str trial_parameters (YMap m) section
  = Ok (YMap (map (section_pass container_str trial_parameters section) m)).
Proof.
  intros Hnd Hsec. unfold replace_section. simpl. unfold Dict.contains.
  destruct (Dict.get section m) as [v|] eqn:Hget; simpl.
  - destruct (Hsec v eq_refl) as (sec & -> & Hnd_sec). simpl.
    rewrite replace_items by assumption.
    rewrite MoreDictFacts.set_present_map;
      [|assumption | eapply MoreDictFacts.get_some_in_keys; eassumption].
    do 2 f_equal. apply map_ext_in. intros [k v] Hin.
    unfold section_pass. simpl.
    destruct (String.eqb k section) eqn:E; [|reflexivity].
    apply String.eqb_eq in E. subst k.
    rewrite (MoreDictFacts.in_get _ _ _ Hnd Hin) in Hget.
    injection Hget as ->. reflexivity.
  - do 2 f_equal. symmetry. unfold section_pass.
    apply MoreDictFacts.map_absent_id.
    now apply DictFacts.get_none_not_in.
Qed.

Lemma section_passes (m : Dict.t yaml) :
  map (section_pass container_str trial_parameters "metas")
      (map (section_pass container_str trial_parameters "with") m)
  = substituted_mapping container_str trial_parameters m.
Proof.
  rewrite map_map. apply map_ext. intros [k v].
  unfold section_pass, is_section. simpl.
  destruct (String.eqb k "with") eqn:Ewith; simpl.
  - apply String.eqb_eq in Ewith. subst k.
    destruct v; reflexivity.
  - destruct (String.eqb k "metas"); reflexivity.
Qed.

(** [_replace_param] on a mapping with well-formed sections *)
Lemma replace_param_sections (m : Dict.t yaml) :
  well_formed_sections m ->
  _replace_param container_str (YMap m) trial_parameters
  = Ok (YMap (substituted_mapping container_str trial_parameters m)).
Proof.
  intros [Hnd Hsec]. unfold _replace_param. simpl.
  rewrite replace_section_pass;
    [|assumption | intros v; now apply Hsec]. simpl.
  rewrite replace_section_pass.
  - now rewrite section_passes.
  - now rewrite section_pass_keys.
  - intros v. rewrite section_pass_get_other by discriminate.
    now apply Hsec.
Qed.

Lemma replace_components_pass (cs : list yaml) :
  Forall (fun c => exists cm, c = YMap cm /\ well_formed_sections cm) cs ->
  map_result (fun c => _replace_param container_str c trial_parameters) cs
  = Ok (map (substituted_component container_str trial_parameters) cs).
Proof.
  induction 1 as [|c cs (cm & -> & Hwf) _ IH]; simpl; [reflexivity|].
  now rewrite replace_param_sections, IH.
Qed.

Lemma components_pass_key (kv : string * yaml) :
  fst (components_pass container_str trial_parameters kv) = fst kv.
Proof.
  unfold components_pass.
  destruct (String.eqb (fst kv) "components"); [|reflexivity].
  now destruct (snd kv).
Qed.

Lemma components_pass_sections (m : Dict.t yaml) :
  well_formed_sections m ->
  well_formed_sections (map (components_pass container_str trial_parameters) m).
Proof.
  intros [Hnd Hsec]. split.
  - unfold Dict.keys. rewrite map_map.
    rewrite (map_ext _ fst components_pass_key). exact Hnd.
  - intros key v Hkey. unfold components_pass.
    rewrite (MoreDictFacts.get_map_other
               (fun kv => match snd kv with
                          | YSeq cs =>
                              (fst kv,
                               YSeq (map (substituted_component container_str
                                            trial_parameters) cs))
                          | _ => kv
                          end) m).
    + now apply Hsec.
    + intros ->. discriminate Hkey.
    + intros kv. now destruct (snd kv).
Qed.

End Substitution.

(** The claim as the specification words it fails: a token at the top level
    of the pod file names a sampled parameter and is not replaced. *)
Lemma substitution_skips_tokens_outside_sections :
  ~ (forall (trial_parameters m m' : Dict.t yaml) (key : string) (v new : yaml),
        trial_pod_config Example.container_str (YMap m) trial_parameters
        = Ok (YMap m') ->
        Dict.get key m = Some v ->
        Dict.get (lstrip_dollar (py_str Example.container_str v))
                 trial_parameters = Some new ->
        Dict.get key m' = Some new).
Proof.
  intros H.
  specialize (H Example.trial_parameters Example.pod_file
                (substituted_file Example.container_str
                                  Example.trial_parameters Example.pod_file)
                "name" (YStr "$JINA_DIM") (YInt 64)
                eq_refl eq_refl eq_refl).
  discriminate H.
Qed.

(** C2 (amended).  For a pod file whose [with] and [metas] sections are
    mappings and whose [components] are such mappings, the substitution of
    [_create_trial_pods] succeeds and rewrites exactly the entries that lie
    directly in a [with] or [metas] section of the file's top-level mapping
    or of an element of its [components] list: such an entry is replaced by
    the sampled value of the parameter that its text names once all
    leading dollar signs are removed, and is kept when its text names no
    sampled parameter; every other part of the file is kept as it is. *)
Theorem substitution_in_sections
        (container_str : yaml -> string) (trial_parameters m : Dict.t yaml) :
  well_formed_pod m ->
  trial_pod_config container_str (YMap m) trial_parameters
  = Ok (YMap (substituted_file container_str trial_parameters m))
  /\ (forall v new,
         Dict.get (lstrip_dollar (py_str container_str v)) trial_parameters
         = Some new ->
         substituted container_str trial_parameters v = new)
  /\ (forall v,
         Dict.get (lstrip_dollar (py_str container_str v)) trial_parameters
         = None ->
         substituted container_str trial_parameters v = v).
Proof.
  intros [Hwf Hcomp]. split; [|split].
  - unfold trial_pod_config, substituted_file. simpl. unfold Dict.contains.
    pose proof (components_pass_sections container_str trial_parameters Hwf)
      as Hwf'.
    destruct (Dict.get "components" m) as [v|] eqn:Hget; simpl.
    + destruct (Hcomp v eq_refl) as (cs & -> & Hcs). simpl.
      rewrite replace_components_pass by assumption. simpl.
      destruct Hwf as [Hnd Hsec].
      rewrite MoreDictFacts.set_present_map;
        [|assumption | eapply MoreDictFacts.get_some_in_keys; eassumption].
      assert (Hmap :
                map (fun kv =>
                       if String.eqb (fst kv) "components"
                       then (fst kv,
                             YSeq (map (substituted_component container_str
                                          trial_parameters) cs))
                       else kv) m
                = map (components_pass container_str trial_parameters) m).
      { apply map_ext_in. intros [k x] Hin. unfold components_pass. simpl.
        destruct (String.eqb k "components") eqn:E; [|reflexivity].
        apply String.eqb_eq in E. subst k.
        rewrite (MoreDictFacts.in_get _ _ _ Hnd Hin) in Hget.
        injection Hget as ->. reflexivity. }
      rewrite Hmap. now apply replace_param_sections.
    + assert (Hmap : map (components_pass container_str trial_parameters) m
                     = m).
      { unfold components_pass. apply MoreDictFacts.map_absent_id.
        now apply DictFacts.get_none_not_in. }
      rewrite Hmap. now apply replace_param_sections.
  - intros v new Hget. unfold substituted. now rewrite Hget.
  - intros v Hget. unfold substituted. now rewrite Hget.
Qed.

Lemma example_pod_file_well_formed : well_formed_pod Example.pod_file.
Proof.
  split; [split|].
  - repeat constructor; simpl; intuition discriminate.
  - intros key v Hkey Hget. unfold is_section in Hkey.
    apply orb_true_iff in Hkey.
    destruct Hkey as [Hkey | Hkey]; apply String.eqb_eq in Hkey; subst key;
      simpl in Hget; [|discriminate].
    injection Hget as <-. eexists. split; [reflexivity|].
    repeat constructor; simpl; intuition discriminate.
  - intros v Hget. simpl in Hget. injection Hget as <-.
    eexists. split; [reflexivity|].
    repeat constructor. eexists. split; [reflexivity|]. split.
    + repeat constructor; simpl; intuition discriminate.
    + intros key v Hkey Hget. unfold is_section in Hkey.
      apply orb_true_iff in Hkey.
      destruct Hkey as [Hkey | Hkey]; apply String.eqb_eq in Hkey; subst key;
        simpl in Hget; [|discriminate].
      injection Hget as <-. eexists. split; [reflexivity|].
      repeat constructor; simpl; intuition discriminate.
Defined.

(** The example pod file: the entries of the two [with] sections are
    replaced, the tokens at the top level and below a section are kept. *)
Lemma substitution_in_sections_witness :
  trial_pod_config Example.container_str (YMap Example.pod_file)
                   Example.trial_parameters
  = Ok (YMap
          [ ("name", YStr "$JINA_DIM");
            ("components",
             YSeq [ YMap [ ("with", YMap [("dim", YInt 64);
                                          ("layers", YInt 2)]) ] ]);
            ("with", YMap [ ("index", YInt 64);
                            ("nested", YMap [("dim", YStr "$JINA_DIM")]) ]) ]).
Proof.
  exact (proj1 (substitution_in_sections Example.container_str
                  Example.trial_parameters example_pod_file_well_formed)).
Defined.

(** ** Paths and the file system *)

Lemma path_eqb_eq (p q : path) : path_eqb p q = true <-> p = q.
Proof.
  revert q. induction p as [|a p IH]; intros [|b q]; simpl;
    try (split; [discriminate | congruence]); [tauto|].
  rewrite andb_true_iff, String.eqb_eq, IH. split.
  - now intros [-> ->].
  - now intros [= -> ->].
Qed.




Lemma is_prefix_refl (p : path) : is_prefix p p = true.
Proof.
  induction p as [|a p IH]; simpl; [reflexivity|].
  now rewrite String.eqb_refl.
Qed.

(** ** FlowRunner *)

Section FlowRunnerFacts.

Context {A : Arith}.
Variable Document : Type.
Variable container_str : yaml -> string.
Variable flow_index : path -> list Document -> Z -> M Document unit.

Lemma for_each_export (items : list (string * yaml)) (w : world Document) :
  for_each items (export_variable container_str) w
  = match refused_entry container_str items with
    | None =>
        Done tt (with_environ w (exported container_str items (environ w)))
    | Some (before, e) =>
        Raise e (with_environ w (exported container_str before (environ w)))
    end.
Proof.
  revert w. induction items as [|item items IH]; intros w.
  - now destruct w.
  - cbn [for_each refused_entry]. unfold bind at 1.
    unfold export_variable at 1. unfold bind at 1, get_world at 1.
    destruct (export_error (fst item) (py_str container_str (snd item)))
      as [e|]; [now destruct w|].
    unfold set_environ. rewrite IH. cbn [environ].
    destruct (refused_entry container_str items) as [[before e]|];
      reflexivity.
Qed.

(** [_load_env], case by case *)
Lemma load_env_cases (w : world Document) :
  _load_env container_str w
  = match env_yaml_given (flow_runner w) with
    | None =>
        Done tt (logged w [LogInfo
                   "Cannot load environment variables as no env_yaml passed"])
    | Some file =>
        match fs_load_yaml (Path file) (fs w) with
        | Err e => Raise e w
        | Ok v =>
            match py_items v with
            | Err e =>
                Raise e {| environ := environ w; fs := fs w; out := out w;
                           flow_runner := with_env_parameters (flow_runner w) v;
                           callback := callback w |}
            | Ok items =>
                match refused_entry container_str items with
                | Some (before, e) =>
                    Raise e {| environ :=
                                 exported container_str before (environ w);
                               fs := fs w; out := out w;
                               flow_runner :=
                                 with_env_parameters (flow_runner w) v;
                               callback := callback w |}
                | None =>
                    Done tt {| environ :=
                                 exported container_str items (environ w);
                               fs := fs w;
                               out := out w
                                      ++ [LogInfo
                                            "Environment variables loaded"];
                               flow_runner :=
                                 with_env_parameters (flow_runner w) v;
                               callback := callback w |}
                end
            end
        end
    end.
Proof.
  unfold _load_env, bind, get_world. simpl.
  destruct (env_yaml_given (flow_runner w)) as [file|]; [|reflexivity].
  unfold load_yaml, bind, get_world. simpl.
  destruct (fs_load_yaml (Path file) (fs w)) as [v|e]; simpl; [|reflexivity].
  destruct (py_items v) as [items|e]; simpl; [|reflexivity].
  rewrite for_each_export.
  destruct (refused_entry container_str items) as [[before e]|];
    reflexivity.
Qed.

(** [_load_env] touches the environment, the [env_parameters] attribute
    and the log, nothing else *)
Lemma load_env_frame (w w1 : world Document) :
  _load_env container_str w = Done tt w1 ->
  fs w1 = fs w /\ callback w1 = callback w /\
  same_configuration (flow_runner w) (flow_runner w1).
Proof.
  rewrite load_env_cases.
  destruct (env_yaml_given (flow_runner w)) as [file|].
  - destruct (fs_load_yaml (Path file) (fs w)) as [v|e]; [|discriminate].
    destruct (py_items v) as [items|e]; [|discriminate].
    destruct (refused_entry container_str items) as [[before e]|];
      [discriminate|].
    intros [= <-]. simpl. repeat split.
  - intros [= <-]. simpl. repeat split.
Qed.

Lemma emit_notice (msgs : list message) (w : world Document) :
  for_each msgs (@emit A Document) w = Done tt (logged w msgs).
Proof.
  revert w. induction msgs as [|m msgs IH]; intros w; simpl.
  - unfold logged, ret. rewrite app_nil_r. now destruct w.
  - unfold bind, emit at 1. rewrite IH. unfold logged. simpl.
    now rewrite <- app_assoc.
Qed.

(** [clean_workdir] on a directory that is there and is not the current
    directory or the root *)
Lemma clean_workdir_existing (dir : path) (w : world Document) :
  fs_lookup dir (fs w) = Some Dir -> is_root dir = false ->
  clean_workdir dir w
  = Done tt {| environ := environ w;
               fs := fs_remove_tree dir (fs w);
               out := out w ++ deleted_notice dir;
               flow_runner := flow_runner w; callback := callback w |}.
Proof.
  intros Hdir Hroot.
  unfold clean_workdir, bind, get_world, fs_exists, fs_rmtree.
  rewrite Hdir, Hroot. unfold emit, deleted_notice. simpl.
  now rewrite <- !app_assoc.
Qed.


End FlowRunnerFacts.

(** The claim as the specification words it fails: the workspace exists
    and is not overwritten, yet the call exports the variables of the
    environment file and sets [env_parameters]. *)
Lemma run_indexing_skip_changes_state :
  ~ (forall (w : world unit) (index_yaml dir : path) (workspace : option path),
        overwrite_workspace (flow_runner w) = false ->
        resolve_workspace (flow_runner w) (environ w) workspace = Ok dir ->
        fs_exists dir (fs w) = true ->
        exists w',
          run_indexing Example.container_str Example.flow_index
                       index_yaml workspace w = Done tt w'
          /\ same_state w w').
Proof.
  intros H.
  destruct (H Example.indexed_world ["flows"; "index.yml"] ["workspace"] None
              eq_refl eq_refl eq_refl) as (w' & Hrun & Henv & _).
  vm_compute in Hrun. injection Hrun as <-. discriminate Henv.
Qed.


Section RunIndexing.

Context {A : Arith}.
Variable Document : Type.
Variable container_str : yaml -> string.
Variable flow_index : path -> list Document -> Z -> M Document unit.

(** [run_indexing] after its call of [_load_env] *)
Lemma run_indexing_after_load (index_yaml : path) (workspace : option path)
      (w w1 : world Document) :
  _load_env container_str w = Done tt w1 ->
  run_indexing container_str flow_index index_yaml workspace w
  = match resolve_workspace (flow_runner w1) (environ w1) workspace with
    | Err e => Raise e w1
    | Ok dir =>
        if fs_exists dir (fs w1) then
          if overwrite_workspace (flow_runner w1) then
            bind (clean_workdir dir)
                 (fun _ => index_flow flow_index index_yaml) w1
          else for_each skip_notice (@emit A Document) w1
        else index_flow flow_index index_yaml w1
    end.
Proof.
  intros Hload. unfold run_indexing, bind at 1. rewrite Hload.
  unfold bind at 1, get_world at 1. unfold bind at 1.
  destruct (resolve_workspace (flow_runner w1) (environ w1) workspace)
    as [dir|e]; [|reflexivity]. simpl.
  destruct (fs_exists dir (fs w1)); [|reflexivity].
  destruct (overwrite_workspace (flow_runner w1)); reflexivity.
Qed.

(** C3 (amended).  When [overwrite_workspace] is false and the workspace
    directory, resolved once [_load_env] has run, exists, [run_indexing]
    skips indexing: it returns without invoking the indexing flow, and
    leaves the file system, the callback, the generators and the rest of
    the runner's configuration as they were.  Its only effects are those of
    [_load_env] (the variables of the environment file are exported and
    [env_parameters] is set) and the three printed lines; without an
    environment file nothing but the console changes. *)
Theorem run_indexing_skips_existing_workspace
        (index_yaml : path) (workspace : option path)
        (w w1 : world Document) (dir : path) :
  overwrite_workspace (flow_runner w) = false ->
  _load_env container_str w = Done tt w1 ->
  resolve_workspace (flow_runner w1) (environ w1) workspace = Ok dir ->
  fs_exists dir (fs w1) = true ->
  run_indexing container_str flow_index index_yaml workspace w
  = Done tt (logged w1 skip_notice)
  /\ fs w1 = fs w
  /\ callback w1 = callback w
  /\ same_configuration (flow_runner w) (flow_runner w1)
  /\ (env_yaml_given (flow_runner w) = None ->
      same_state w (logged w1 skip_notice)).
Proof.
  intros Hover Hload Hdir Hexists.
  destruct (load_env_frame container_str w Hload) as (Hfs & Hcb & Hconf).
  split; [|split; [assumption | split; [assumption | split; [assumption|]]]].
  - rewrite (run_indexing_after_load index_yaml workspace w Hload).
    rewrite Hdir, Hexists.
    assert (Hover1 : overwrite_workspace (flow_runner w1) = false)
      by (destruct Hconf as (_ & _ & _ & _ & _ & _ & ->); assumption).
    rewrite Hover1.
    exact (emit_notice skip_notice w1).
  - intros Hnone. rewrite load_env_cases, Hnone in Hload.
    injection Hload as <-. repeat split.
Qed.


(** [run_indexing] once the workspace is resolved: it is the indexing
    into that directory that the specification describes *)
Lemma run_indexing_on (index_yaml : path) (workspace : option path)
      (w w1 : world Document) (dir : path) :
  _load_env container_str w = Done tt w1 ->
  resolve_workspace (flow_runner w1) (environ w1) workspace = Ok dir ->
  run_indexing container_str flow_index index_yaml workspace w
  = indexing_on flow_index index_yaml dir w1.
Proof.
  intros Hload Hdir.
  rewrite (run_indexing_after_load index_yaml workspace w Hload), Hdir.
  unfold indexing_on, fs_exists.
  destruct (fs_lookup dir (fs w1)) as [found|] eqn:Hfound.
  - destruct (overwrite_workspace (flow_runner w1)).
    + destruct found as [|content].
      * destruct (is_root dir) eqn:Hroot.
        -- unfold bind at 1. unfold clean_workdir, bind, get_world, fs_exists,
             fs_rmtree. rewrite Hfound, Hroot. reflexivity.
        -- unfold bind at 1. rewrite (clean_workdir_existing dir w1 Hfound Hroot).
           reflexivity.
      * unfold bind at 1. unfold clean_workdir, bind, get_world, fs_exists,
          fs_rmtree. rewrite Hfound. simpl. now destruct w1.
    + exact (emit_notice skip_notice w1).
  - reflexivity.
Qed.

(** C10.  The workspace of [run_indexing] is looked up once [_load_env]
    has run.  When the environment variable named by [workspace_env] is
    set then, the directory its value names is the workspace: it is the
    directory tested for existence, kept, or removed and indexed into,
    and this for every [workspace] argument, the argument playing no
    part.  When the variable is unset the directory of the argument is
    the workspace in the same way, and without an argument
    [Path(None)] raises [TypeError]. *)
Theorem workspace_from_environment
        (index_yaml : path) (w w1 : world Document) :
  _load_env container_str w = Done tt w1 ->
  (forall value,
      Dict.get (workspace_env (flow_runner w1)) (environ w1) = Some value ->
      forall workspace,
        run_indexing container_str flow_index index_yaml workspace w
        = indexing_on flow_index index_yaml (Path value) w1) /\
  (Dict.get (workspace_env (flow_runner w1)) (environ w1) = None ->
   (forall p,
       run_indexing container_str flow_index index_yaml (Some p) w
       = indexing_on flow_index index_yaml p w1) /\
   run_indexing container_str flow_index index_yaml None w
   = Raise TypeError w1).
Proof.
  intros Hload. split.
  - intros value Hset workspace.
    apply (run_indexing_on index_yaml workspace w Hload).
    unfold resolve_workspace. now rewrite Hset.
  - intros Hunset. split.
    + intros p. apply (run_indexing_on index_yaml (Some p) w Hload).
      unfold resolve_workspace. now rewrite Hunset.
    + rewrite (run_indexing_after_load index_yaml None w Hload).
      unfold resolve_workspace. now rewrite Hunset.
Qed.

End RunIndexing.

(** The example world: the environment file is loaded, the workspace
    exists, indexing is skipped. *)
Lemma run_indexing_skips_existing_workspace_witness :
  exists w1,
    _load_env Example.container_str Example.indexed_world = Done tt w1 /\
    run_indexing Example.container_str Example.flow_index
                 ["flows"; "index.yml"] None Example.indexed_world
    = Done tt (logged w1 skip_notice).
Proof.
  eexists. split; [reflexivity|].
  apply (run_indexing_skips_existing_workspace
           Example.container_str Example.flow_index ["flows"; "index.yml"] None
           Example.indexed_world (dir := ["workspace"]));
    reflexivity.
Defined.


(** The example world: [JINA_WORKSPACE] names the directory [workspace],
    which exists, so indexing is skipped although the argument names a
    directory that does not exist; in the world without the variable the
    directory of the argument is indexed into. *)
Lemma workspace_from_environment_witness :
  (exists w1,
      _load_env Example.container_str Example.indexed_world = Done tt w1 /\
      run_indexing Example.container_str Example.flow_index
                   ["flows"; "index.yml"] (Some ["elsewhere"])
                   Example.indexed_world
      = Done tt (logged w1 skip_notice)) /\
  (exists w1,
      _load_env Example.container_str Example.bare_world = Done tt w1 /\
      run_indexing Example.container_str Example.flow_index
                   ["flows"; "index.yml"] (Some ["elsewhere"])
                   Example.bare_world
      = Example.flow_index ["flows"; "index.yml"] [tt] 8 w1).
Proof.
  split; eexists; (split; [reflexivity|]).
  - exact (proj1 (workspace_from_environment
                    Example.container_str Example.flow_index
                    ["flows"; "index.yml"] Example.indexed_world eq_refl)
                 "workspace" eq_refl (Some ["elsewhere"])).
  - exact (proj1 (proj2 (workspace_from_environment
                           Example.container_str Example.flow_index
                           ["flows"; "index.yml"] Example.bare_world eq_refl)
                        eq_refl)
                 ["elsewhere"]).
Defined.

(** ** Failures *)

Section Failures.

Context {A : Arith}.
Variable Document : Type.
Variable container_str : yaml -> string.
Variable flow_index : path -> list Document -> Z -> M Document unit.
Variable flow_search :
  path -> list Document -> Z -> (Response -> M Document unit)
  -> M Document unit.
Variable trial_suggest :
  Trial -> string -> string -> Dict.t yaml -> result yaml.
Variable study_ask : list (Trial * num) -> Trial.
Variable study_best : list (Trial * num) -> result Trial.



Lemma lift_err {X} (r : result X) (e : exn) (w : world Document) :
  r = Err e -> lift r w = Raise e w.
Proof. now intros ->. Qed.



(** conversely an operation returns only if each of its steps has
    returned: no step's failure is replaced by a value *)
Lemma run_evaluation_returns
      (index_yaml query_yaml : path) (workspace : option path)
      (output_fn : Response -> M Document unit) (w w' : world Document) :
  run_evaluation container_str flow_index flow_search
                 index_yaml query_yaml workspace output_fn w = Done tt w' ->
  exists w1 w2,
    _load_env container_str w = Done tt w1 /\
    run_indexing container_str flow_index index_yaml workspace w1
    = Done tt w2 /\
    run_querying container_str flow_search query_yaml output_fn w2
    = Done tt w'.
Proof.
  unfold run_evaluation, bind.
  destruct (_load_env container_str w) as [[] w1|] eqn:Hload; [|discriminate].
  destruct (run_indexing container_str flow_index index_yaml workspace w1)
    as [[] w2|] eqn:Hindex; [|discriminate].
  intros Hquery. exists w1, w2. repeat split; assumption.
Qed.

Lemma objective_returns (self : Optimizer) (trial trial' : Trial)
      (mean_eval : num) (w w' : world Document) :
  _objective container_str flow_index flow_search trial_suggest self trial w
  = Done (mean_eval, trial') w' ->
  exists trial_parameters workspace w1 w2 w3 w4 w5 means metric,
    _trial_parameter_sampler container_str trial_suggest self trial w
    = Done (trial_parameters, trial') w1 /\
    trial_workspace trial' = Some workspace /\
    (if overwrite_trial_workspace self then clean_workdir workspace
     else ret tt) w1 = Done tt w2 /\
    _create_trial_pods container_str self workspace trial_parameters w2
    = Done tt w3 /\
    _create_trial_flows self workspace w3 = Done tt w4 /\
    run_evaluation container_str flow_index flow_search
                   (path_join (path_join workspace (Path "flows"))
                              (Path (path_name (index_yaml self))))
                   (path_join (path_join workspace (Path "flows"))
                              (Path (path_name (query_yaml self))))
                   (Some (path_join workspace (Path "index")))
                   (@callback_process_result A Document) w4 = Done tt w5 /\
    get_mean_evaluation (callback w5) = Ok means /\
    first_metric means = Ok (metric, mean_eval) /\
    w' = logged w5 [LogAvg metric mean_eval].
Proof.
  unfold _objective. unfold bind at 1.
  destruct (_trial_parameter_sampler container_str trial_suggest self trial w)
    as [[trial_parameters sampled] w1|] eqn:Hsampler; [|discriminate].
  cbn [fst snd]. unfold bind at 1.
  destruct (trial_workspace sampled) as [workspace|] eqn:Hws;
    [|discriminate]. cbn [lift]. unfold ret at 1. unfold bind at 1.
  destruct ((if overwrite_trial_workspace self then clean_workdir workspace
             else ret tt) w1) as [[] w2|] eqn:Hclean; [|discriminate].
  unfold bind at 1.
  destruct (_create_trial_pods container_str self workspace trial_parameters w2)
    as [[] w3|] eqn:Hpods; [|discriminate].
  unfold bind at 1.
  destruct (_create_trial_flows self workspace w3) as [[] w4|] eqn:Hflows;
    [|discriminate].
  unfold bind at 1.
  destruct (run_evaluation _ _ _ _ _ _ _ w4) as [[] w5|] eqn:Heval;
    [|discriminate].
  unfold bind at 1, get_world at 1. unfold bind at 1.
  destruct (get_mean_evaluation (callback w5)) as [means|] eqn:Hmeans;
    [|discriminate]. cbn [lift]. unfold ret at 1. unfold bind at 1.
  destruct (first_metric means) as [[metric v]|] eqn:Hfirst; [|discriminate].
  cbn [lift fst snd]. unfold ret at 1. unfold bind, emit, ret.
  intros [= <- <- <-].
  exists trial_parameters, workspace, w1, w2, w3, w4, w5, means, metric.
  repeat split; assumption.
Qed.

End Failures.


(** ** The study *)

(** C4 (the code departs from the claim).  The callback object is created
    once and never reset, so the trials of a study share its count and
    sums.  In the example study the single document of the first trial
    scores 1 and that of the second trial scores 0: [_objective] returns 1
    for the first trial and 1/2 for the second, although the results
    recorded during the second trial alone have mean 0; after the study
    the callback holds the documents of both trials. *)
Theorem objective_accumulates_across_trials :
  exists trial1 trial2 w,
    study_optimize Example.container_str Example.flow_index
                   Example.flow_search Example.trial_suggest Example.study_ask
                   Example.optimizer 2 [] Example.study_world
    = Done [(trial1, 1%Q); (trial2, (1 # 2)%Q)] w
    /\ trial_workspace trial2 = Some ["JINA_WORKSPACE_2"]
    /\ get_mean_evaluation
         (recorded None
            (Example.query_results ["JINA_WORKSPACE_2"; "flows"; "query.yml"]))
       = Ok (MeanDict [("precision", 0%Q)])
    /\ callback w
       = recorded None
           (Example.query_results ["JINA_WORKSPACE_1"; "flows"; "query.yml"]
            ++ Example.query_results
                 ["JINA_WORKSPACE_2"; "flows"; "query.yml"]).
Proof.
  do 3 eexists. split; [vm_compute; reflexivity|].
  repeat split.
Qed.

Section ExportParams.

Context {A : Arith}.
Variable Document : Type.

(** with [env_parameters] loaded as a mapping and a best trial at hand,
    [_export_params] writes the merge of the two, the trial's values
    taking precedence *)
Lemma export_params_writes_merge (self : Optimizer) (study : Study)
      (w : world Document) (fs1 fs2 : filesystem)
      (env : Dict.t yaml) (best : Trial) :
  fs_mkdir (path_parent (best_config_filepath self)) (fs w) = Ok fs1 ->
  env_parameters (flow_runner w) = Some (YMap env) ->
  best_trial study = Ok best ->
  fs_dump_yaml (best_config_filepath self)
               (YMap (Dict.merge env (trial_params best))) fs1 = Ok fs2 ->
  exists w',
    _export_params self study w = Done tt w' /\ fs w' = fs2.
Proof.
  intros Hmkdir Henv Hbest Hdump.
  unfold _export_params, fs_call, bind, get_world. simpl.
  rewrite Hmkdir. simpl. rewrite Henv. simpl. rewrite Hbest. simpl.
  rewrite Hdump. simpl. eexists. split; reflexivity.
Qed.

(** without [env_parameters] the attribute lookup of line 193 raises
    before anything is written *)
Lemma export_params_without_env_parameters (self : Optimizer) (study : Study)
      (w : world Document) (fs1 : filesystem) :
  fs_mkdir (path_parent (best_config_filepath self)) (fs w) = Ok fs1 ->
  env_parameters (flow_runner w) = None ->
  _export_params self study w
  = Raise AttributeError
          {| environ := environ w; fs := fs1; out := out w;
             flow_runner := flow_runner w; callback := callback w |}.
Proof.
  intros Hmkdir Henv.
  unfold _export_params, fs_call, bind, get_world. simpl.
  rewrite Hmkdir. simpl. now rewrite Henv.
Qed.

End ExportParams.

(** C5 (the code departs from the claim).  With a runner built without
    [env_yaml], which is the default of [FlowRunner.__init__] and a case
    [_load_env] provides for, [env_parameters] is never assigned: once the
    two trials of the example study are finished, [_export_params] raises
    [AttributeError], and no best-configuration file is written. *)
Theorem export_params_fails_without_env_yaml :
  exists w,
    optimize_flow Example.container_str Example.flow_index Example.flow_search
                  Example.trial_suggest Example.study_ask Example.study_best
                  Example.optimizer 2 Example.study_world
    = Raise AttributeError w
    /\ fs_lookup (best_config_filepath Example.optimizer) (fs w) = None
    /\ fs_lookup (path_parent (best_config_filepath Example.optimizer)) (fs w)
       = Some Dir.
Proof.
  eexists. split; [vm_compute; reflexivity|].
  split; reflexivity.
Qed.

(* ================================================================== *)
(** * Further properties of the code *)

(** ** The accumulator, beyond one value per document *)

Section AccumulatorMore.

Context {A : Arith}.

Lemma recorded_fields (op : option string) (rs : list Response) :
  recorded op rs
  = {| op_name := op;
       evaluation_values :=
         fold_left accumulate (all_evaluations (all_docs rs)) Dict.empty;
       n_docs := Z.of_nat (List.length (all_docs rs)) |}.
Proof. unfold recorded. now rewrite fold_process_result. Qed.

Lemma metric_values_docs (metric : string) (docs : list ResultDoc) :
  metric_values metric (all_evaluations docs) <> [] -> docs <> [].
Proof. now destruct docs. Qed.

(** X1.  The mean of a metric is the sum of all the values evaluated for
    it divided by the number of documents recorded, whatever the number of
    values a document carries: a document without a value for the metric
    still counts in the divisor, a document with two values adds both. *)
Theorem mean_divides_by_document_count
        (op : option string) (rs : list Response) (metric : string) :
  let values := metric_values metric (all_evaluations (all_docs rs)) in
  let N := Z.of_nat (List.length (all_docs rs)) in
  values <> [] ->
  (op_name_truthy op = true -> op = Some metric ->
   get_mean_evaluation (recorded op rs)
   = Ok (MeanValue (num_div (sum_values values) N))) /\
  (op_name_truthy op = false ->
   exists means,
     get_mean_evaluation (recorded op rs) = Ok (MeanDict means) /\
     Dict.get metric means = Some (num_div (sum_values values) N)).
Proof.
  intros values N Hvalues.
  assert (Hdocs : all_docs rs <> []) by now apply metric_values_docs in Hvalues.
  assert (Hnz : (N =? 0) = false).
  { apply Z.eqb_neq. unfold N. destruct (all_docs rs); [congruence|].
    simpl. lia. }
  assert (Hget : Dict.get metric
                          (fold_left accumulate (all_evaluations (all_docs rs))
                                     Dict.empty)
                 = Some (sum_values values)).
  { rewrite get_accumulated. fold values. unfold sum_values.
    destruct values; [congruence | reflexivity]. }
  rewrite recorded_fields. unfold get_mean_evaluation. simpl. split.
  - intros Htruthy ->. simpl in Htruthy. apply negb_true_iff in Htruthy.
    rewrite Htruthy. unfold mean_of_one. simpl. rewrite Hget.
    unfold truediv. fold N. now rewrite Hnz.
  - intros Hfalsy.
    destruct (mean_items_nonzero (n := N)
                (fold_left accumulate (all_evaluations (all_docs rs))
                           Dict.empty) Dict.empty)
      as (means & Hmeans & Hlookup).
    + apply Z.eqb_neq. exact Hnz.
    + apply accumulated_NoDup. constructor.
    + exists means. split; [|now rewrite Hlookup, Hget].
      assert (Hall : mean_of_all
                       {| op_name := op;
                          evaluation_values :=
                            fold_left accumulate
                                      (all_evaluations (all_docs rs))
                                      Dict.empty;
                          n_docs := N |} = Ok (MeanDict means))
        by (unfold mean_of_all; simpl; now rewrite Hmeans).
      destruct op as [name|]; [|assumption].
      simpl in Hfalsy. apply negb_false_iff in Hfalsy. now rewrite Hfalsy.
Qed.

(** X2.  When documents were recorded but none carries a value for the
    metric, the callback built with that metric as [op_name] raises
    [KeyError], and the dictionary returned without [op_name] has no entry
    for the metric. *)
Theorem mean_of_unseen_metric
        (op : option string) (rs : list Response) (metric : string) :
  metric_values metric (all_evaluations (all_docs rs)) = [] ->
  all_docs rs <> [] ->
  (op_name_truthy op = true -> op = Some metric ->
   get_mean_evaluation (recorded op rs) = Err (KeyError metric)) /\
  (op_name_truthy op = false ->
   exists means,
     get_mean_evaluation (recorded op rs) = Ok (MeanDict means) /\
     Dict.get metric means = None).
Proof.
  intros Hvalues Hdocs.
  assert (Hnz : Z.of_nat (List.length (all_docs rs)) <> 0)
    by (destruct (all_docs rs); [congruence | simpl; lia]).
  assert (Hget : Dict.get metric
                          (fold_left accumulate (all_evaluations (all_docs rs))
                                     Dict.empty) = None)
    by (rewrite get_accumulated, Hvalues; reflexivity).
  rewrite recorded_fields. unfold get_mean_evaluation. simpl. split.
  - intros Htruthy ->. simpl in Htruthy. apply negb_true_iff in Htruthy.
    rewrite Htruthy. unfold mean_of_one. simpl. now rewrite Hget.
  - intros Hfalsy.
    destruct (mean_items_nonzero
                (fold_left accumulate (all_evaluations (all_docs rs))
                           Dict.empty) Dict.empty Hnz)
      as (means & Hmeans & Hlookup).
    + apply accumulated_NoDup. constructor.
    + exists means. split; [|now rewrite Hlookup, Hget].
      assert (Hall : mean_of_all
                       {| op_name := op;
                          evaluation_values :=
                            fold_left accumulate
                                      (all_evaluations (all_docs rs))
                                      Dict.empty;
                          n_docs := Z.of_nat (List.length (all_docs rs)) |}
                     = Ok (MeanDict means))
        by (unfold mean_of_all; simpl; now rewrite Hmeans).
      destruct op as [name|]; [|assumption].
      simpl in Hfalsy. apply negb_false_iff in Hfalsy. now rewrite Hfalsy.
Qed.

(** X3.  What the callback holds depends on the documents delivered and
    their order only, not on how they were grouped into responses: two
    deliveries with the same documents leave the same callback. *)
Theorem recording_ignores_batching
        (op : option string) (rs rs' : list Response) :
  all_docs rs = all_docs rs' -> recorded op rs = recorded op rs'.
Proof. intros Hdocs. rewrite !recorded_fields. now rewrite Hdocs. Qed.

End AccumulatorMore.

(** Two values in the first document, none in the second: 3/2 over 3. *)
Lemma mean_divides_by_document_count_witness :
  get_mean_evaluation (recorded (Some "precision") Example.uneven_responses)
  = Ok (MeanValue (Qdiv (0 + 1 + (1 # 2))%Q (inject_Z 3))).
Proof.
  apply (proj1 (mean_divides_by_document_count
                  (Some "precision") Example.uneven_responses "precision"
                  ltac:(discriminate)));
    reflexivity.
Defined.

(** No document of the uneven run is evaluated for f1. *)
Lemma mean_of_unseen_metric_witness :
  get_mean_evaluation (recorded (Some "f1") Example.uneven_responses)
  = Err (KeyError "f1").
Proof.
  apply (proj1 (mean_of_unseen_metric
                  (Some "f1") Example.uneven_responses "f1"
                  eq_refl ltac:(discriminate)));
    reflexivity.
Defined.

(** The example run in two batches and in one. *)
Lemma recording_ignores_batching_witness :
  recorded None Example.responses = recorded None Example.single_batch.
Proof.
  apply (recording_ignores_batching None Example.responses
                                    Example.single_batch).
  reflexivity.
Defined.

(** ** The value handed to the study *)

Section ObjectiveValue.

Context {A : Arith}.

Lemma keys_set_head {V} (k k0 : string) (v : V) (d : Dict.t V)
      (ks : list string) :
  Dict.keys d = k0 :: ks ->
  exists ks', Dict.keys (Dict.set k v d) = k0 :: ks'.
Proof.
  intros Hkeys. destruct (in_dec string_dec k (Dict.keys d)) as [Hin | Hnin].
  - rewrite DictFacts.keys_set_present by assumption. now exists ks.
  - rewrite DictFacts.keys_set_absent by assumption. rewrite Hkeys.
    now exists (ks ++ [k]).
Qed.

Lemma keys_accumulated_head (evs : list Evaluation) (d : Dict.t num)
      (k0 : string) (ks : list string) :
  Dict.keys d = k0 :: ks ->
  exists ks', Dict.keys (fold_left accumulate evs d) = k0 :: ks'.
Proof.
  revert d ks. induction evs as [|ev evs IH]; intros d ks Hkeys; simpl.
  - now exists ks.
  - destruct (keys_set_head (ev_op_name ev)
                (num_add (Dict.get_default (ev_op_name ev) num_zero d)
                         (ev_value ev)) d Hkeys) as (ks1 & Hks1).
    exact (IH _ ks1 Hks1).
Qed.

(** the comprehension keeps the metrics in their order *)
Lemma mean_items_keys (n : Z) (items acc means : Dict.t num) :
  NoDup (Dict.keys acc ++ Dict.keys items) ->
  mean_items items n acc = Ok means ->
  Dict.keys means = Dict.keys acc ++ Dict.keys items.
Proof.
  revert acc. induction items as [|[k v] items IH]; intros acc Hnd; simpl.
  - intros [= <-]. now rewrite app_nil_r.
  - destruct (truediv v n) as [q|e]; simpl; [|discriminate].
    intros Hmeans.
    assert (Hk : ~ In k (Dict.keys acc)).
    { apply NoDup_remove_2 in Hnd. intros Hin. apply Hnd.
      apply in_or_app. now left. }
    rewrite (IH (Dict.set k q acc)); [|  |assumption].
    + rewrite DictFacts.keys_set_absent by assumption.
      now rewrite <- app_assoc.
    + rewrite DictFacts.keys_set_absent by assumption.
      rewrite <- app_assoc. exact Hnd.
Qed.

(** X4.  Without [op_name], the metric that [_objective] reads off the
    means (the first key of the returned dictionary) is the metric of the
    first evaluation ever recorded, and its value is that metric's sum
    over the number of documents; later metrics are never the objective. *)
Theorem objective_metric_is_first_recorded
        (op : option string) (rs : list Response)
        (ev : Evaluation) (rest : list Evaluation) :
  op_name_truthy op = false ->
  all_evaluations (all_docs rs) = ev :: rest ->
  exists means,
    get_mean_evaluation (recorded op rs) = Ok means /\
    first_metric means
    = Ok (ev_op_name ev,
          num_div (sum_values (metric_values (ev_op_name ev) (ev :: rest)))
                  (Z.of_nat (List.length (all_docs rs)))).
Proof.
  intros Hfalsy Hevs.
  assert (Hvalues : metric_values (ev_op_name ev)
                                  (all_evaluations (all_docs rs)) <> []).
  { rewrite Hevs. unfold metric_values. simpl.
    rewrite String.eqb_refl. discriminate. }
  assert (Hdocs : all_docs rs <> []) by now apply metric_values_docs in Hvalues.
  assert (Hnz : Z.of_nat (List.length (all_docs rs)) <> 0)
    by (destruct (all_docs rs); [congruence | simpl; lia]).
  assert (Hnd : NoDup (Dict.keys (fold_left accumulate (ev :: rest)
                                            (@Dict.empty num))))
    by (apply accumulated_NoDup; constructor).
  destruct (mean_items_nonzero (fold_left accumulate (ev :: rest) Dict.empty)
                               Dict.empty Hnz Hnd)
    as (means & Hmeans & Hlookup).
  exists (MeanDict means). split.
  - rewrite recorded_fields, Hevs.
    assert (Hall : mean_of_all
                     {| op_name := op;
                        evaluation_values :=
                          fold_left accumulate (ev :: rest) Dict.empty;
                        n_docs := Z.of_nat (List.length (all_docs rs)) |}
                   = Ok (MeanDict means))
      by (unfold mean_of_all; simpl; simpl in Hmeans; now rewrite Hmeans).
    unfold get_mean_evaluation. cbn [op_name].
    destruct op as [name|]; [|assumption].
    simpl in Hfalsy. apply negb_false_iff in Hfalsy. now rewrite Hfalsy.
  - pose proof (@mean_items_keys _ (fold_left accumulate (ev :: rest) Dict.empty)
                                 Dict.empty means Hnd Hmeans) as Hkeys.
    simpl in Hkeys.
    destruct (keys_accumulated_head rest (accumulate Dict.empty ev)
                                    (k0 := ev_op_name ev) (ks := []) eq_refl)
      as (ks' & Hhead).
    simpl in Hhead. unfold first_metric. rewrite Hkeys.
    change (fold_left accumulate rest (accumulate Dict.empty ev))
      with (fold_left accumulate (ev :: rest) Dict.empty) in Hhead.
    simpl. simpl in Hhead. rewrite Hhead. rewrite Hlookup.
    rewrite get_accumulated.
    destruct (metric_values (ev_op_name ev) (ev :: rest)) eqn:Hv.
    + rewrite Hevs in Hvalues. congruence.
    + reflexivity.
Qed.

End ObjectiveValue.

(** In the example run precision is evaluated first: it is the objective,
    recall is not. *)
Lemma objective_metric_is_first_recorded_witness :
  exists means,
    get_mean_evaluation (recorded None Example.responses) = Ok means /\
    first_metric means
    = Ok ("precision", Qdiv (0 + 1 + 0 + (1 # 2))%Q (inject_Z 3)).
Proof.
  exact (objective_metric_is_first_recorded
           None Example.responses
           (ev := Example.evaluation "precision" 1%Q) eq_refl eq_refl).
Defined.

Section ObjectiveCallback.

Context {A : Arith}.
Variable Document : Type.
Variable container_str : yaml -> string.
Variable flow_index : path -> list Document -> Z -> M Document unit.
Variable flow_search :
  path -> list Document -> Z -> (Response -> M Document unit)
  -> M Document unit.
Variable trial_suggest :
  Trial -> string -> string -> Dict.t yaml -> result yaml.

Lemma mean_of_one_is_value (self : OptimizerCallback) (name : string)
      (d : Dict.t num) :
  mean_of_one self name <> Ok (MeanDict d).
Proof.
  unfold mean_of_one.
  destruct (Dict.get name (evaluation_values self)); [|discriminate].
  destruct (truediv n (n_docs self)); discriminate.
Qed.

(** X5.  [_objective] returns only with a callback that has no [op_name]:
    with [op_name] set [get_mean_evaluation] yields a float, which
    [list(...)] of line 185 rejects, so the trial ends in an exception
    whatever the engine delivered.  When it returns, the means were a
    dictionary. *)
Theorem objective_needs_callback_without_op_name
        (self : Optimizer) (trial trial' : Trial) (mean_eval : num)
        (w w' : world Document) :
  _objective container_str flow_index flow_search trial_suggest self trial w
  = Done (mean_eval, trial') w' ->
  op_name_truthy (op_name (callback w')) = false /\
  exists d, get_mean_evaluation (callback w') = Ok (MeanDict d).
Proof.
  intros Hrun.
  destruct (objective_returns _ _ _ _ _ _ _ Hrun)
    as (tp & ws & w1 & w2 & w3 & w4 & w5 & means & metric
        & _ & _ & _ & _ & _ & _ & Hmeans & Hfirst & ->).
  change (callback (logged w5 [LogAvg metric mean_eval])) with (callback w5).
  destruct means as [v|d]; [discriminate Hfirst|].
  split; [|now exists d].
  unfold get_mean_evaluation in Hmeans.
  destruct (op_name (callback w5)) as [name|]; [|reflexivity]. simpl.
  destruct (String.eqb name EmptyString); [reflexivity|].
  now apply mean_of_one_is_value in Hmeans.
Qed.

End ObjectiveCallback.

(** The first trial of the example study, run with the default callback. *)
Lemma objective_needs_callback_without_op_name_witness :
  exists mean_eval trial' w',
    _objective Example.container_str Example.flow_index Example.flow_search
               Example.trial_suggest Example.optimizer (Example.study_ask [])
               Example.study_world
    = Done (mean_eval, trial') w' /\
    op_name_truthy (op_name (callback w')) = false.
Proof.
  do 3 eexists. split; [vm_compute; reflexivity|].
  refine (proj1 (objective_needs_callback_without_op_name
                   Example.container_str Example.flow_index
                   Example.flow_search Example.trial_suggest
                   Example.optimizer (Example.study_ask [])
                   Example.study_world _)).
  vm_compute. reflexivity.
Defined.

(** ** The environment file *)

Section LoadEnv.

Context {A : Arith}.
Variable Document : Type.
Variable container_str : yaml -> string.

Lemma set_same_id {V} (k : string) (v : V) (d : Dict.t V) :
  Dict.get k d = Some v -> Dict.set k v d = d.
Proof.
  induction d as [|[k' v'] d IH]; simpl; [discriminate|].
  destruct (String.eqb k k') eqn:E.
  - now intros [= ->].
  - intros Hget. now rewrite IH.
Qed.

Lemma exported_cons (k0 : string) (v0 : yaml) (items : list (string * yaml))
      (env : Dict.t string) :
  exported container_str ((k0, v0) :: items) env
  = exported container_str items
             (Dict.set k0 (py_str container_str v0) env).
Proof. reflexivity. Qed.

Lemma exported_get_other (k : string) (items : list (string * yaml))
      (env : Dict.t string) :
  ~ In k (Dict.keys items) ->
  Dict.get k (exported container_str items env) = Dict.get k env.
Proof.
  revert env. induction items as [|[k0 v0] items IH]; intros env Hnin.
  - reflexivity.
  - simpl in Hnin. rewrite exported_cons, IH by tauto.
    apply DictFacts.get_set_other. intros ->. tauto.
Qed.

Lemma exported_get_in (k : string) (v : yaml) (items : list (string * yaml))
      (env : Dict.t string) :
  NoDup (Dict.keys items) -> In (k, v) items ->
  Dict.get k (exported container_str items env)
  = Some (py_str container_str v).
Proof.
  revert env. induction items as [|[k0 v0] items IH]; intros env Hnd Hin;
    [destruct Hin|].
  inversion Hnd as [|? ? Hk Hnd']; subst. rewrite exported_cons.
  destruct Hin as [[= -> ->] | Hin].
  - rewrite exported_get_other by assumption.
    apply DictFacts.get_set_same.
  - now apply IH.
Qed.

Lemma exported_fixed (items : list (string * yaml)) (env : Dict.t string) :
  (forall k v, In (k, v) items ->
               Dict.get k env = Some (py_str container_str v)) ->
  exported container_str items env = env.
Proof.
  induction items as [|[k0 v0] items IH]; intros Hall; [reflexivity|].
  rewrite exported_cons, set_same_id by (apply Hall; now left).
  apply IH. intros k v Hin. apply Hall. now right.
Qed.

Lemma refused_entry_none (items : list (string * yaml)) :
  (forall k v, In (k, v) items ->
               export_error k (py_str container_str v) = None) ->
  refused_entry container_str items = None.
Proof.
  induction items as [|[k0 v0] items IH]; intros Hall; [reflexivity|].
  cbn [refused_entry fst snd]. rewrite (Hall k0 v0) by now left.
  rewrite IH; [reflexivity|]. intros k v Hin. apply Hall. now right.
Qed.

Lemma refused_entry_at (before after : list (string * yaml))
      (k : string) (v : yaml) (e : exn) :
  (forall k' v', In (k', v') before ->
                 export_error k' (py_str container_str v') = None) ->
  export_error k (py_str container_str v) = Some e ->
  refused_entry container_str (before ++ (k, v) :: after) = Some (before, e).
Proof.
  intros Hall Hbad. induction before as [|[k0 v0] before IH].
  - cbn [app refused_entry fst snd]. now rewrite Hbad.
  - cbn [app refused_entry fst snd]. rewrite (Hall k0 v0) by now left.
    rewrite IH; [reflexivity|]. intros k' v' Hin. apply Hall. now right.
Qed.

Lemma refused_entry_none_inv (items : list (string * yaml)) :
  refused_entry container_str items = None ->
  forall k v, In (k, v) items ->
              export_error k (py_str container_str v) = None.
Proof.
  induction items as [|[k0 v0] items IH]; intros Hnone k v Hin;
    [destruct Hin|].
  cbn [refused_entry fst snd] in Hnone.
  destruct (export_error k0 (py_str container_str v0)) eqn:E0;
    [discriminate|].
  destruct (refused_entry container_str items) as [[before e]|];
    [discriminate|].
  destruct Hin as [[= <- <-] | Hin]; [assumption | now apply IH].
Qed.

(** X6.  [_load_env] on an environment file that holds a mapping stores
    the mapping in [env_parameters] and exports its entries in order, each
    as the text [str] gives for its value (an entry already in
    [os.environ] is overwritten).  When [os.environ] accepts every entry
    the call returns with all of them exported.  At the first entry it
    refuses (a name with an equals sign or a NUL character, the empty
    name, a value with a NUL character) the call raises what [os.environ]
    raises, [ValueError] or [OSError]: the entries before it are exported,
    that entry and those after it are not.  Either way every other
    variable of [os.environ] is kept. *)
Theorem load_env_exports
        (w : world Document) (file : string) (items : list (string * yaml)) :
  env_yaml_given (flow_runner w) = Some file ->
  fs_load_yaml (Path file) (fs w) = Ok (YMap items) ->
  NoDup (Dict.keys items) ->
  ((forall k v, In (k, v) items ->
                export_error k (py_str container_str v) = None) ->
   exists w1,
     _load_env container_str w = Done tt w1 /\
     env_parameters (flow_runner w1) = Some (YMap items) /\
     (forall k v, In (k, v) items ->
                  Dict.get k (environ w1) = Some (py_str container_str v)) /\
     (forall k, ~ In k (Dict.keys items) ->
                Dict.get k (environ w1) = Dict.get k (environ w)))
  /\
  (forall before k v after e,
      items = before ++ (k, v) :: after ->
      (forall k' v', In (k', v') before ->
                     export_error k' (py_str container_str v') = None) ->
      export_error k (py_str container_str v) = Some e ->
      (e = ValueError \/ e = OSError) /\
      exists w1,
        _load_env container_str w = Raise e w1 /\
        env_parameters (flow_runner w1) = Some (YMap items) /\
        (forall k' v', In (k', v') before ->
                       Dict.get k' (environ w1)
                       = Some (py_str container_str v')) /\
        (forall k', ~ In k' (Dict.keys before) ->
                    Dict.get k' (environ w1) = Dict.get k' (environ w))).
Proof.
  intros Hfile Hload Hnd. split.
  - intros Hlegal. eexists. split.
    + rewrite load_env_cases, Hfile, Hload. cbn [py_items].
      rewrite (refused_entry_none items Hlegal). reflexivity.
    + simpl. split; [reflexivity|]. split.
      * intros k v Hin. now apply exported_get_in.
      * intros k Hk. now apply exported_get_other.
  - intros before k v after e -> Hlegal Hbad. split.
    { unfold export_error in Hbad.
      destruct (has_char Ascii.zero k
                || has_char Ascii.zero (py_str container_str v)
                || has_char "="%char k);
        [left; congruence|].
      destruct (String.eqb k EmptyString); [right; congruence | discriminate]. }
    eexists. split.
    + rewrite load_env_cases, Hfile, Hload. cbn [py_items].
      rewrite (refused_entry_at before after k v Hlegal Hbad). reflexivity.
    + simpl. split; [reflexivity|].
      assert (Hnd' : NoDup (Dict.keys before)).
      { unfold Dict.keys in Hnd. rewrite map_app in Hnd.
        now apply NoDup_app_remove_r in Hnd. }
      split.
      * intros k' v' Hin. now apply exported_get_in.
      * intros k' Hk'. now apply exported_get_other.
Qed.

(** X7.  Loading the environment a second time changes nothing but the
    log: [run_evaluation] calls [_load_env] three times in a row
    ([run_evaluation], [run_indexing], [run_querying]) and the second and
    third call find the environment, the file system, the runner and the
    callback as the first one left them. *)
Theorem load_env_twice (w w1 : world Document) :
  (forall file items,
      env_yaml_given (flow_runner w) = Some file ->
      fs_load_yaml (Path file) (fs w) = Ok (YMap items) ->
      NoDup (Dict.keys items)) ->
  _load_env container_str w = Done tt w1 ->
  exists w2,
    _load_env container_str w1 = Done tt w2 /\ same_state w1 w2.
Proof.
  intros Hnd. rewrite !load_env_cases.
  destruct (env_yaml_given (flow_runner w)) as [file|] eqn:Hfile.
  - destruct (fs_load_yaml (Path file) (fs w)) as [v|e] eqn:Hload;
      [|discriminate].
    destruct v as [| | | | | |items]; try discriminate.
    cbn [py_items].
    destruct (refused_entry container_str items) as [[before e]|] eqn:Hlegal;
      [discriminate|].
    intros [= <-]. simpl.
    assert (Hgiven : env_yaml_given (with_env_parameters (flow_runner w)
                                                         (YMap items))
                     = Some file) by exact Hfile.
    rewrite Hgiven, Hload. cbn [py_items]. rewrite Hlegal.
    eexists. split; [reflexivity|].
    repeat split; simpl.
    apply exported_fixed. intros k v Hin.
    apply exported_get_in; [|assumption]. now apply (Hnd file).
  - intros [= <-]. simpl. rewrite Hfile. eexists. split; [reflexivity|].
    repeat split.
Qed.

End LoadEnv.

(** The example world: [env.yml] defines [JINA_WORKSPACE] and [JINA_DIM].
    With the names [FIRST], [A=B] and [LAST] in the file, [FIRST] is
    exported and [LAST] is not. *)
Lemma load_env_exports_witness :
  (exists w1,
      _load_env Example.container_str Example.indexed_world = Done tt w1 /\
      Dict.get "JINA_DIM" (environ w1) = Some "64") /\
  (exists w1,
      _load_env Example.container_str Example.refused_world
      = Raise ValueError w1 /\
      Dict.get "FIRST" (environ w1) = Some "1" /\
      Dict.get "LAST" (environ w1) = None).
Proof.
  split.
  - destruct (load_env_exports Example.container_str Example.indexed_world
                (file := "env.yml")
                (items := [("JINA_WORKSPACE", YStr "workspace");
                           ("JINA_DIM", YInt 64)]) eq_refl eq_refl)
      as [Hlegal _].
    + repeat constructor; simpl; intuition discriminate.
    + destruct Hlegal as (w1 & Hrun & _ & Hin & _).
      * intros k v [[= <- <-] | [[= <- <-] | []]]; reflexivity.
      * exists w1. split; [assumption|].
        apply (Hin "JINA_DIM" (YInt 64)). simpl. tauto.
  - destruct (load_env_exports Example.container_str Example.refused_world
                (file := "env.yml")
                (items := [("FIRST", YInt 1); ("A=B", YInt 2);
                           ("LAST", YInt 3)]) eq_refl eq_refl)
      as [_ Hrefused].
    + repeat constructor; simpl; intuition discriminate.
    + destruct (Hrefused [("FIRST", YInt 1)] "A=B" (YInt 2)
                         [("LAST", YInt 3)] ValueError eq_refl)
        as (_ & w1 & Hrun & _ & Hin & Hout).
      * intros k v [[= <- <-] | []]. reflexivity.
      * reflexivity.
      * exists w1. split; [assumption|]. split.
        -- apply (Hin "FIRST" (YInt 1)). now left.
        -- rewrite (Hout "LAST"); [reflexivity|].
           simpl. intuition discriminate.
Defined.

Lemma load_env_twice_witness :
  exists w1 w2,
    _load_env Example.container_str Example.indexed_world = Done tt w1 /\
    _load_env Example.container_str w1 = Done tt w2 /\
    environ w2 = environ w1.
Proof.
  eexists.
  destruct (load_env_twice Example.container_str Example.indexed_world)
    with (w1 := logged
                  {| environ := [("JINA_WORKSPACE", "workspace");
                                 ("JINA_DIM", "64")];
                     fs := Example.files;
                     out := [];
                     flow_runner :=
                       with_env_parameters Example.runner Example.env_file;
                     callback := OptimizerCallback_init None |}
                  [LogInfo "Environment variables loaded"])
    as (w2 & Hrun & Henv & _).
  - intros file items Hfile Hload. injection Hfile as <-.
    injection Hload as <-.
    repeat constructor; simpl; intuition discriminate.
  - reflexivity.
  - exists w2. split; [reflexivity|]. split; assumption.
Defined.

(** ** Indexing: the workspace *)


Section IndexingEdges.

Context {A : Arith}.
Variable Document : Type.
Variable container_str : yaml -> string.
Variable flow_index : path -> list Document -> Z -> M Document unit.


(** X9.  When the workspace directory does not exist after [_load_env],
    [run_indexing] enters the indexing flow in exactly the state
    [_load_env] left, whether [overwrite_workspace] is set or not: nothing
    is deleted and nothing is printed. *)
Theorem run_indexing_on_missing_workspace
        (index_yaml : path) (workspace : option path)
        (w w1 : world Document) (dir : path) :
  _load_env container_str w = Done tt w1 ->
  resolve_workspace (flow_runner w1) (environ w1) workspace = Ok dir ->
  fs_exists dir (fs w1) = false ->
  run_indexing container_str flow_index index_yaml workspace w
  = flow_index index_yaml (index_document_generator (flow_runner w1))
               (index_batch_size (flow_runner w1)) w1.
Proof.
  intros Hload Hdir Hmissing.
  rewrite (run_indexing_after_load container_str flow_index index_yaml
                                   workspace w Hload).
  now rewrite Hdir, Hmissing.
Qed.

(** X10.  [run_indexing] called without a workspace (the default
    [workspace=None]) while the workspace variable is not set raises
    [TypeError] once the environment is loaded: the indexing flow is not
    entered. *)
Theorem run_indexing_without_workspace
        (index_yaml : path) (w w1 : world Document) :
  _load_env container_str w = Done tt w1 ->
  Dict.get (workspace_env (flow_runner w1)) (environ w1) = None ->
  run_indexing container_str flow_index index_yaml None w
  = Raise TypeError w1.
Proof.
  intros Hload Hunset.
  rewrite (run_indexing_after_load container_str flow_index index_yaml
                                   None w Hload).
  unfold resolve_workspace. now rewrite Hunset.
Qed.

(** X11.  When [overwrite_workspace] is set and the workspace path is
    taken by a regular file, [run_indexing] raises [NotADirectoryError]
    from [shutil.rmtree]: the file is kept, nothing is printed and the
    indexing flow is not entered. *)
Theorem run_indexing_on_file_workspace
        (index_yaml : path) (workspace : option path)
        (w w1 : world Document) (dir : path) (content : option yaml) :
  overwrite_workspace (flow_runner w) = true ->
  _load_env container_str w = Done tt w1 ->
  resolve_workspace (flow_runner w1) (environ w1) workspace = Ok dir ->
  fs_lookup dir (fs w1) = Some (File content) ->
  run_indexing container_str flow_index index_yaml workspace w
  = Raise NotADirectoryError w1.
Proof.
  intros Hover Hload Hdir Hfile.
  destruct (load_env_frame container_str w Hload)
    as (_ & _ & _ & _ & _ & _ & _ & _ & Hover1).
  rewrite (run_indexing_after_load container_str flow_index index_yaml
                                   workspace w Hload).
  rewrite Hdir. unfold fs_exists. rewrite Hfile, Hover1, Hover.
  unfold bind, clean_workdir, bind, get_world, fs_exists, fs_rmtree.
  rewrite Hfile. simpl. now destruct w1.
Qed.

End IndexingEdges.


Lemma run_indexing_on_missing_workspace_witness :
  run_indexing Example.container_str Example.flow_index
               ["flows"; "index.yml"] (Some ["workspace"]) Example.bare_world
  = Example.flow_index
      ["flows"; "index.yml"] [tt] 8
      (logged Example.bare_world
              [LogInfo
                 "Cannot load environment variables as no env_yaml passed"]).
Proof.
  apply (run_indexing_on_missing_workspace
           Example.container_str Example.flow_index ["flows"; "index.yml"]
           (Some ["workspace"]) Example.bare_world (dir := ["workspace"]));
    reflexivity.
Defined.

Lemma run_indexing_without_workspace_witness :
  run_indexing Example.container_str Example.flow_index
               ["flows"; "index.yml"] None Example.bare_world
  = Raise TypeError
          (logged Example.bare_world
                  [LogInfo
                     "Cannot load environment variables as no env_yaml passed"]).
Proof.
  apply (run_indexing_without_workspace
           Example.container_str Example.flow_index ["flows"; "index.yml"]
           Example.bare_world);
    reflexivity.
Defined.

Lemma run_indexing_on_file_workspace_witness :
  run_indexing Example.container_str Example.flow_index
               ["flows"; "index.yml"] None Example.blocked_world
  = Raise NotADirectoryError
          (logged Example.blocked_world
                  [LogInfo
                     "Cannot load environment variables as no env_yaml passed"]).
Proof.
  apply (run_indexing_on_file_workspace
           Example.container_str Example.flow_index ["flows"; "index.yml"]
           None Example.blocked_world (dir := ["workspace"])
           (content := None));
    reflexivity.
Defined.

(** ** Writing and reading files *)

Lemma path_eqb_refl (p : path) : path_eqb p p = true.
Proof. now apply path_eqb_eq. Qed.

Lemma path_eqb_neq (p q : path) : p <> q -> path_eqb p q = false.
Proof.
  intros Hne. destruct (path_eqb p q) eqn:E; [|reflexivity].
  apply path_eqb_eq in E. contradiction.
Qed.

Lemma fs_find_put_same (p : path) (n : node) (fs : filesystem) :
  fs_find p (fs_put p n fs) = Some n.
Proof.
  induction fs as [|[q m] fs IH]; simpl.
  - now rewrite path_eqb_refl.
  - destruct (path_eqb p q) eqn:E; simpl; now rewrite E.
Qed.

Lemma fs_find_put_other (p q : path) (n : node) (fs : filesystem) :
  q <> p -> fs_find q (fs_put p n fs) = fs_find q fs.
Proof.
  intros Hne. induction fs as [|[r m] fs IH]; simpl.
  - now rewrite path_eqb_neq.
  - destruct (path_eqb p r) eqn:E; simpl.
    + apply path_eqb_eq in E. subst r. now rewrite path_eqb_neq.
    + now rewrite IH.
Qed.

Lemma fs_lookup_put_same (p : path) (n : node) (fs : filesystem) :
  is_root p = false -> fs_lookup p (fs_put p n fs) = Some n.
Proof. intros Hroot. unfold fs_lookup. rewrite Hroot. apply fs_find_put_same. Qed.

Lemma fs_lookup_put_other (p q : path) (n : node) (fs : filesystem) :
  q <> p -> fs_lookup q (fs_put p n fs) = fs_lookup q fs.
Proof.
  intros Hne. unfold fs_lookup. destruct (is_root q); [reflexivity|].
  now apply fs_find_put_other.
Qed.

Lemma lookup_not_dir_not_root (p : path) (fs : filesystem) :
  fs_lookup p fs <> Some Dir -> is_root p = false.
Proof.
  unfold fs_lookup. destruct (is_root p); [congruence | reflexivity].
Qed.

Lemma removelast_neq {X} (l : list X) : l <> [] -> removelast l <> l.
Proof.
  induction l as [|x l IH]; [congruence|]. intros _.
  destruct l as [|y l]; [discriminate|].
  change (removelast (x :: y :: l)) with (x :: removelast (y :: l)).
  intros [= H]. revert H. apply IH. discriminate.
Qed.

Lemma path_parent_neq (p : path) : is_root p = false -> path_parent p <> p.
Proof.
  destruct p as [|a [|b p]]; [discriminate | |].
  - simpl. intros ->. discriminate.
  - intros _. unfold path_parent. apply removelast_neq. discriminate.
Qed.

(** [mkdir(exist_ok=True)] that succeeds leaves a directory and touches
    nothing else *)
Lemma fs_mkdir_done (p : path) (fs fs1 : filesystem) :
  fs_mkdir p fs = Ok fs1 ->
  fs_lookup p fs1 = Some Dir /\
  forall q, q <> p -> fs_lookup q fs1 = fs_lookup q fs.
Proof.
  unfold fs_mkdir. destruct (fs_lookup p fs) as [[|c]|] eqn:Hp;
    [| discriminate |].
  - intros [= <-]. now split.
  - destruct (fs_lookup (path_parent p) fs) as [[|c]|]; try discriminate.
    intros [= <-].
    assert (Hroot : is_root p = false)
      by (apply (lookup_not_dir_not_root p fs); congruence).
    split; [now apply fs_lookup_put_same|].
    intros q Hq. now apply fs_lookup_put_other.
Qed.

(** a dump into an existing directory, on a path that is no directory,
    succeeds; the document is read back and nothing else changes *)
Lemma fs_dump_done (p : path) (v : yaml) (fs : filesystem) :
  fs_lookup (path_parent p) fs = Some Dir ->
  fs_lookup p fs <> Some Dir ->
  fs_dump_yaml p v fs = Ok (fs_put p (File (Some v)) fs) /\
  fs_load_yaml p (fs_put p (File (Some v)) fs) = Ok v /\
  forall q, q <> p ->
            fs_lookup q (fs_put p (File (Some v)) fs) = fs_lookup q fs.
Proof.
  intros Hparent Hp.
  pose proof (lookup_not_dir_not_root p fs Hp) as Hroot.
  split; [|split].
  - unfold fs_dump_yaml. rewrite Hparent.
    destruct (fs_lookup p fs) as [[|c]|]; congruence.
  - unfold fs_load_yaml. now rewrite fs_lookup_put_same.
  - intros q Hq. now apply fs_lookup_put_other.
Qed.

(** [{**a, **b}]: an entry of [b] wins over an entry of [a] *)
Lemma get_merge {V} (k : string) (a b : Dict.t V) :
  NoDup (Dict.keys b) ->
  Dict.get k (Dict.merge a b)
  = match Dict.get k b with
    | Some v => Some v
    | None => Dict.get k a
    end.
Proof.
  unfold Dict.merge. revert a.
  induction b as [|[k0 v0] b IH]; intros a Hnd; simpl; [reflexivity|].
  inversion Hnd as [|? ? Hk Hnd']; subst. rewrite IH by assumption.
  destruct (String.eqb k k0) eqn:E.
  - apply String.eqb_eq in E. subst k0.
    apply DictFacts.get_none_not_in in Hk. rewrite Hk.
    apply DictFacts.get_set_same.
  - apply String.eqb_neq in E.
    destruct (Dict.get k b); [reflexivity|].
    now apply DictFacts.get_set_other.
Qed.

Section ExportMerge.

Context {A : Arith}.
Variable Document : Type.

(** X12.  With [env_parameters] loaded as a mapping and a best trial,
    [_export_params] succeeds as soon as the directory of the
    best-configuration file can be made and the file's path is not a
    directory.  The file then reads back as the merge: a name sampled by
    the best trial has the trial's value, also when the environment file
    defines it, every other name has the value of the environment file.
    No path but the file and its directory is changed. *)
Theorem export_params_file_is_the_merge
        (self : Optimizer) (study : Study) (w : world Document)
        (fs1 : filesystem) (env : Dict.t yaml) (best : Trial) :
  fs_mkdir (path_parent (best_config_filepath self)) (fs w) = Ok fs1 ->
  fs_lookup (best_config_filepath self) (fs w) <> Some Dir ->
  env_parameters (flow_runner w) = Some (YMap env) ->
  best_trial study = Ok best ->
  NoDup (Dict.keys (trial_params best)) ->
  exists w' all_params,
    _export_params self study w = Done tt w' /\
    fs_load_yaml (best_config_filepath self) (fs w') = Ok (YMap all_params) /\
    (forall name,
        Dict.get name all_params
        = match Dict.get name (trial_params best) with
          | Some v => Some v
          | None => Dict.get name env
          end) /\
    (forall q,
        q <> best_config_filepath self ->
        q <> path_parent (best_config_filepath self) ->
        fs_lookup q (fs w') = fs_lookup q (fs w)).
Proof.
  intros Hmkdir Hfile Henv Hbest Hnd.
  set (p := best_config_filepath self) in *.
  destruct (fs_mkdir_done _ _ Hmkdir) as [Hparent Hother].
  pose proof (lookup_not_dir_not_root p (fs w) Hfile) as Hroot.
  assert (Hp1 : fs_lookup p fs1 <> Some Dir).
  { rewrite Hother; [assumption|]. intros Heq.
    apply (path_parent_neq Hroot). now symmetry. }
  destruct (fs_dump_done p (YMap (Dict.merge env (trial_params best)))
                         fs1 Hparent Hp1) as (Hdump & Hread & Hkept).
  destruct (export_params_writes_merge self study w Hmkdir Henv Hbest Hdump)
    as (w' & Hrun & Hfs).
  exists w', (Dict.merge env (trial_params best)).
  split; [assumption|]. rewrite Hfs. split; [assumption|]. split.
  - intros name. now apply get_merge.
  - intros q Hq Hq'. rewrite Hkept by assumption. now apply Hother.
Qed.

End ExportMerge.

(** The best trial sampled [JINA_DIM = 2], [env.yml] has [JINA_DIM = 64]
    and [JINA_WORKSPACE]: the file holds 2 and the workspace. *)
Lemma export_params_file_is_the_merge_witness :
  exists w' all_params,
    _export_params Example.optimizer Example.finished_study
                   Example.export_world = Done tt w' /\
    fs_load_yaml ["config"; "best_config.yml"] (fs w') = Ok (YMap all_params) /\
    Dict.get "JINA_DIM" all_params = Some (YInt 2) /\
    Dict.get "JINA_WORKSPACE" all_params = Some (YStr "workspace").
Proof.
  destruct (export_params_file_is_the_merge
              Example.optimizer Example.finished_study Example.export_world
              (fs1 := [(["env.yml"], File (Some Example.env_file));
                       (["config"], Dir)])
              (env := [("JINA_WORKSPACE", YStr "workspace");
                       ("JINA_DIM", YInt 64)])
              (best := Example.best))
    as (w' & all_params & Hrun & Hread & Hget & _);
    try reflexivity.
  - discriminate.
  - repeat constructor; simpl; intuition discriminate.
  - exists w', all_params. split; [assumption|]. split; [assumption|].
    split; [apply (Hget "JINA_DIM") | apply (Hget "JINA_WORKSPACE")].
Defined.

(** ** Sampling the parameters of a trial *)

Section Sampler.

Context {A : Arith}.
Variable Document : Type.
Variable container_str : yaml -> string.
Variable flow_index : path -> list Document -> Z -> M Document unit.
Variable flow_search :
  path -> list Document -> Z -> (Response -> M Document unit)
  -> M Document unit.
Variable trial_suggest :
  Trial -> string -> string -> Dict.t yaml -> result yaml.

(** the sampler's dictionary and the trial's [params] grow together *)
Lemma sample_parameters_recorded (items : list (string * yaml))
      (acc acc' : Dict.t yaml * Trial) :
  fst acc = trial_params (snd acc) ->
  sample_parameters trial_suggest acc items = Ok acc' ->
  fst acc' = trial_params (snd acc') /\
  trial_number (snd acc') = trial_number (snd acc) /\
  trial_workspace (snd acc') = trial_workspace (snd acc).
Proof.
  revert acc. induction items as [|item items IH]; intros acc Hacc; simpl.
  - intros [= <-]. now repeat split.
  - unfold sample_parameter.
    destruct (py_getitem "type" (snd item)) as [ty|]; simpl; [|discriminate].
    destruct (py_items (snd item)) as [values|]; simpl; [|discriminate].
    destruct ty; try discriminate.
    destruct (trial_suggest _ _ _ _) as [v|]; simpl; [|discriminate].
    intros Hrest. apply IH in Hrest.
    + simpl in Hrest. exact Hrest.
    + simpl. now rewrite Hacc.
Qed.

(** [_trial_parameter_sampler], when it returns *)
Lemma sampler_returns (self : Optimizer) (trial trial' : Trial)
      (trial_parameters : Dict.t yaml) (w w' : world Document) :
  _trial_parameter_sampler container_str trial_suggest self trial w
  = Done (trial_parameters, trial') w' ->
  exists parameters items sampled,
    fs_load_yaml (Path (parameter_yaml self)) (fs w) = Ok parameters /\
    py_items parameters = Ok items /\
    sample_parameters trial_suggest (Dict.empty, trial) items = Ok sampled /\
    w' = w /\
    trial' = with_workspace
               (snd sampled)
               (Path ("JINA_WORKSPACE_"
                        ++ String.concat "_" (map (py_str container_str)
                                                  (Dict.values (fst sampled)))))
    /\ trial_parameters
       = Dict.set (optimizer_workspace_env self)
                  (YStr (path_str
                           (Path ("JINA_WORKSPACE_"
                                    ++ String.concat
                                         "_" (map (py_str container_str)
                                                  (Dict.values (fst sampled)))))))
                  (fst sampled).
Proof.
  unfold _trial_parameter_sampler, load_yaml, bind, get_world.
  destruct (fs_load_yaml (Path (parameter_yaml self)) (fs w))
    as [parameters|] eqn:Hload; simpl; [|discriminate].
  destruct (py_items parameters) as [items|] eqn:Hitems; simpl; [|discriminate].
  destruct (sample_parameters trial_suggest (Dict.empty, trial) items)
    as [sampled|] eqn:Hsample; simpl; [|discriminate].
  unfold ret. intros [= <- <- <-].
  exists parameters, items, sampled. now repeat split.
Qed.

(** X13.  For a trial the study has just created (no parameter suggested
    yet), [_trial_parameter_sampler] reads the search space without
    changing the state.  The dictionary it returns is the trial's [params],
    as the search library records them, plus one entry: the name
    [workspace_env] bound to the text of the trial workspace.  The
    workspace is [JINA_WORKSPACE_] followed by the sampled values joined
    by underscores, and it is the [workspace] attribute of the trial. *)
Theorem sampler_names_the_workspace
        (self : Optimizer) (trial trial' : Trial)
        (trial_parameters : Dict.t yaml) (w w' : world Document) :
  trial_params trial = Dict.empty ->
  _trial_parameter_sampler container_str trial_suggest self trial w
  = Done (trial_parameters, trial') w' ->
  let workspace :=
    Path ("JINA_WORKSPACE_"
            ++ String.concat "_" (map (py_str container_str)
                                      (Dict.values (trial_params trial')))) in
  w' = w /\
  trial_workspace trial' = Some workspace /\
  trial_number trial' = trial_number trial /\
  trial_parameters
  = Dict.set (optimizer_workspace_env self) (YStr (path_str workspace))
             (trial_params trial') /\
  Dict.get (optimizer_workspace_env self) trial_parameters
  = Some (YStr (path_str workspace)).
Proof.
  intros Hfresh Hrun.
  destruct (sampler_returns self trial w Hrun)
    as (parameters & items & sampled & _ & _ & Hsample & -> & -> & ->).
  destruct (sample_parameters_recorded items (Dict.empty, trial)
                                       (acc' := sampled))
    as (Hrec & Hnum & _); [simpl; now rewrite Hfresh | assumption |].
  simpl in Hnum. simpl. rewrite <- Hrec. repeat split; try assumption.
  apply DictFacts.get_set_same.
Qed.

(** lines 126-128 stop at the first malformed entry *)
Lemma sample_parameters_stops (pre post : list (string * yaml))
      (item : string * yaml) (acc acc1 : Dict.t yaml * Trial) (e : exn) :
  sample_parameters trial_suggest acc pre = Ok acc1 ->
  sample_parameter trial_suggest acc1 item = Err e ->
  sample_parameters trial_suggest acc (pre ++ item :: post) = Err e.
Proof.
  revert acc. induction pre as [|first pre IH]; intros acc; simpl.
  - intros [= <-] Hitem. now rewrite Hitem.
  - destruct (sample_parameter trial_suggest acc first) as [acc'|];
      simpl; [|discriminate].
    apply IH.
Qed.

(** X14.  [_trial_parameter_sampler] checks the search space as it goes:
    a file that does not hold a mapping raises [AttributeError]; once the
    entries before it are sampled, an entry that is no mapping raises
    [TypeError], a mapping without ['type'] raises [KeyError('type')], and
    one whose ['type'] is not a string raises [TypeError].  In each case
    the exception is raised with the state unchanged, and nothing is
    suggested for the entry. *)
Theorem sampler_rejects_malformed_search_space
        (self : Optimizer) (trial : Trial) (w : world Document) :
  (forall parameters,
      fs_load_yaml (Path (parameter_yaml self)) (fs w) = Ok parameters ->
      (forall items, parameters <> YMap items) ->
      _trial_parameter_sampler container_str trial_suggest self trial w
      = Raise AttributeError w) /\
  (forall pre post param entry acc1 e,
      fs_load_yaml (Path (parameter_yaml self)) (fs w)
      = Ok (YMap (pre ++ (param, entry) :: post)) ->
      sample_parameters trial_suggest (Dict.empty, trial) pre = Ok acc1 ->
      entry_error entry = Some e ->
      _trial_parameter_sampler container_str trial_suggest self trial w
      = Raise e w).
Proof.
  split.
  - intros parameters Hload Hshape.
    unfold _trial_parameter_sampler, load_yaml, bind, get_world.
    rewrite Hload. simpl.
    destruct parameters; try reflexivity. now destruct (Hshape items).
  - intros pre post param entry acc1 e Hload Hpre Herr.
    assert (Hitem : sample_parameter trial_suggest acc1 (param, entry)
                    = Err e).
    { unfold sample_parameter. simpl.
      destruct entry as [| | | | | |values]; simpl in *;
        try (injection Herr as <-; reflexivity).
      destruct (Dict.get "type" values) as [ty|]; simpl.
      - destruct ty; try discriminate; injection Herr as <-; reflexivity.
      - injection Herr as <-. reflexivity. }
    unfold _trial_parameter_sampler, load_yaml, bind, get_world.
    rewrite Hload. simpl.
    now rewrite (sample_parameters_stops pre post (param, entry)
                                         (Dict.empty, trial) Hpre Hitem).
Qed.

(** X15.  Without [overwrite_trial_workspace], a trial whose workspace
    already holds a [pods] directory (the same values were sampled
    before) fails: [shutil.copytree] raises [FileExistsError], nothing is
    written and the pipeline is not run. *)
Theorem objective_refuses_an_existing_copy
        (self : Optimizer) (trial trial' : Trial)
        (trial_parameters : Dict.t yaml) (workspace : path)
        (w w1 : world Document) :
  overwrite_trial_workspace self = false ->
  _trial_parameter_sampler container_str trial_suggest self trial w
  = Done (trial_parameters, trial') w1 ->
  trial_workspace trial' = Some workspace ->
  fs_lookup (pod_dir self) (fs w1) = Some Dir ->
  fs_exists (path_join workspace (Path "pods")) (fs w1) = true ->
  _objective container_str flow_index flow_search trial_suggest self trial w
  = Raise FileExistsError w1.
Proof.
  intros Hkeep Hsampler Hws Hpods Hcopy.
  unfold _objective. unfold bind at 1. rewrite Hsampler. cbn [fst snd].
  unfold bind at 1. rewrite Hws. cbn [lift]. unfold ret at 1.
  rewrite Hkeep. unfold bind at 1. unfold ret at 1. unfold bind at 1.
  unfold _create_trial_pods. unfold bind at 1.
  unfold fs_call, bind, get_world. unfold fs_copytree. rewrite Hpods.
  unfold fs_exists in Hcopy.
  destruct (fs_lookup (path_join workspace (Path "pods")) (fs w1));
    [reflexivity | discriminate].
Qed.

End Sampler.

(** The first trial of the example study. *)
Lemma sampler_names_the_workspace_witness :
  exists trial_parameters trial',
    _trial_parameter_sampler Example.container_str Example.trial_suggest
                             Example.optimizer (Example.study_ask [])
                             Example.study_world
    = Done (trial_parameters, trial') Example.study_world /\
    trial_workspace trial' = Some ["JINA_WORKSPACE_1"] /\
    Dict.get "JINA_WORKSPACE" trial_parameters
    = Some (YStr "JINA_WORKSPACE_1").
Proof.
  pose proof (sampler_names_the_workspace
                Example.container_str Example.trial_suggest
                Example.optimizer (Example.study_ask []) Example.study_world
                (trial_parameters :=
                   [("JINA_DIM", YInt 1);
                    ("JINA_WORKSPACE", YStr "JINA_WORKSPACE_1")])
                (trial' :=
                   {| trial_number := 0;
                      trial_params := [("JINA_DIM", YInt 1)];
                      trial_workspace := Some ["JINA_WORKSPACE_1"] |})
                (w' := Example.study_world) eq_refl eq_refl)
    as (_ & Hws & _ & _ & Hget).
  do 2 eexists. split; [reflexivity|]. split; [exact Hws | exact Hget].
Defined.

(** The search space without ['type']. *)
Lemma sampler_rejects_malformed_search_space_witness :
  _trial_parameter_sampler Example.container_str Example.trial_suggest
                           Example.optimizer (Example.study_ask [])
                           Example.untyped_world
  = Raise (KeyError "type") Example.untyped_world.
Proof.
  exact (proj2 (sampler_rejects_malformed_search_space
                  Example.container_str Example.trial_suggest
                  Example.optimizer (Example.study_ask [])
                  Example.untyped_world)
               [] [] "JINA_DIM"
               (YMap [("low", YInt 1); ("high", YInt 2)])
               (Dict.empty, Example.study_ask []) (KeyError "type")
               eq_refl eq_refl eq_refl).
Defined.

(** The second run of a trial that sampled 1, workspaces being kept. *)
Lemma objective_refuses_an_existing_copy_witness :
  _objective Example.container_str Example.flow_index Example.flow_search
             Example.trial_suggest Example.keeping_optimizer
             (Example.study_ask []) Example.rerun_world
  = Raise FileExistsError Example.rerun_world.
Proof.
  eapply (objective_refuses_an_existing_copy
            Example.container_str Example.flow_index Example.flow_search
            Example.trial_suggest Example.keeping_optimizer
            (Example.study_ask []) (workspace := ["JINA_WORKSPACE_1"])
            Example.rerun_world eq_refl);
    [vm_compute; reflexivity | reflexivity | reflexivity | reflexivity].
Defined.

(** ** The flow files of a trial *)

Section TrialFlows.

Variable self : Optimizer.
Variable trial_dir : path.

Lemma get_app_absent {V} (k : string) (v : V) (done rest : Dict.t V) :
  ~ In k (Dict.keys done) ->
  Dict.get k (done ++ (k, v) :: rest) = Some v.
Proof.
  induction done as [|[k' v'] done IH]; simpl; intros Hnin.
  - now rewrite String.eqb_refl.
  - destruct (String.eqb k k') eqn:E.
    + apply String.eqb_eq in E. subst. tauto.
    + apply IH. tauto.
Qed.

Lemma redirect_uses_err (keys : list string) (e : exn) :
  fold_left (redirect_uses self trial_dir) keys (Err e) = Err e.
Proof. induction keys as [|k keys IH]; simpl; [reflexivity | exact IH]. Qed.

Lemma keys_app_cons_NoDup {V} (k : string) (v x : V) (done rest : Dict.t V) :
  NoDup (Dict.keys (done ++ (k, v) :: rest)) ->
  ~ In k (Dict.keys done) /\
  NoDup (Dict.keys ((done ++ [(k, x)]) ++ rest)).
Proof.
  unfold Dict.keys. rewrite <- app_assoc, !map_app. simpl. intros Hnd.
  split; [|exact Hnd].
  apply NoDup_remove_2 in Hnd. intros Hin. apply Hnd.
  apply in_or_app. now left.
Qed.

(** the loop of line 164 over the keys of a pod; [done] are the entries
    already visited *)
Lemma redirect_from (done rest : Dict.t yaml) :
  NoDup (Dict.keys (done ++ rest)) ->
  existsb bad_uses rest = false ->
  fold_left (redirect_uses self trial_dir) (Dict.keys rest) (Ok (done ++ rest))
  = Ok (done ++ map (redirected self trial_dir) rest).
Proof.
  revert done. induction rest as [|[k v] rest IH]; intros done Hnd Hgood.
  - reflexivity.
  - simpl in Hgood. apply orb_false_iff in Hgood. destruct Hgood as [Hk Hrest].
    destruct (keys_app_cons_NoDup
                k v (snd (redirected self trial_dir (k, v))) done rest Hnd)
      as [Hnin Hnd'].
    assert (Hstep : redirect_uses self trial_dir
                                  (Ok (done ++ (k, v) :: rest)) k
                    = Ok ((done ++ [redirected self trial_dir (k, v)])
                            ++ rest)).
    { unfold redirect_uses, redirected, bad_uses in *. simpl in *.
      destruct (String.prefix "uses" k); simpl in *.
      - rewrite get_app_absent by assumption.
        destruct v; try discriminate. unfold redirected_target.
        rewrite MoreDictFacts.set_app_absent by assumption.
        now rewrite <- app_assoc.
      - now rewrite <- app_assoc. }
    cbn [Dict.keys map fst fold_left]. rewrite Hstep.
    assert (Hkey : redirected self trial_dir (k, v)
                   = (k, snd (redirected self trial_dir (k, v)))).
    { unfold redirected. simpl. destruct (String.prefix "uses" k);
        [destruct v|]; reflexivity. }
    rewrite Hkey at 1.
    change (map fst rest) with (Dict.keys rest).
    rewrite IH by assumption. rewrite <- app_assoc. simpl.
    now rewrite <- Hkey.
Qed.

Lemma redirect_from_bad (done rest : Dict.t yaml) :
  NoDup (Dict.keys (done ++ rest)) ->
  existsb bad_uses rest = true ->
  fold_left (redirect_uses self trial_dir) (Dict.keys rest) (Ok (done ++ rest))
  = Err TypeError.
Proof.
  revert done. induction rest as [|[k v] rest IH]; intros done Hnd Hbad.
  - discriminate.
  - destruct (keys_app_cons_NoDup
                k v (snd (redirected self trial_dir (k, v))) done rest Hnd)
      as [Hnin Hnd'].
    cbn [Dict.keys map fst fold_left]. change (map fst rest) with (Dict.keys rest).
    destruct (bad_uses (k, v)) eqn:Hk.
    + assert (Hstep : redirect_uses self trial_dir
                                    (Ok (done ++ (k, v) :: rest)) k
                      = Err TypeError).
      { unfold redirect_uses, bad_uses in *. simpl in *.
        apply andb_true_iff in Hk. destruct Hk as [Hprefix Hstr].
        rewrite Hprefix, get_app_absent by assumption.
        destruct v; try reflexivity. discriminate. }
      rewrite Hstep. apply redirect_uses_err.
    + assert (Hstep : redirect_uses self trial_dir
                                    (Ok (done ++ (k, v) :: rest)) k
                      = Ok ((done ++ [(k, snd (redirected self trial_dir (k, v)))])
                              ++ rest)).
      { unfold redirect_uses, redirected, bad_uses in *. simpl in *.
        destruct (String.prefix "uses" k); simpl in *.
        - rewrite get_app_absent by assumption.
          destruct v; try discriminate. unfold redirected_target. simpl.
          rewrite MoreDictFacts.set_app_absent by assumption.
          now rewrite <- app_assoc.
        - now rewrite <- app_assoc. }
      rewrite Hstep. apply IH; [assumption|].
      simpl in Hbad. now rewrite Hk in Hbad.
Qed.

Lemma redirect_pod_done (pod : string * yaml) :
  well_formed_flow_pod pod ->
  redirect_pod self trial_dir pod = Ok (redirected_pod self trial_dir pod).
Proof.
  intros (val & Hval & Hnd & Hgood). unfold redirect_pod, redirected_pod.
  rewrite Hval. pose proof (redirect_from [] val Hnd Hgood) as Hfold.
  change ([] ++ val) with val in Hfold. now rewrite Hfold.
Qed.

Lemma redirect_pod_error (pod : string * yaml) (e : exn) :
  (forall val, snd pod = YMap val -> NoDup (Dict.keys val)) ->
  pod_error pod = Some e ->
  redirect_pod self trial_dir pod = Err e.
Proof.
  intros Hnd. unfold pod_error, redirect_pod.
  destruct (snd pod) as [| | | | | |val]; try (now intros [= <-]).
  destruct (existsb bad_uses val) eqn:Hbad; [|discriminate].
  intros [= <-].
  pose proof (redirect_from_bad [] val (Hnd val eq_refl) Hbad) as Hfold.
  change ([] ++ val) with val in Hfold. now rewrite Hfold.
Qed.

Lemma redirect_pods_done (pods : list (string * yaml)) :
  Forall well_formed_flow_pod pods ->
  map_result (redirect_pod self trial_dir) pods
  = Ok (map (redirected_pod self trial_dir) pods).
Proof.
  induction 1 as [|pod pods Hpod _ IH]; simpl; [reflexivity|].
  now rewrite redirect_pod_done, IH.
Qed.

Lemma redirect_pods_stop (pre post : list (string * yaml))
      (pod : string * yaml) (e : exn) :
  Forall well_formed_flow_pod pre ->
  redirect_pod self trial_dir pod = Err e ->
  map_result (redirect_pod self trial_dir) (pre ++ pod :: post) = Err e.
Proof.
  induction 1 as [|first pre Hfirst _ IH]; simpl; intros Hpod.
  - now rewrite Hpod.
  - now rewrite redirect_pod_done, IH.
Qed.

(** X16.  For a flow file whose [pods] entry is a mapping of well-formed
    pods, the rewriting of [_create_trial_flows] succeeds and changes the
    [pods] entry only: in every pod, every entry whose key starts with
    [uses] gets the path [trial_dir/pod_dir/name], [name] being the last
    part of its old target; all other entries of the pods, the order of
    pods and entries, and the rest of the file are kept. *)
Theorem trial_flow_redirects_uses (m pods : Dict.t yaml) :
  Dict.get "pods" m = Some (YMap pods) ->
  Forall well_formed_flow_pod pods ->
  trial_flow_config self trial_dir (YMap m)
  = Ok (YMap (Dict.set "pods"
                       (YMap (map (redirected_pod self trial_dir) pods)) m))
  /\ (forall key, key <> "pods" ->
        Dict.get key (Dict.set "pods"
                               (YMap (map (redirected_pod self trial_dir) pods))
                               m)
        = Dict.get key m)
  /\ Dict.keys (map (redirected_pod self trial_dir) pods) = Dict.keys pods.
Proof.
  intros Hpods Hwf. split; [|split].
  - unfold trial_flow_config. simpl. rewrite Hpods. simpl.
    now rewrite redirect_pods_done.
  - intros key Hkey. now apply DictFacts.get_set_other.
  - unfold Dict.keys. rewrite map_map. apply map_ext.
    intros pod. unfold redirected_pod. now destruct (snd pod).
Qed.

(** X17.  The rewriting of a flow file fails on a file that is not as
    expected: a mapping without [pods] raises [KeyError('pods')], a
    [pods] entry that is no mapping raises [AttributeError], and, the
    pods before it being well formed, a pod without configuration (or
    whose configuration is no mapping) raises [AttributeError] and a pod
    with a [uses] entry that is no string raises [TypeError]. *)
Theorem trial_flow_rejects_malformed_file (m : Dict.t yaml) :
  (Dict.get "pods" m = None ->
   trial_flow_config self trial_dir (YMap m) = Err (KeyError "pods")) /\
  (forall v, Dict.get "pods" m = Some v -> (forall pods, v <> YMap pods) ->
             trial_flow_config self trial_dir (YMap m) = Err AttributeError) /\
  (forall pre pod post e,
      Dict.get "pods" m = Some (YMap (pre ++ pod :: post)) ->
      Forall well_formed_flow_pod pre ->
      (forall val, snd pod = YMap val -> NoDup (Dict.keys val)) ->
      pod_error pod = Some e ->
      trial_flow_config self trial_dir (YMap m) = Err e).
Proof.
  split; [|split].
  - intros Hpods. unfold trial_flow_config. simpl. now rewrite Hpods.
  - intros v Hpods Hshape. unfold trial_flow_config. simpl. rewrite Hpods.
    simpl. destruct v; try reflexivity. now destruct (Hshape items).
  - intros pre pod post e Hpods Hpre Hnd Herr.
    unfold trial_flow_config. simpl. rewrite Hpods. simpl.
    now rewrite (@redirect_pods_stop pre post pod e Hpre
                                     (@redirect_pod_error pod e Hnd Herr)).
Qed.

End TrialFlows.

Lemma example_query_flow_pods :
  Forall well_formed_flow_pod
         [ ("encoder", YMap [ ("uses", YStr "pods/encoder.yml");
                              ("uses_before", YStr "/opt/pods/chunk.yml");
                              ("parallel", YInt 2) ]);
           ("ranker", YMap [ ("timeout", YInt 10) ]) ].
Proof.
  repeat constructor; eexists; (split; [reflexivity|]);
    (split; [|reflexivity]); repeat constructor; simpl; intuition discriminate.
Defined.

(** The query flow of the second trial: both [uses] entries of the
    encoder point into the trial's pods, the rest is kept. *)
Lemma trial_flow_redirects_uses_witness :
  trial_flow_config Example.optimizer ["JINA_WORKSPACE_2"]
                    (YMap Example.query_flow)
  = Ok (YMap
          [ ("version", YInt 1);
            ("pods",
             YMap [ ("encoder",
                     YMap [ ("uses",
                             YStr "JINA_WORKSPACE_2/pods/encoder.yml");
                            ("uses_before",
                             YStr "JINA_WORKSPACE_2/pods/chunk.yml");
                            ("parallel", YInt 2) ]);
                    ("ranker", YMap [ ("timeout", YInt 10) ]) ]) ]).
Proof.
  exact (proj1 (trial_flow_redirects_uses
                  Example.optimizer ["JINA_WORKSPACE_2"] Example.query_flow
                  eq_refl example_query_flow_pods)).
Defined.

(** A pod without configuration. *)
Lemma trial_flow_rejects_malformed_file_witness :
  trial_flow_config Example.optimizer ["JINA_WORKSPACE_2"]
                    (YMap Example.broken_flow)
  = Err AttributeError.
Proof.
  refine (proj2 (proj2 (trial_flow_rejects_malformed_file
                          Example.optimizer ["JINA_WORKSPACE_2"]
                          Example.broken_flow))
                [("encoder", YMap [("uses", YStr "pods/encoder.yml")])]
                ("ranker", YNull) [] AttributeError eq_refl _ _ eq_refl).
  - repeat constructor. eexists. split; [reflexivity|].
    split; [|reflexivity]. repeat constructor; simpl; intuition.
  - discriminate.
Defined.

(** ** Paths as text *)

Lemma string_app_assoc (a b c : string) : ((a ++ b) ++ c = a ++ b ++ c)%string.
Proof. induction a as [|x a IH]; simpl; [reflexivity | now rewrite IH]. Qed.

Lemma string_app_nil_r (a : string) : (a ++ EmptyString = a)%string.
Proof. induction a as [|x a IH]; simpl; [reflexivity | now rewrite IH]. Qed.

Lemma split_slash_plain (s rest cur : string) :
  no_slash s = true ->
  split_slash (s ++ rest) cur = split_slash rest (cur ++ s).
Proof.
  revert cur. induction s as [|c s IH]; intros cur Hs; simpl.
  - now rewrite string_app_nil_r.
  - simpl in Hs. apply andb_true_iff in Hs. destruct Hs as [Hc Hs].
    apply negb_true_iff in Hc. rewrite Hc. rewrite IH by assumption.
    now rewrite string_app_assoc.
Qed.

Lemma split_slash_concat (x : string) (l : list string) (cur : string) :
  forallb no_slash (x :: l) = true ->
  split_slash (String.concat "/" (x :: l)) cur = (cur ++ x)%string :: l.
Proof.
  revert x cur. induction l as [|y l IH]; intros x cur Hplain.
  - simpl in Hplain. rewrite andb_true_r in Hplain.
    cbn [String.concat].
    rewrite <- (string_app_nil_r x) at 1.
    now rewrite split_slash_plain.
  - cbn [forallb] in Hplain. apply andb_true_iff in Hplain.
    destruct Hplain as [Hx Hrest].
    change (String.concat "/" (x :: y :: l))
      with (x ++ String "/"%char (String.concat "/" (y :: l)))%string.
    rewrite split_slash_plain by assumption.
    cbn [split_slash]. rewrite Ascii.eqb_refl.
    now rewrite IH.
Qed.

Lemma plain_parts_no_slash (l : list string) :
  forallb plain_part l = true -> forallb no_slash l = true.
Proof.
  induction l as [|x l IH]; simpl; [reflexivity|].
  unfold plain_part at 1. rewrite !andb_true_iff. tauto.
Qed.

Lemma plain_parts_real (l : list string) :
  forallb plain_part l = true -> filter is_real_part l = l.
Proof.
  induction l as [|x l IH]; simpl; [reflexivity|].
  unfold plain_part at 1. rewrite !andb_true_iff. intros [[Hreal _] Hl].
  rewrite Hreal. now rewrite IH.
Qed.

Lemma prefix_other_char (a c : ascii) (t : string) :
  Ascii.eqb c a = false ->
  String.prefix (String a EmptyString) (String c t) = false.
Proof.
  intros Hne. cbn [String.prefix].
  destruct (ascii_dec a c) as [-> | _]; [|reflexivity].
  now rewrite Ascii.eqb_refl in Hne.
Qed.

Lemma prefix_same_char (a : ascii) (t : string) :
  String.prefix (String a EmptyString) (String a t) = true.
Proof.
  cbn [String.prefix]. destruct (ascii_dec a a) as [_ | Hne];
    [now destruct t | congruence].
Qed.

Lemma plain_part_first (x : string) (rest : string) :
  plain_part x = true -> String.prefix "/" (x ++ rest) = false.
Proof.
  unfold plain_part, is_real_part. destruct x as [|c x]; [discriminate|].
  cbn [no_slash]. rewrite !andb_true_iff. intros [_ [Hc _]].
  apply negb_true_iff in Hc. now apply prefix_other_char.
Qed.

Lemma plain_part_not_root (x : string) :
  plain_part x = true -> String.eqb x "/" = false.
Proof.
  intros Hx. destruct (String.eqb_spec x "/") as [-> | _];
    [discriminate | reflexivity].
Qed.

(** X18.  The text of a path reads back as the path: for a path whose
    parts are plain, [Path(str(p))] is [p].  So the workspace that the
    sampler writes into the trial parameters as text, once exported as
    the workspace variable, is the directory [run_indexing] resolves. *)
Theorem path_text_round_trip (p : path) :
  well_formed_path p = true ->
  Path (path_str p) = p /\
  forall {A : Arith} (Document : Type) (r : FlowRunner Document)
         (env : Dict.t string) (workspace : option path),
    Dict.get (workspace_env r) env = Some (path_str p) ->
    resolve_workspace r env workspace = Ok p.
Proof.
  intros Hwf.
  assert (Hpath : Path (path_str p) = p).
  { destruct p as [|x l]; [reflexivity|].
    unfold well_formed_path, is_absolute in Hwf. unfold path_str, Path.
    destruct (String.eqb x "/") eqn:Hroot.
    - apply String.eqb_eq in Hroot. subst x. simpl in Hwf.
      cbn [append]. rewrite prefix_same_char. cbn [app]. f_equal.
      destruct l as [|y l]; [reflexivity|].
      cbn [split_slash]. rewrite Ascii.eqb_refl.
      rewrite split_slash_concat by now apply plain_parts_no_slash.
      cbn [append].
      change (filter is_real_part (EmptyString :: y :: l))
        with (filter is_real_part (y :: l)).
      now apply plain_parts_real.
    - simpl in Hwf. apply andb_true_iff in Hwf. destruct Hwf as [Hx Hl].
      assert (Hprefix : String.prefix "/" (String.concat "/" (x :: l)) = false).
      { destruct l as [|y l].
        - cbn [String.concat]. rewrite <- (string_app_nil_r x).
          now apply plain_part_first.
        - change (String.concat "/" (x :: y :: l))
            with (x ++ String "/"%char (String.concat "/" (y :: l)))%string.
          now apply plain_part_first. }
      rewrite Hprefix. cbn [app].
      rewrite split_slash_concat.
      + apply (plain_parts_real (x :: l)). simpl. now rewrite Hx, Hl.
      + apply (plain_parts_no_slash (x :: l)). simpl. now rewrite Hx, Hl. }
  split; [assumption|].
  intros A Document r env workspace Hget. unfold resolve_workspace.
  now rewrite Hget, Hpath.
Qed.

Lemma path_text_round_trip_witness :
  Path (path_str ["JINA_WORKSPACE_1"; "index"]) = ["JINA_WORKSPACE_1"; "index"]
  /\ Path (path_str ["/"; "data"; "workspace"]) = ["/"; "data"; "workspace"].
Proof.
  split.
  - exact (proj1 (path_text_round_trip ["JINA_WORKSPACE_1"; "index"] eq_refl)).
  - exact (proj1 (path_text_round_trip ["/"; "data"; "workspace"] eq_refl)).
Defined.

(** ** Dollar signs *)

Lemma lstrip_dollar_no_dollar (s : string) :
  String.prefix "$" (lstrip_dollar s) = false.
Proof.
  induction s as [|c s IH]; [reflexivity|]. cbn [lstrip_dollar].
  destruct (Ascii.eqb c "$") eqn:E; [assumption|].
  now apply prefix_other_char.
Qed.

(** X19.  [lstrip('$')] removes the whole run of leading dollar signs and
    nothing else: a text is some dollar signs followed by its stripped
    form, the stripped form does not start with a dollar sign, and
    stripping twice is stripping once.  A token names the same parameter
    with no, one or several dollar signs, and an optimizer built with
    ['$JINA_WORKSPACE'] is the one built with ['JINA_WORKSPACE']. *)
Theorem lstrip_dollar_strips_the_run (s : string) :
  (exists n, s = (dollars n ++ lstrip_dollar s)%string) /\
  String.prefix "$" (lstrip_dollar s) = false /\
  lstrip_dollar (lstrip_dollar s) = lstrip_dollar s /\
  (forall n, lstrip_dollar (dollars n ++ s) = lstrip_dollar s) /\
  (forall pods index query parameters best overwrite n,
      Optimizer_init pods index query parameters best overwrite
                     (dollars n ++ s)
      = Optimizer_init pods index query parameters best overwrite s).
Proof.
  assert (Hrun : forall n t, lstrip_dollar (dollars n ++ t) = lstrip_dollar t).
  { induction n as [|n IH]; intros t; simpl; [reflexivity | apply IH]. }
  split; [|split; [|split; [|split]]].
  - induction s as [|c s IH]; simpl; [now exists 0%nat|].
    destruct (Ascii.eqb c "$") eqn:E.
    + apply Ascii.eqb_eq in E. subst c. destruct IH as (n & Hn).
      exists (S n). simpl. now rewrite <- Hn.
    + now exists 0%nat.
  - apply lstrip_dollar_no_dollar.
  - pose proof (lstrip_dollar_no_dollar s) as Hno.
    destruct (lstrip_dollar s) as [|c t]; [reflexivity|].
    cbn [lstrip_dollar]. destruct (Ascii.eqb_spec c "$") as [-> | _];
      [|reflexivity].
    now rewrite prefix_same_char in Hno.
  - intros n. apply Hrun.
  - intros pods index query parameters best overwrite n.
    unfold Optimizer_init. now rewrite Hrun.
Qed.

(** ** Pod files that are not as expected *)

Section MalformedPods.

Variable container_str : yaml -> string.
Variable trial_parameters : Dict.t yaml.

Lemma replace_section_absent (section : string) (m : Dict.t yaml) :
  Dict.get section m = None ->
  replace_section container_str trial_parameters (YMap m) section
  = Ok (YMap m).
Proof.
  intros Hget. unfold replace_section. simpl. unfold Dict.contains.
  now rewrite Hget.
Qed.

Lemma replace_section_not_mapping (section : string) (m : Dict.t yaml)
      (v : yaml) :
  Dict.get section m = Some v -> (forall sec, v <> YMap sec) ->
  replace_section container_str trial_parameters (YMap m) section
  = Err AttributeError.
Proof.
  intros Hget Hshape. unfold replace_section. simpl. unfold Dict.contains.
  rewrite Hget. simpl. destruct v; try reflexivity.
  now destruct (Hshape items).
Qed.

(** X20.  A pod file with a [with] or [metas] key but no mapping under it
    (a section left empty, a scalar, a list) makes the substitution raise
    [AttributeError], whatever the sampled parameters, and a pod file that
    holds no collection at all (an empty file, a number) raises
    [TypeError]: [_create_trial_pods] writes no pod for such a file. *)
Theorem pod_file_with_empty_section_is_rejected (m : Dict.t yaml) (v : yaml) :
  Dict.get "components" m = None ->
  Dict.get "with" m = Some v \/
  (Dict.get "with" m = None /\ Dict.get "metas" m = Some v) ->
  (forall sec, v <> YMap sec) ->
  trial_pod_config container_str (YMap m) trial_parameters
  = Err AttributeError
  /\ _replace_param container_str (YMap m) trial_parameters
     = Err AttributeError
  /\ (forall doc,
         match doc with
         | YNull | YBool _ | YInt _ | YFloat _ =>
             trial_pod_config container_str doc trial_parameters
             = Err TypeError
         | _ => True
         end).
Proof.
  intros Hcomp Hsection Hshape.
  assert (Hreplace : _replace_param container_str (YMap m) trial_parameters
                     = Err AttributeError).
  { unfold _replace_param. cbn [fold_left rbind].
    destruct Hsection as [Hwith | [Hwith Hmetas]].
    - now rewrite (replace_section_not_mapping "with" m Hwith Hshape).
    - rewrite (replace_section_absent "with" m Hwith). cbn [rbind].
      now rewrite (replace_section_not_mapping "metas" m Hmetas Hshape). }
  split; [|split].
  - unfold trial_pod_config. simpl. unfold Dict.contains. rewrite Hcomp.
    simpl. exact Hreplace.
  - exact Hreplace.
  - intros doc. now destruct doc.
Qed.

End MalformedPods.

Lemma pod_file_with_empty_section_is_rejected_witness :
  trial_pod_config Example.container_str (YMap Example.empty_section_pod)
                   Example.trial_parameters
  = Err AttributeError.
Proof.
  apply (pod_file_with_empty_section_is_rejected
           Example.container_str Example.trial_parameters
           Example.empty_section_pod (v := YNull)).
  - reflexivity.
  - left. reflexivity.
  - discriminate.
Defined.

(** ** The files a trial writes *)

(** a dump that succeeds is read back, and changes no other path *)
Lemma fs_dump_returns (p : path) (v : yaml) (fs fs' : filesystem) :
  fs_dump_yaml p v fs = Ok fs' ->
  fs_load_yaml p fs' = Ok v /\
  forall q, q <> p -> fs_lookup q fs' = fs_lookup q fs.
Proof.
  intros Hdump.
  assert (Hp : fs_lookup p fs <> Some Dir).
  { intros Hdir. unfold fs_dump_yaml in Hdump. now rewrite Hdir in Hdump. }
  pose proof (lookup_not_dir_not_root p fs Hp) as Hroot.
  assert (Hfs : fs' = fs_put p (File (Some v)) fs).
  { unfold fs_dump_yaml in Hdump.
    destruct (fs_lookup p fs) as [[|c]|]; [congruence | congruence |].
    destruct (fs_lookup (path_parent p) fs) as [[|c]|]; congruence. }
  subst fs'. split.
  - unfold fs_load_yaml. now rewrite fs_lookup_put_same.
  - intros q Hq. now apply fs_lookup_put_other.
Qed.

Section TrialFiles.

Context {A : Arith}.
Variable Document : Type.
Variable container_str : yaml -> string.

Lemma create_trial_flow_returns (self : Optimizer)
      (trial_dir trial_flow_dir file_path : path) (w w' : world Document) :
  create_trial_flow self trial_dir trial_flow_dir file_path w = Done tt w' ->
  exists parameters config,
    fs_load_yaml file_path (fs w) = Ok parameters /\
    trial_flow_config self trial_dir parameters = Ok config /\
    fs_load_yaml (path_join trial_flow_dir (Path (path_name file_path)))
                 (fs w') = Ok config /\
    forall q, q <> path_join trial_flow_dir (Path (path_name file_path)) ->
              fs_lookup q (fs w') = fs_lookup q (fs w).
Proof.
  unfold create_trial_flow, load_yaml, fs_call, bind, get_world.
  destruct (fs_load_yaml file_path (fs w)) as [parameters|] eqn:Hload;
    simpl; [|discriminate].
  destruct (trial_flow_config self trial_dir parameters) as [config|]
    eqn:Hconfig; simpl; [|discriminate].
  destruct (fs_dump_yaml _ config (fs w)) as [fs'|] eqn:Hdump;
    simpl; [|discriminate].
  intros [= <-]. simpl.
  destruct (fs_dump_returns _ _ _ Hdump) as [Hread Hkept].
  exists parameters, config. now repeat split.
Qed.

Lemma fs_load_same_lookup (p : path) (fs fs' : filesystem) :
  fs_lookup p fs' = fs_lookup p fs -> fs_load_yaml p fs' = fs_load_yaml p fs.
Proof. intros H. unfold fs_load_yaml. now rewrite H. Qed.

Lemma fs_load_not_dir (p : path) (fs : filesystem) (v : yaml) :
  fs_load_yaml p fs = Ok v -> fs_lookup p fs <> Some Dir.
Proof. unfold fs_load_yaml. intros Hload Hdir. now rewrite Hdir in Hload. Qed.

(** X21.  When [_create_trial_flows] returns, the trial's query flow file
    holds the rewritten query flow.  The trial's index flow file holds the
    rewritten index flow only if the two flow files have different names:
    both are written under [trial_dir/flows] by name, so with equal names
    the query flow is written over the index flow, and the trial would
    index with the query flow. *)
Theorem trial_flow_files_written
        (self : Optimizer) (trial_dir : path) (w w' : world Document) :
  _create_trial_flows self trial_dir w = Done tt w' ->
  let flows := path_join trial_dir (Path "flows") in
  let index_file := path_join flows (Path (path_name (index_yaml self))) in
  let query_file := path_join flows (Path (path_name (query_yaml self))) in
  exists index_parameters index_config query_parameters query_config,
    fs_load_yaml (index_yaml self) (fs w) = Ok index_parameters /\
    trial_flow_config self trial_dir index_parameters = Ok index_config /\
    (query_yaml self <> index_file ->
     fs_load_yaml (query_yaml self) (fs w) = Ok query_parameters) /\
    trial_flow_config self trial_dir query_parameters = Ok query_config /\
    fs_load_yaml query_file (fs w') = Ok query_config /\
    fs_load_yaml index_file (fs w')
    = Ok (if path_eqb index_file query_file then query_config
          else index_config).
Proof.
  intros Hrun flows index_file query_file.
  unfold _create_trial_flows in Hrun. fold flows in Hrun.
  unfold bind at 1 in Hrun. unfold fs_call, bind, get_world in Hrun.
  destruct (fs_mkdir flows (fs w)) as [fs1|] eqn:Hmkdir;
    [|discriminate Hrun].
  cbn [lift ret set_fs for_each] in Hrun.
  destruct (fs_mkdir_done _ _ Hmkdir) as [Hflows Hother].
  set (w1 := {| environ := environ w; fs := fs1; out := out w;
                flow_runner := flow_runner w; callback := callback w |})
    in Hrun.
  unfold bind, ret in Hrun.
  destruct (create_trial_flow self trial_dir flows (index_yaml self) w1)
    as [[] w2|] eqn:Hindex; [|discriminate Hrun].
  destruct (create_trial_flow self trial_dir flows (query_yaml self) w2)
    as [[] w3|] eqn:Hquery; [|discriminate Hrun].
  injection Hrun as <-.
  destruct (create_trial_flow_returns _ _ _ _ _ Hindex)
    as (ip & ic & Hiload & Hiconfig & Hiread & Hikept).
  destruct (create_trial_flow_returns _ _ _ _ _ Hquery)
    as (qp & qc & Hqload & Hqconfig & Hqread & Hqkept).
  fold index_file in Hiread, Hikept. fold query_file in Hqread, Hqkept.
  change (fs w1) with fs1 in Hiload, Hikept.
  exists ip, ic, qp, qc.
  assert (Hidx : index_yaml self <> flows).
  { intros Heq. apply fs_load_not_dir in Hiload. now rewrite Heq in Hiload. }
  split; [|split; [assumption|split; [|split; [assumption|split]]]].
  - rewrite <- Hiload. symmetry. apply fs_load_same_lookup. now apply Hother.
  - intros Hqy. rewrite <- Hqload. symmetry. apply fs_load_same_lookup.
    rewrite Hikept by assumption. apply Hother.
    intros Heq. apply fs_load_not_dir in Hqload.
    rewrite Hikept in Hqload by assumption. now rewrite Heq in Hqload.
  - assumption.
  - destruct (path_eqb index_file query_file) eqn:E.
    + apply path_eqb_eq in E. now rewrite E.
    + rewrite <- Hiread. apply fs_load_same_lookup. apply Hqkept.
      intros Heq. rewrite Heq, path_eqb_refl in E. discriminate.
Qed.

End TrialFiles.


(** Two flow files named [flow.yml]: the trial's only flow file holds the
    rewritten query flow. *)
Lemma trial_flow_files_written_witness :
  exists w',
    _create_trial_flows Example.clashing_optimizer ["JINA_WORKSPACE_1"]
                        Example.clashing_world = Done tt w' /\
    fs_load_yaml ["JINA_WORKSPACE_1"; "flows"; "flow.yml"] (fs w')
    = Ok (YMap [("pods",
                 YMap [("encoder",
                        YMap [("uses",
                               YStr "JINA_WORKSPACE_1/pods/encoder.yml")])])]).
Proof.
  destruct (_create_trial_flows Example.clashing_optimizer ["JINA_WORKSPACE_1"]
                                Example.clashing_world)
    as [[] w'|e w'] eqn:Hrun; [|vm_compute in Hrun; discriminate Hrun].
  exists w'. split; [reflexivity|].
  destruct (trial_flow_files_written _ _ _ Hrun)
    as (ip & ic & qp & qc & _ & _ & Hqload & Hqconfig & _ & Hread).
  specialize (Hqload ltac:(discriminate)).
  vm_compute in Hqload. injection Hqload as <-.
  vm_compute in Hqconfig. injection Hqconfig as <-.
  exact Hread.
Defined.

Section TrialPods.

Context {A : Arith}.
Variable Document : Type.
Variable container_str : yaml -> string.
Variable trial_parameters : Dict.t yaml.
Variable trial_pod_dir : path.



End TrialPods.

Section TrialPodsWritten.

Context {A : Arith}.
Variable Document : Type.
Variable container_str : yaml -> string.


End TrialPodsWritten.

